(** * jetson_jtop_helper: a shallow embedding of [get_jetson_info]

    The script [jetson/jetson_jtop_helper.py] opens a handle on the jtop
    monitoring service, optionally performs two management actions, reads
    thirteen categories of board state and returns one mapping: either the
    snapshot or a single [error] record.

    The embedding has three layers:
    - [pyval], the dynamically typed values the script manipulates, with
      the interpreter operations the script applies to them ([.get],
      subscripting, [len], iteration, [round], [int], truthiness), each
      returning a value or raising;
    - a state-and-exception monad [M] over the external world: the jtop
      handle is a black box answering [call]s, every call is logged;
    - the script itself, statement by statement. *)

From Stdlib Require Import String Ascii ZArith List Bool Lia.
From Stdlib Require Import SpecFloat DecimalString DecimalPos.
Import ListNotations.
Open Scope string_scope.
Open Scope Z_scope.
Set Warnings "-register-all".

(** ** Values *)

(** A mapping is an insertion-ordered association list with string keys;
    an object carries its class name, its truth value ([__bool__]) and its
    attributes.  A character of a [string] stands for one code point. *)
Inductive pyval : Type :=
| PNone
| PBool (b : bool)
| PInt (n : Z)
| PFloat (x : spec_float)
| PStr (s : string)
| PList (xs : list pyval)
| PDict (kvs : list (string * pyval))
| PObj (cls : string) (truth : bool) (attrs : list (string * pyval)).

Definition dict : Type := list (string * pyval).

(** ** Exceptions

    Every exception the script can observe derives from [Exception]
    (interrupts and interpreter exit, which do not, are outside the model).
    The two handlers of the script only separate the backend's own class
    from all the others; an exception is represented by that distinction
    and by [str(e)]. *)
Inductive exn : Type :=
| JtopException (msg : string)
| OtherException (msg : string).

Definition str_exn (e : exn) : string :=
  match e with
  | JtopException m => m
  | OtherException m => m
  end.

Inductive res (A : Type) : Type :=
| Ok (a : A)
| Raise (e : exn).
Arguments Ok {A} a.
Arguments Raise {A} e.

Definition res_bind {A B : Type} (r : res A) (k : A -> res B) : res B :=
  match r with
  | Ok a => k a
  | Raise e => Raise e
  end.

Notation "'do' x <- r ; k" := (res_bind r (fun x => k))
  (at level 10, x name, r at level 100, k at level 200).

(** ** Mappings *)

Fixpoint dict_get (k : string) (d : dict) : option pyval :=
  match d with
  | [] => None
  | (k', v) :: rest => if String.eqb k k' then Some v else dict_get k rest
  end.

(** [d[k] = v]: an existing key keeps its position, a new key goes last. *)
Fixpoint dict_set (k : string) (v : pyval) (d : dict) : dict :=
  match d with
  | [] => [(k, v)]
  | (k', v') :: rest =>
      if String.eqb k k' then (k', v) :: rest else (k', v') :: dict_set k v rest
  end.

Definition dict_keys (d : dict) : list string := map fst d.

Definition has_key (k : string) (d : dict) : bool :=
  match dict_get k d with Some _ => true | None => false end.

(** ** Interpreter operations *)

Definition type_name (v : pyval) : string :=
  match v with
  | PNone => "NoneType"
  | PBool _ => "bool"
  | PInt _ => "int"
  | PFloat _ => "float"
  | PStr _ => "str"
  | PList _ => "list"
  | PDict _ => "dict"
  | PObj cls _ _ => cls
  end.

Definition attribute_error {A : Type} (v : pyval) (name : string) : res A :=
  Raise (OtherException
    ("'" ++ type_name v ++ "' object has no attribute '" ++ name ++ "'")).

Definition float_is_zero (x : spec_float) : bool :=
  match x with
  | S754_zero _ => true
  | _ => false
  end.

(** Truth value testing, as done by [if v:] and [bool(v)]. *)
Definition truthy (v : pyval) : bool :=
  match v with
  | PNone => false
  | PBool b => b
  | PInt n => negb (n =? 0)
  | PFloat x => negb (float_is_zero x)
  | PStr s => negb (String.eqb s "")
  | PList xs => match xs with [] => false | _ => true end
  | PDict kvs => match kvs with [] => false | _ => true end
  | PObj _ t _ => t
  end.

(** [d.get(k, dflt)] on a mapping. *)
Definition get_or (d : dict) (k : string) (dflt : pyval) : pyval :=
  match dict_get k d with
  | Some x => x
  | None => dflt
  end.

(** [v.get(k, dflt)] *)
Definition py_get (v : pyval) (k : string) (dflt : pyval) : res pyval :=
  match v with
  | PDict d => Ok (get_or d k dflt)
  | _ => attribute_error v "get"
  end.

(** [v.items()] *)
Definition py_items (v : pyval) : res (list (string * pyval)) :=
  match v with
  | PDict d => Ok d
  | _ => attribute_error v "items"
  end.

(** [v.name], the read of an attribute none of the built-in types has. *)
Definition py_getattr (v : pyval) (name : string) : res pyval :=
  match v with
  | PObj _ _ attrs =>
      match dict_get name attrs with
      | Some x => Ok x
      | None => attribute_error v name
      end
  | _ => attribute_error v name
  end.

(** [v[k]] with a string key.  The script subscripts only values on which
    [.get] has already succeeded, so the non-mapping cases are never
    reached. *)
Definition py_getitem_str (v : pyval) (k : string) : res pyval :=
  match v with
  | PDict d =>
      match dict_get k d with
      | Some x => Ok x
      | None => Raise (OtherException ("'" ++ k ++ "'"))
      end
  | PStr _ => Raise (OtherException "string indices must be integers")
  | PList _ =>
      Raise (OtherException "list indices must be integers or slices, not str")
  | _ => Raise (OtherException
           ("'" ++ type_name v ++ "' object is not subscriptable"))
  end.

Definition string_of_Z (n : Z) : string := NilZero.string_of_int (Z.to_int n).

Definition char_at (s : string) (i : nat) : option pyval :=
  match String.get i s with
  | Some c => Some (PStr (String c EmptyString))
  | None => None
  end.

(** [v[i]] with a non-negative integer literal [i]. *)
Definition py_getitem_int (v : pyval) (i : nat) : res pyval :=
  match v with
  | PList xs =>
      match nth_error xs i with
      | Some x => Ok x
      | None => Raise (OtherException "list index out of range")
      end
  | PStr s =>
      match char_at s i with
      | Some c => Ok c
      | None => Raise (OtherException "string index out of range")
      end
  | PDict _ => Raise (OtherException (string_of_Z (Z.of_nat i)))
  | _ => Raise (OtherException
           ("'" ++ type_name v ++ "' object is not subscriptable"))
  end.

(** [len(v)] *)
Definition py_len (v : pyval) : res nat :=
  match v with
  | PList xs => Ok (List.length xs)
  | PStr s => Ok (String.length s)
  | PDict d => Ok (List.length d)
  | _ => Raise (OtherException
           ("object of type '" ++ type_name v ++ "' has no len()"))
  end.

Fixpoint chars_of (s : string) : list pyval :=
  match s with
  | EmptyString => []
  | String c rest => PStr (String c EmptyString) :: chars_of rest
  end.

(** The elements visited by [for x in v]. *)
Definition py_iter (v : pyval) : res (list pyval) :=
  match v with
  | PList xs => Ok xs
  | PStr s => Ok (chars_of s)
  | PDict d => Ok (map (fun kv => PStr (fst kv)) d)
  | _ => Raise (OtherException
           ("'" ++ type_name v ++ "' object is not iterable"))
  end.

Definition is_list (v : pyval) : bool :=
  match v with PList _ => true | _ => false end.

(** [v == "..."] against a string literal. *)
Definition eq_str (v : pyval) (s : string) : bool :=
  match v with PStr s' => String.eqb s' s | _ => false end.

(** [round(v, 1)].  Integers and booleans go through [int.__round__], which
    returns the integer itself for a non-negative number of digits.  The
    rounding of a binary float to one decimal place is the interpreter's:
    it is taken as a parameter, [round_float]. *)
Definition py_round1 (round_float : spec_float -> spec_float) (v : pyval)
  : res pyval :=
  match v with
  | PInt n => Ok (PInt n)
  | PBool b => Ok (PInt (if b then 1 else 0))
  | PFloat x => Ok (PFloat (round_float x))
  | _ => Raise (OtherException
           ("type " ++ type_name v ++ " doesn't define __round__ method"))
  end.

(** *** [int(s)] on a string

    A character of a string stands for the code point of the same number,
    so the strings of the model are the strings of code points below 256.
    On these, base-10 conversion is as the interpreter does it: the white
    space around the literal is dropped (code points 9 to 13, 32, 133 and
    160; the separators 28 to 31 are not white space for [int]), one sign
    is allowed, the digits are 0 to 9 and may be separated by single
    underscores, and a literal of more than 4300 digits is refused (the
    interpreter's default limit, which the script does not change).
    [None] stands for [ValueError]. *)
Definition is_space (c : ascii) : bool :=
  let n := nat_of_ascii c in
  (Nat.eqb n 32 || (Nat.leb 9 n && Nat.leb n 13)
   || Nat.eqb n 133 || Nat.eqb n 160)%bool.

Definition digit_of (c : ascii) : option Z :=
  let n := nat_of_ascii c in
  if (Nat.leb 48 n && Nat.leb n 57)%bool then Some (Z.of_nat (n - 48)) else None.

Fixpoint lstrip (cs : list ascii) : list ascii :=
  match cs with
  | c :: rest => if is_space c then lstrip rest else cs
  | [] => []
  end.

Definition strip (cs : list ascii) : list ascii :=
  rev (lstrip (rev (lstrip cs))).

Fixpoint digits_value (cs : list ascii) (acc : Z) (after_digit : bool)
  : option Z :=
  match cs with
  | [] => if after_digit then Some acc else None
  | c :: rest =>
      match digit_of c with
      | Some d => digits_value rest (10 * acc + d) true
      | None =>
          if (Ascii.eqb c "_" && after_digit)%bool
          then digits_value rest acc false
          else None
      end
  end.

(** The interpreter's default limit on the digits of a literal. *)
Definition max_str_digits : Z := 4300.

Definition is_digit (c : ascii) : bool :=
  match digit_of c with Some _ => true | None => false end.

(** The digits of a literal as the interpreter counts them: leading zeros
    count, underscores do not. *)
Definition digit_count (cs : list ascii) : Z :=
  Z.of_nat (List.length (filter is_digit cs)).

(** The digits after the sign. *)
Definition int_digits (cs : list ascii) : option Z :=
  if digit_count cs <=? max_str_digits
  then digits_value cs 0 false
  else None.

Definition py_int (s : string) : option Z :=
  match strip (list_ascii_of_string s) with
  | c :: rest =>
      if Ascii.eqb c "-" then option_map Z.opp (int_digits rest)
      else if Ascii.eqb c "+" then int_digits rest
      else int_digits (c :: rest)
  | [] => None
  end.

(** The value [val] of the power-model step: an integer when the argument
    converts, else the argument itself. *)
Inductive nvp_val : Type :=
| ValInt (n : Z)
| ValStr (s : string).

Definition convert_nvpmodel (set_nvpmodel : string) : nvp_val :=
  match py_int set_nvpmodel with
  | Some n => ValInt n
  | None => ValStr set_nvpmodel
  end.

Definition nvp_pyval (val : nvp_val) : pyval :=
  match val with
  | ValInt n => PInt n
  | ValStr s => PStr s
  end.

(** [f"{val}"] *)
Definition nvp_str (val : nvp_val) : string :=
  match val with
  | ValInt n => string_of_Z n
  | ValStr s => s
  end.

(** ** The external world

    The jtop handle is a black box.  Each interaction of the script with it
    is a [call]; the backend answers a call with a value or an exception
    and moves to a new state of the world.  [Enter] stands for [jtop()]
    followed by [__enter__], [Exit] for [__exit__] (which returns nothing
    in jtop, so it never swallows an exception in flight). *)
Inductive call : Type :=
| Enter
| Exit
| IsOk
| GetProp (name : string)
| SetProp (name : string) (v : pyval)
| SetAttr (obj : pyval) (name : string) (v : pyval)
| Sleep (secs : Z).

(** ** Simulated backends

    Concrete handles on which the script can be run: the answers to the
    successive readiness checks, the value of each property, and the calls
    that raise.  The world of a simulation is the number of readiness
    checks answered so far. *)
Record sim : Type := mkSim {
  sim_ready : list (res pyval);
  sim_report : dict;
  sim_fault : call -> option exn }.

(** The value of a property: what the report gives, else [None]. *)
Definition sim_value (cfg : sim) (name : string) : pyval :=
  match dict_get name (sim_report cfg) with
  | Some v => v
  | None => PNone
  end.

Definition sim_backend (cfg : sim) (c : call) (w : nat) : res pyval * nat :=
  match sim_fault cfg c with
  | Some e => (Raise e, w)
  | None =>
      match c with
      | IsOk => (nth w (sim_ready cfg) (Ok (PBool true)), S w)
      | GetProp name => (Ok (sim_value cfg name), w)
      | _ => (Ok PNone, w)
      end
  end.

Definition sim_sleep (secs : Z) (w : nat) : nat := w.

Definition sim_round (x : spec_float) : spec_float := x.

Definition no_fault (c : call) : option exn := None.

(** A ready board that reports nothing: every category is empty. *)
Definition bare_report : dict :=
  [("board", PDict []); ("nvpmodel", PNone); ("jetson_clocks", PNone);
   ("cpu", PDict []); ("gpu", PDict []); ("engine", PDict []);
   ("memory", PDict []); ("temperature", PDict []); ("fan", PDict []);
   ("processes", PList []); ("disk", PDict [])].

Definition bare : sim := mkSim [] bare_report no_fault.



(** The fan reports its speed as an empty list. *)
Definition fan_without_speeds : sim :=
  mkSim [] (dict_set "fan" (PDict [("speed", PList [])]) bare_report) no_fault.


(** Two process records: one of ten fields, one of two. *)
Definition ten_field_record : list pyval :=
  [PInt 1234; PStr "root"; PStr "I"; PStr "Graphic"; PInt 20; PStr "S";
   PInt 3; PInt 100; PInt 256; PStr "python3"].

Definition two_processes : sim :=
  mkSim []
    (dict_set "processes"
       (PList [PList ten_field_record; PList [PInt 77; PStr "nobody"]])
       bare_report)
    no_fault.

(** The backend reports total, used and free swap. *)
Definition swap_with_free : sim :=
  mkSim []
    (dict_set "memory"
       (PDict [("SWAP", PDict [("tot", PInt 4096); ("used", PInt 512);
                               ("free", PInt 3584)])])
       bare_report)
    no_fault.

(** The clocks-control object exists, is not active, and is set to
    persist at boot. *)
Definition inactive_clocks : pyval :=
  PObj "JetsonClocks" false
    [("status", PStr "activating"); ("boot", PBool true)].

Definition clocks_off_but_boot : sim :=
  mkSim [] (dict_set "jetson_clocks" inactive_clocks bare_report) no_fault.

(** The clocks-control object is active. *)
Definition active_clocks : pyval :=
  PObj "JetsonClocks" true [("status", PStr "running"); ("boot", PBool true)].

Definition clocks_on : sim :=
  mkSim [] (dict_set "jetson_clocks" active_clocks bare_report) no_fault.

(** Not ready at the first readiness check, ready at the second. *)
Definition late_ready : sim :=
  mkSim [Ok (PBool false); Ok (PBool true)] bare_report no_fault.

(** Not ready at the first readiness check; the second one raises. *)
Definition lost_after_first_check : sim :=
  mkSim [Ok (PBool false); Raise (JtopException "connection lost")]
    bare_report no_fault.

(** Never ready. *)
Definition never_ready : sim :=
  mkSim [Ok (PBool false); Ok (PBool false)] bare_report no_fault.

(** Enabling the clocks makes the backend raise its own exception. *)
Definition clocks_refused : sim :=
  mkSim [] bare_report
    (fun c =>
       match c with
       | SetProp name _ =>
           if String.eqb name "jetson_clocks"
           then Some (JtopException "jetson_clocks not available")
           else None
       | _ => None
       end).

(** Reading the CPU state makes the backend raise its own exception. *)
Definition cpu_unreadable : sim :=
  mkSim [] bare_report
    (fun c =>
       match c with
       | GetProp name =>
           if String.eqb name "cpu"
           then Some (JtopException "connection lost")
           else None
       | _ => None
       end).

(** The monitoring service cannot be reached. *)
Definition service_down : sim :=
  mkSim [] bare_report
    (fun c =>
       match c with
       | Enter => Some (OtherException "The jtop.service is not active")
       | _ => None
       end).

(** Assigning the power model makes the backend raise. *)
Definition nvpmodel_refused : sim :=
  mkSim [] bare_report
    (fun c =>
       match c with
       | SetProp name _ =>
           if String.eqb name "nvpmodel"
           then Some (JtopException "NVPmodel does not exist")
           else None
       | _ => None
       end).

(** Ready at the first readiness check, not at the second. *)
Definition ready_then_lost : sim :=
  mkSim [Ok (PBool true); Ok (PBool false)] clocks_on.(sim_report) no_fault.


(** The clocks-control object is active and the fan reports its speed as
    an empty list. *)
Definition clocks_on_fan_empty : sim :=
  mkSim []
    (dict_set "fan" (PDict [("speed", PList [])]) clocks_on.(sim_report))
    no_fault.

(** A handle whose power-model object is there when first read and gone
    afterwards; the world counts the reads of the property. *)
Definition mode_object : pyval :=
  PObj "NVPModel" true
    [("name", PStr "MAXN"); ("id", PInt 0);
     ("models", PList [PStr "MAXN"; PStr "15W"])].

Definition vanishing_mode (c : call) (w : nat) : res pyval * nat :=
  match c with
  | GetProp name =>
      if String.eqb name "nvpmodel"
      then (Ok (match w with O => mode_object | S _ => PNone end), S w)
      else (Ok (sim_value bare name), w)
  | IsOk => (Ok (PBool true), w)
  | _ => (Ok PNone, w)
  end.

(** Three sensors: one online, one offline with a reading, one without
    an [online] flag. *)
Definition three_sensors : dict :=
  [("CPU", PDict [("online", PBool true); ("temp", PInt 41)]);
   ("GPU", PDict [("online", PBool false); ("temp", PInt 99)]);
   ("SOC", PDict [("temp", PInt 38)])].

(** Three cores, one of them online. *)
Definition three_cores : dict :=
  [("total", PDict [("user", PInt 12)]);
   ("cpu", PList [PDict [("online", PBool true)];
                  PDict [("online", PBool false)];
                  PDict []])].


Section Script.

Variable World : Type.

(** The backend: how the handle answers each call. *)
Variable backend : call -> World -> res pyval * World.

(** [time.sleep]: time passes, nothing is raised. *)
Variable sleep : Z -> World -> World.

(** The interpreter's rounding of a float to one decimal place. *)
Variable round_float : spec_float -> spec_float.

(** The state threaded through the script: the world and the log of the
    calls made so far, oldest first. *)
Record state : Type := mkState { world : World; trace : list call }.

Definition M (A : Type) : Type := state -> res A * state.

Definition ret {A : Type} (a : A) : M A := fun s => (Ok a, s).

Definition bind {A B : Type} (m : M A) (k : A -> M B) : M B :=
  fun s =>
    match m s with
    | (Ok a, s') => k a s'
    | (Raise e, s') => (Raise e, s')
    end.

Definition lift {A : Type} (r : res A) : M A := fun s => (r, s).

Definition invoke (c : call) : M pyval :=
  fun s =>
    let (r, w) := backend c (world s) in
    (r, mkState w (trace s ++ [c])).

Definition time_sleep (secs : Z) : M pyval :=
  fun s => (Ok PNone, mkState (sleep secs (world s)) (trace s ++ [Sleep secs])).

(** [try: body / except ... as e: handler e], every exception handled. *)
Definition try_except {A : Type} (body : M A) (handler : exn -> M A) : M A :=
  fun s =>
    match body s with
    | (Ok a, s') => (Ok a, s')
    | (Raise e, s') => handler e s'
    end.

(** [with jtop() as jetson: body] *)
Definition with_jtop {A : Type} (body : M A) : M A :=
  fun s =>
    match invoke Enter s with
    | (Raise e, s1) => (Raise e, s1)
    | (Ok _, s1) =>
        let (r, s2) := body s1 in
        match invoke Exit s2 with
        | (Raise e, s3) => (Raise e, s3)
        | (Ok _, s3) => (r, s3)
        end
    end.

Notation "x <- m ;; k" := (bind m (fun x => k))
  (at level 61, m at next level, right associativity).

(** [obj.name = v] on a value read from the handle: built-in values refuse
    it, an object hands it to the backend. *)
Definition py_setattr (obj : pyval) (name : string) (v : pyval) : M pyval :=
  match obj with
  | PObj _ _ _ => invoke (SetAttr obj name v)
  | _ => lift (attribute_error obj name)
  end.

(** ** Management actions (lines 14-34) *)

(** The [try] suite of lines 16-18. *)
Definition enable_clocks_body (data : dict) : M dict :=
  _ <- invoke (SetProp "jetson_clocks" (PBool true)) ;;
  clocks <- invoke (GetProp "jetson_clocks") ;;
  _ <- py_setattr clocks "boot" (PBool true) ;;
  ret (dict_set "clocks_action"
         (PStr "Enabled jetson_clocks and set to boot") data).

Definition enable_clocks_action (data : dict) : M dict :=
  try_except
    (enable_clocks_body data)
    (fun e => ret (dict_set "clocks_action_error" (PStr (str_exn e)) data)).

(** The [try] suite of lines 24-32. *)
Definition set_nvpmodel_body (set_nvpmodel : string) (data : dict) : M dict :=
  let val := convert_nvpmodel set_nvpmodel in
  _ <- invoke (SetProp "nvpmodel" (nvp_pyval val)) ;;
  _ <- time_sleep 1 ;;
  ret (dict_set "nvpmodel_action"
         (PStr ("Set nvpmodel to " ++ nvp_str val)) data).

Definition set_nvpmodel_action (set_nvpmodel : string) (data : dict) : M dict :=
  try_except
    (set_nvpmodel_body set_nvpmodel data)
    (fun e => ret (dict_set "nvpmodel_action_error" (PStr (str_exn e)) data)).

Definition management_actions (enable_clocks : bool)
    (set_nvpmodel : option string) (data : dict) : M dict :=
  data <- (if enable_clocks then enable_clocks_action data else ret data) ;;
  match set_nvpmodel with
  | Some target => set_nvpmodel_action target data
  | None => ret data
  end.

(** ** Category extraction (lines 37-143)

    Each category is an expression over a value already read from the
    handle; evaluation order is the source's. *)

Definition round1 : pyval -> res pyval := py_round1 round_float.

(** [board.get('hardware', {}).get(field, 'Unknown')] *)
Definition hardware_field (board : pyval) (field : string) : res pyval :=
  do hardware <- py_get board "hardware" (PDict []);
  py_get hardware field (PStr "Unknown").

Definition board_category (board : pyval) : res pyval :=
  do model <- hardware_field board "Model";
  do serial <- hardware_field board "Serial Number";
  do l4t <- hardware_field board "L4T";
  do jetpack <- hardware_field board "Jetpack";
  do module <- hardware_field board "Module";
  Ok (PDict [("model", model); ("serial", serial); ("l4t", l4t);
             ("jetpack", jetpack); ("module", module)]).

Definition libraries_category (board : pyval) : res pyval :=
  py_get board "libraries" (PDict []).

(** [round(cpu_info.get('total', {}).get(field, 0), 1)] *)
Definition cpu_total (cpu_info : pyval) (field : string) : res pyval :=
  do total <- py_get cpu_info "total" (PDict []);
  do x <- py_get total field (PInt 0);
  round1 x.

(** [sum(1 for c in cores if c.get('online', False))] *)
Fixpoint count_online (cores : list pyval) : res Z :=
  match cores with
  | [] => Ok 0
  | c :: rest =>
      do online <- py_get c "online" (PBool false);
      do n <- count_online rest;
      Ok (if truthy online then 1 + n else n)
  end.

Definition cpu_category (cpu_info : pyval) : res pyval :=
  do total_user <- cpu_total cpu_info "user";
  do total_system <- cpu_total cpu_info "system";
  do total_idle <- cpu_total cpu_info "idle";
  do cpu <- py_get cpu_info "cpu" (PList []);
  do cores <- py_iter cpu;
  do online_cores <- count_online cores;
  Ok (PDict [("total_user", total_user); ("total_system", total_system);
             ("total_idle", total_idle); ("online_cores", PInt online_cores)]).

(** [info.get(group, {}).get(field, 0)] *)
Definition nested_field (info : pyval) (group field : string) : res pyval :=
  do sub <- py_get info group (PDict []);
  py_get sub field (PInt 0).

Definition gpu_category (gpu_info : pyval) : res pyval :=
  do load <- nested_field gpu_info "status" "load";
  do curr_freq <- nested_field gpu_info "freq" "cur";
  do max_freq <- nested_field gpu_info "freq" "max";
  Ok (PDict [("load", load); ("curr_freq", curr_freq); ("max_freq", max_freq)]).

(** The inner loop over the engines of one group. *)
Fixpoint engine_items (items : list (string * pyval)) (acc : dict) : res dict :=
  match items with
  | [] => Ok acc
  | (engine_name, info) :: rest =>
      do online <- py_get info "online" (PBool false);
      do cur <- py_get info "cur" (PInt 0);
      engine_items rest
        (dict_set engine_name (PDict [("online", online); ("cur", cur)]) acc)
  end.

(** The outer loop over the engine groups.  [data['engines']] is reachable
    through [data] only, so its in-place updates are accumulated in [acc]. *)
Fixpoint engine_groups (groups : list (string * pyval)) (acc : dict) : res dict :=
  match groups with
  | [] => Ok acc
  | (group, items) :: rest =>
      do engines_of_group <- py_items items;
      do inner <- engine_items engines_of_group [];
      engine_groups rest (dict_set group (PDict inner) acc)
  end.

Definition engines_category (engines : pyval) : res pyval :=
  do groups <- py_items engines;
  do built <- engine_groups groups [];
  Ok (PDict built).

Definition ram_category (memory : pyval) : res pyval :=
  do total <- nested_field memory "RAM" "tot";
  do used <- nested_field memory "RAM" "used";
  do free <- nested_field memory "RAM" "free";
  Ok (PDict [("total", total); ("used", used); ("free", free)]).

Definition swap_category (memory : pyval) : res pyval :=
  do total <- nested_field memory "SWAP" "tot";
  do used <- nested_field memory "SWAP" "used";
  Ok (PDict [("total", total); ("used", used)]).

(** [{k: round(v['temp'], 1) for k, v in items if v.get('online', False)}] *)
Fixpoint temperature_items (items : list (string * pyval)) (acc : dict)
  : res dict :=
  match items with
  | [] => Ok acc
  | (k, v) :: rest =>
      do online <- py_get v "online" (PBool false);
      if truthy online then
        do temp <- py_getitem_str v "temp";
        do rounded <- round1 temp;
        temperature_items rest (dict_set k rounded acc)
      else temperature_items rest acc
  end.

Definition temperature_category (temp_info : pyval) : res pyval :=
  do items <- py_items temp_info;
  do built <- temperature_items items [];
  Ok (PDict built).

Definition fan_speed (fan_info : pyval) : res pyval :=
  do probe <- py_get fan_info "speed" PNone;
  if is_list probe then
    do speeds <- py_get fan_info "speed" (PList [PInt 0]);
    py_getitem_int speeds 0
  else py_get fan_info "speed" (PInt 0).

Definition fan_profile (fan_info : pyval) : res pyval :=
  do profile <- py_get fan_info "profile" (PStr "Unknown");
  if eq_str profile "Unknown" then
    do control <- py_get fan_info "control" (PStr "Unknown");
    py_get fan_info "governor" control
  else Ok profile.

Definition fan_category (fan_info : pyval) : res pyval :=
  do speed <- fan_speed fan_info;
  do profile <- fan_profile fan_info;
  Ok (PDict [("speed", speed); ("profile", profile)]).

(** The entry appended for a record [p] with [len(p) >= 10]. *)
Definition process_entry (p : pyval) : res pyval :=
  do pid <- py_getitem_int p 0;
  do user <- py_getitem_int p 1;
  do gpu_mem <- py_getitem_int p 8;
  do name <- py_getitem_int p 9;
  Ok (PDict [("pid", pid); ("user", user); ("gpu_mem", gpu_mem); ("name", name)]).

(** The loop over [jetson.processes]; [acc] is [data['processes']]. *)
Fixpoint process_entries (ps : list pyval) (acc : list pyval)
  : res (list pyval) :=
  match ps with
  | [] => Ok acc
  | p :: rest =>
      do n <- py_len p;
      if Nat.leb 10 n then
        do entry <- process_entry p;
        process_entries rest (acc ++ [entry])
      else process_entries rest acc
  end.

Definition processes_category (processes : pyval) : res pyval :=
  do ps <- py_iter processes;
  do entries <- process_entries ps [];
  Ok (PList entries).

Definition disk_category (disk_info : pyval) : res pyval :=
  do total <- py_get disk_info "total" (PInt 0);
  do used <- py_get disk_info "used" (PInt 0);
  do available <- py_get disk_info "available" (PInt 0);
  Ok (PDict [("total", total); ("used", used); ("available", available)]).

(** ** The category reads, in source order *)

Definition read_board (data : dict) : M dict :=
  board <- invoke (GetProp "board") ;;
  info <- lift (board_category board) ;;
  let data := dict_set "board" info data in
  libraries <- lift (libraries_category board) ;;
  ret (dict_set "libraries" libraries data).

(** [jetson.nvpmodel.attr if jetson.nvpmodel else dflt]: the property is
    read once for the test and once more for the attribute. *)
Definition nvpmodel_field (attr : string) (dflt : pyval) : M pyval :=
  test <- invoke (GetProp "nvpmodel") ;;
  if truthy test then
    nvpmodel <- invoke (GetProp "nvpmodel") ;;
    lift (py_getattr nvpmodel attr)
  else ret dflt.

Definition read_nvpmodel (data : dict) : M dict :=
  name <- nvpmodel_field "name" (PStr "Unknown") ;;
  id <- nvpmodel_field "id" (PInt (-1)) ;;
  models <- nvpmodel_field "models" (PList []) ;;
  ret (dict_set "nvpmodel"
         (PDict [("name", name); ("id", id); ("models", models)]) data).

Definition clocks_default : pyval :=
  PDict [("active", PBool false); ("status", PStr "inactive");
         ("boot", PBool false)].

Definition read_jetson_clocks (data : dict) : M dict :=
  test <- invoke (GetProp "jetson_clocks") ;;
  if truthy test then
    clocks <- invoke (GetProp "jetson_clocks") ;;
    let active := PBool (truthy clocks) in
    clocks <- invoke (GetProp "jetson_clocks") ;;
    status <- lift (py_getattr clocks "status") ;;
    clocks <- invoke (GetProp "jetson_clocks") ;;
    boot <- lift (py_getattr clocks "boot") ;;
    ret (dict_set "jetson_clocks"
           (PDict [("active", active); ("status", status); ("boot", boot)])
           data)
  else ret (dict_set "jetson_clocks" clocks_default data).

(** [x = jetson.prop; data[key] = category(x)] *)
Definition read_category (prop key : string) (category : pyval -> res pyval)
    (data : dict) : M dict :=
  x <- invoke (GetProp prop) ;;
  v <- lift (category x) ;;
  ret (dict_set key v data).

Definition read_cpu : dict -> M dict := read_category "cpu" "cpu" cpu_category.

Definition read_gpu : dict -> M dict := read_category "gpu" "gpu" gpu_category.

(** [data['engines'] = {}] comes before the read of [jetson.engine]. *)
Definition read_engines (data : dict) : M dict :=
  let data := dict_set "engines" (PDict []) data in
  read_category "engine" "engines" engines_category data.

Definition read_memory (data : dict) : M dict :=
  memory <- invoke (GetProp "memory") ;;
  ram <- lift (ram_category memory) ;;
  let data := dict_set "ram" ram data in
  swap <- lift (swap_category memory) ;;
  ret (dict_set "swap" swap data).

Definition read_temperature : dict -> M dict :=
  read_category "temperature" "temperature" temperature_category.

Definition read_fan : dict -> M dict := read_category "fan" "fan" fan_category.

(** [data['processes'] = []] comes before the read of [jetson.processes]. *)
Definition read_processes (data : dict) : M dict :=
  let data := dict_set "processes" (PList []) data in
  read_category "processes" "processes" processes_category data.

Definition read_disk : dict -> M dict :=
  read_category "disk" "disk" disk_category.

Definition category_reads : list (dict -> M dict) :=
  [read_board; read_nvpmodel; read_jetson_clocks; read_cpu; read_gpu;
   read_engines; read_memory; read_temperature; read_fan; read_processes;
   read_disk].

Fixpoint run_reads (reads : list (dict -> M dict)) (data : dict) : M dict :=
  match reads with
  | [] => ret data
  | read :: rest => data <- read data ;; run_reads rest data
  end.

Definition collect : dict -> M dict := run_reads category_reads.

(** ** [get_jetson_info] *)

Definition not_ok_record : pyval :=
  PDict [("error", PStr "jtop is not ok (service might not be running)")].

Definition error_record (e : exn) : pyval :=
  match e with
  | JtopException m => PDict [("error", PStr ("JtopException: " ++ m))]
  | OtherException m => PDict [("error", PStr ("Unexpected error: " ++ m))]
  end.

(** The block guarded by the first readiness check (lines 13-34), for the
    answer [ok] of that check. *)
Definition actions_when (ok : pyval) (enable_clocks : bool)
    (set_nvpmodel : option string) (data : dict) : M dict :=
  if truthy ok
  then management_actions enable_clocks set_nvpmodel data
  else ret data.

(** The body of the [with] statement (lines 13-147). *)
Definition with_body (enable_clocks : bool) (set_nvpmodel : option string)
  : M pyval :=
  let data : dict := [] in
  ok <- invoke IsOk ;;
  data <- actions_when ok enable_clocks set_nvpmodel data ;;
  ok <- invoke IsOk ;;
  if truthy ok then
    data <- collect data ;;
    ret (PDict data)
  else ret not_ok_record.

Definition get_jetson_info (enable_clocks : bool)
    (set_nvpmodel : option string) : M pyval :=
  try_except
    (with_jtop (with_body enable_clocks set_nvpmodel))
    (fun e => ret (error_record e)).

Definition start (w : World) : state := mkState w [].

(** The value returned by a run started in world [w]. *)
Definition output (enable_clocks : bool) (set_nvpmodel : option string)
    (w : World) : res pyval :=
  fst (get_jetson_info enable_clocks set_nvpmodel (start w)).

(** The calls made by a run started in world [w]. *)
Definition calls (enable_clocks : bool) (set_nvpmodel : option string)
    (w : World) : list call :=
  trace (snd (get_jetson_info enable_clocks set_nvpmodel (start w))).

(** ** Observation points of a run

    A run is deterministic in the initial world, so the states it goes
    through are functions of that world.  Each of the following is [None]
    when the run does not get that far. *)

(** The state in which the [with] body starts. *)
Definition acquired (w : World) : option state :=
  match invoke Enter (start w) with
  | (Ok _, s) => Some s
  | (Raise _, _) => None
  end.

(** The answer to the readiness check of line 13 and the state after it. *)
Definition first_check (w : World) : option (pyval * state) :=
  match acquired w with
  | Some s =>
      match invoke IsOk s with
      | (Ok ok, s') => Some (ok, s')
      | (Raise _, _) => None
      end
  | None => None
  end.

(** The mapping built by the management actions and the state after them. *)
Definition after_actions (enable_clocks : bool) (set_nvpmodel : option string)
    (w : World) : option (dict * state) :=
  match first_check w with
  | Some (ok, s) =>
      match actions_when ok enable_clocks set_nvpmodel [] s with
      | (Ok data, s') => Some (data, s')
      | (Raise _, _) => None
      end
  | None => None
  end.

(** The answer to the readiness check of line 36 and the state after it. *)
Definition second_check (enable_clocks : bool) (set_nvpmodel : option string)
    (w : World) : option (dict * pyval * state) :=
  match after_actions enable_clocks set_nvpmodel w with
  | Some (data, s) =>
      match invoke IsOk s with
      | (Ok ok, s') => Some (data, ok, s')
      | (Raise _, _) => None
      end
  | None => None
  end.

(** The mapping and the state with which the [i]-th category read starts
    ([i] counts from 0 in [category_reads]). *)
Definition arrive (enable_clocks : bool) (set_nvpmodel : option string)
    (w : World) (i : nat) : option (dict * state) :=
  match second_check enable_clocks set_nvpmodel w with
  | Some (data, ok, s) =>
      if truthy ok then
        match run_reads (firstn i category_reads) data s with
        | (Ok d, s') => Some (d, s')
        | (Raise _, _) => None
        end
      else None
  | None => None
  end.

(** Leaving the [with] block from state [s] raises nothing. *)
Definition released (s : state) : bool :=
  match fst (invoke Exit s) with
  | Ok _ => true
  | Raise _ => false
  end.

(** The handle is acquired and answers the first readiness check with a
    true value. *)
Definition ready (w : World) : bool :=
  match first_check w with
  | Some (ok, _) => truthy ok
  | None => false
  end.

(** ** Shapes of the output *)

Definition snapshot_keys : list string :=
  ["board"; "libraries"; "nvpmodel"; "jetson_clocks"; "cpu"; "gpu";
   "engines"; "ram"; "swap"; "temperature"; "fan"; "processes"; "disk"].

Definition action_keys : list string :=
  ["clocks_action"; "clocks_action_error";
   "nvpmodel_action"; "nvpmodel_action_error"].

(** A single-key [error] record with a string message. *)
Definition is_error_record (d : dict) : Prop :=
  exists msg, d = [("error", PStr msg)].

(** A snapshot: every category is present, and nothing but the categories
    and the action reports; in particular no [error] key. *)
Definition is_snapshot (d : dict) : Prop :=
  (forall k, In k snapshot_keys -> has_key k d = true) /\
  (forall k, has_key k d = true -> In k (action_keys ++ snapshot_keys)).

(** [read] assigns the keys [ks] of the mapping and no other. *)
Definition assigns (ks : list string) (read : dict -> M dict) : Prop :=
  forall d s d' s',
    read d s = (Ok d', s') ->
    (forall k, In k ks -> has_key k d' = true) /\
    (forall k, ~ In k ks -> dict_get k d' = dict_get k d).

(** ** Reference definitions for the claims *)

(** A positional process record long enough to be kept. *)
Definition has_ten_fields (fields : list pyval) : bool :=
  Nat.leb 10 (List.length fields).

(** The entry built from a positional record: positions 0, 1, 8 and 9. *)
Definition process_record (fields : list pyval) : pyval :=
  PDict [("pid", nth 0 fields PNone); ("user", nth 1 fields PNone);
         ("gpu_mem", nth 8 fields PNone); ("name", nth 9 fields PNone)].

(** The swap category for a backend swap mapping [swap]. *)
Definition swap_report (swap : dict) : pyval :=
  PDict [("total", get_or swap "tot" (PInt 0));
         ("used", get_or swap "used" (PInt 0))].

(** Every call a computation makes satisfies [P]: whatever the state it
    starts in, it appends to the log calls that all satisfy [P]. *)
Definition logs (P : call -> Prop) {A : Type} (m : M A) : Prop :=
  forall s, exists cs,
    trace (snd (m s)) = (trace s ++ cs)%list /\ Forall P cs.

(** A management call: an assignment to the handle or to an object read
    from it, or the pause that follows one. *)
Definition is_action (c : call) : bool :=
  match c with
  | SetProp _ _ | SetAttr _ _ _ | Sleep _ => true
  | _ => false
  end.

(** [c] does not assign the power model, or assigns it [v]. *)
Definition assigns_nvpmodel_only (v : pyval) (c : call) : Prop :=
  forall x, c = SetProp "nvpmodel" x -> x = v.

(** ** The integer literals, in the words of the language reference

    An argument "parses as an integer" when it is a decimal integer
    literal as the documentation of [int] gives it: digits, with single
    underscores allowed between them, optionally preceded by a sign, with
    white space allowed around, and of at most 4300 digits.  The
    definitions list the characters themselves and do not go through the
    conversion function. *)
Definition white_space : list ascii :=
  map ascii_of_nat [9; 10; 11; 12; 13; 32; 133; 160]%nat.

Definition decimal_digits : list (ascii * Z) :=
  [("0", 0); ("1", 1); ("2", 2); ("3", 3); ("4", 4); ("5", 5); ("6", 6);
   ("7", 7); ("8", 8); ("9", 9)]%char.

(** [digit_groups cs ds]: [cs] is made of the digits [ds], in order, with
    single underscores allowed between two digits. *)
Inductive digit_groups : list ascii -> list Z -> Prop :=
| groups_one c d : In (c, d) decimal_digits -> digit_groups [c] [d]
| groups_digit c d rest ds :
    In (c, d) decimal_digits -> digit_groups rest ds ->
    digit_groups (c :: rest) (d :: ds)
| groups_underscore c d rest ds :
    In (c, d) decimal_digits -> digit_groups rest ds ->
    digit_groups (c :: "_"%char :: rest) (d :: ds).

(** The number written by the digits [ds], most significant first. *)
Definition decimal (ds : list Z) : Z :=
  fold_left (fun acc d => 10 * acc + d) ds 0.

(** [s] is an integer literal for [n]. *)
Definition int_literal (s : string) (n : Z) : Prop :=
  exists pre sign body post ds,
    list_ascii_of_string s = (pre ++ sign ++ body ++ post)%list /\
    Forall (fun c => In c white_space) pre /\
    Forall (fun c => In c white_space) post /\
    digit_groups body ds /\
    Z.of_nat (List.length ds) <= 4300 /\
    (sign = ["-"%char] /\ n = - decimal ds \/
     (sign = ["+"%char] \/ sign = []) /\ n = decimal ds).

(** ** The snapshot of a report, in the words of the specification

    [report] gives the value of each property of the handle.  The
    definitions below say what each category of the snapshot is for such a
    report: every field looked up with its default.  The [_ok] predicates
    say when a reported value has the shape for which the category is
    defined; a mapping is taken with distinct keys.  The power-model and
    clocks-control categories are given as the script builds them: the
    defaults for every value that tests false. *)

Definition sub_mapping (d : dict) (k : string) : dict :=
  match dict_get k d with
  | Some (PDict x) => x
  | _ => []
  end.

Definition absent_or_mapping (d : dict) (k : string) : bool :=
  match dict_get k d with
  | None | Some (PDict _) => true
  | Some _ => false
  end.

Definition as_mapping (v : pyval) : dict :=
  match v with
  | PDict d => d
  | _ => []
  end.

Definition is_mapping (v : pyval) : bool :=
  match v with PDict _ => true | _ => false end.

Definition is_number (v : pyval) : bool :=
  match v with
  | PInt _ | PBool _ | PFloat _ => true
  | _ => false
  end.

Fixpoint distinct_keys (d : dict) : bool :=
  match d with
  | [] => true
  | (k, _) :: rest => negb (has_key k rest) && distinct_keys rest
  end.

(** A number rounded to one decimal place. *)
Definition rounded (v : pyval) : pyval :=
  match v with
  | PBool b => PInt (if b then 1 else 0)
  | PFloat x => PFloat (round_float x)
  | _ => v
  end.



Definition expected_board (board : dict) : pyval :=
  let hardware := sub_mapping board "hardware" in
  PDict [("model", get_or hardware "Model" (PStr "Unknown"));
         ("serial", get_or hardware "Serial Number" (PStr "Unknown"));
         ("l4t", get_or hardware "L4T" (PStr "Unknown"));
         ("jetpack", get_or hardware "Jetpack" (PStr "Unknown"));
         ("module", get_or hardware "Module" (PStr "Unknown"))].

Definition board_ok (v : pyval) : bool :=
  match v with
  | PDict board => absent_or_mapping board "hardware"
  | _ => false
  end.

Definition expected_libraries (board : dict) : pyval :=
  get_or board "libraries" (PDict []).





Definition cores_of (cpu : dict) : list pyval :=
  match get_or cpu "cpu" (PList []) with
  | PList cores => cores
  | _ => []
  end.




Definition expected_gpu (gpu : dict) : pyval :=
  PDict [("load", get_or (sub_mapping gpu "status") "load" (PInt 0));
         ("curr_freq", get_or (sub_mapping gpu "freq") "cur" (PInt 0));
         ("max_freq", get_or (sub_mapping gpu "freq") "max" (PInt 0))].

Definition gpu_ok (v : pyval) : bool :=
  match v with
  | PDict gpu => absent_or_mapping gpu "status" && absent_or_mapping gpu "freq"
  | _ => false
  end.

Definition expected_engine (entry : string * pyval) : string * pyval :=
  (fst entry,
   PDict [("online", get_or (as_mapping (snd entry)) "online" (PBool false));
          ("cur", get_or (as_mapping (snd entry)) "cur" (PInt 0))]).

Definition expected_group (entry : string * pyval) : string * pyval :=
  (fst entry, PDict (map expected_engine (as_mapping (snd entry)))).

Definition expected_engines (engines : dict) : pyval :=
  PDict (map expected_group engines).

Definition group_ok (entry : string * pyval) : bool :=
  match snd entry with
  | PDict items =>
      distinct_keys items && forallb (fun e => is_mapping (snd e)) items
  | _ => false
  end.

Definition engines_ok (v : pyval) : bool :=
  match v with
  | PDict engines => distinct_keys engines && forallb group_ok engines
  | _ => false
  end.

Definition expected_ram (memory : dict) : pyval :=
  let ram := sub_mapping memory "RAM" in
  PDict [("total", get_or ram "tot" (PInt 0));
         ("used", get_or ram "used" (PInt 0));
         ("free", get_or ram "free" (PInt 0))].

Definition expected_swap (memory : dict) : pyval :=
  swap_report (sub_mapping memory "SWAP").

Definition memory_ok (v : pyval) : bool :=
  match v with
  | PDict memory =>
      absent_or_mapping memory "RAM" && absent_or_mapping memory "SWAP"
  | _ => false
  end.

Definition sensor_online (entry : string * pyval) : bool :=
  truthy (get_or (as_mapping (snd entry)) "online" (PBool false)).

Definition expected_reading (entry : string * pyval) : string * pyval :=
  (fst entry, rounded (get_or (as_mapping (snd entry)) "temp" PNone)).


(** An online sensor carries a numeric reading. *)
Definition sensor_ok (entry : string * pyval) : bool :=
  match snd entry with
  | PDict sensor =>
      if sensor_online entry
      then match dict_get "temp" sensor with
           | Some x => is_number x
           | None => false
           end
      else true
  | _ => false
  end.







Definition expected_disk (disk : dict) : pyval :=
  PDict [("total", get_or disk "total" (PInt 0));
         ("used", get_or disk "used" (PInt 0));
         ("available", get_or disk "available" (PInt 0))].




(** No key of [items] is a key of [acc] yet. *)
Definition fresh_for (items acc : dict) : Prop :=
  forall k, has_key k items = true -> dict_get k acc = None.

(** ** Reference definitions for further properties *)

(** [read] appends the keys [ks], in order, to a mapping that has none of
    them. *)
Definition appends (ks : list string) (read : dict -> M dict) : Prop :=
  forall d s d' s',
    read d s = (Ok d', s') ->
    (forall k, In k ks -> has_key k d = false) ->
    dict_keys d' = (dict_keys d ++ ks)%list.

(** The keys under which the management actions report: one for the
    clocks action when it is requested, then one for the power-model
    action when it is requested. *)
Definition action_report_keys (enable_clocks : bool)
    (set_nvpmodel : option string) (ks : list string) : Prop :=
  exists cs ns,
    ks = (cs ++ ns)%list /\
    (if enable_clocks
     then cs = ["clocks_action"] \/ cs = ["clocks_action_error"]
     else cs = []) /\
    match set_nvpmodel with
    | Some _ => ns = ["nvpmodel_action"] \/ ns = ["nvpmodel_action_error"]
    | None => ns = []
    end.


(** [r] is not the backend's own exception. *)
Definition other_only {A : Type} (r : res A) : Prop :=
  forall m, r <> Raise (JtopException m).

(** Some call makes the backend raise its own exception with message [m]. *)
Definition backend_raises (m : string) : Prop :=
  exists c w, fst (backend c w) = Raise (JtopException m).

(** When [c] raises the backend's own exception, the backend raised it. *)
Definition jtop_from_backend {A : Type} (c : M A) : Prop :=
  forall s m s', c s = (Raise (JtopException m), s') -> backend_raises m.


(** An assignment made by the clocks action. *)
Definition is_clocks_assignment (c : call) : bool :=
  match c with
  | SetProp name _ => String.eqb name "jetson_clocks"
  | SetAttr _ _ _ => true
  | _ => false
  end.

(** A call made by the power-model action. *)
Definition is_nvpmodel_action (c : call) : bool :=
  match c with
  | SetProp name _ => String.eqb name "nvpmodel"
  | Sleep _ => true
  | _ => false
  end.

(** A read of a property of the handle other than the clocks-control
    object, which the clocks action reads too. *)
Definition is_category_read (c : call) : bool :=
  match c with
  | GetProp name => negb (String.eqb name "jetson_clocks")
  | _ => false
  end.

(** The calls a computation makes fall in two consecutive groups, the
    first satisfying [P] and the second [Q]. *)
Definition logs2 (P Q : call -> Prop) {A : Type} (m : M A) : Prop :=
  forall s, exists pre post,
    trace (snd (m s)) = (trace s ++ pre ++ post)%list /\
    Forall P pre /\ Forall Q post.


(** The clocks step of the management actions (lines 14-20). *)
Definition clocks_step (enable_clocks : bool) (data : dict) : M dict :=
  if enable_clocks then enable_clocks_action data else ret data.


(** A readiness check, or a read of a property other than the power-model
    and the clocks-control objects (those two are read several times). *)
Definition is_probe (c : call) : bool :=
  match c with
  | IsOk => true
  | GetProp name =>
      negb (String.eqb name "nvpmodel" || String.eqb name "jetson_clocks")
  | _ => false
  end.

(** The properties read for the categories, in source order. *)
Definition single_reads : list string :=
  ["board"; "cpu"; "gpu"; "engine"; "memory"; "temperature"; "fan";
   "processes"; "disk"].

Definition probes : list call := IsOk :: IsOk :: map GetProp single_reads.

(** The probes [m] makes are an initial part of [ps], and the whole of it
    when [m] returns a value that is [full]. *)
Definition probes_of {A : Type} (ps : list call) (full : A -> Prop) (m : M A)
  : Prop :=
  forall s, exists made rest,
    filter is_probe (trace (snd (m s)))
      = (filter is_probe (trace s) ++ made)%list /\
    ps = (made ++ rest)%list /\
    (forall a, fst (m s) = Ok a -> full a -> rest = []).

(** A snapshot value: a mapping without an [error] key. *)
Definition no_error (v : pyval) : Prop :=
  exists out, v = PDict out /\ dict_get "error" out = None.

(** [AttributeError] for a [.get] on a value that is not a mapping. *)
Definition get_missing (e : exn) : Prop :=
  exists v,
    is_mapping v = false /\
    e = OtherException ("'" ++ type_name v ++ "' object has no attribute 'get'").

(** An ASCII letter. *)
Definition is_letter (c : ascii) : bool :=
  let n := nat_of_ascii c in
  ((Nat.leb 65 n && Nat.leb n 90) || (Nat.leb 97 n && Nat.leb n 122))%bool.


(** * Properties *)

(** ** Mappings *)

Lemma dict_get_set_same (k : string) (v : pyval) (d : dict) :
  dict_get k (dict_set k v d) = Some v.
Proof.
  induction d as [|[k' v'] rest IH]; simpl.
  - now rewrite String.eqb_refl.
  - destruct (String.eqb k k') eqn:E; simpl; rewrite E; auto.
Qed.

Lemma dict_get_set_other (k k' : string) (v : pyval) (d : dict) :
  k <> k' -> dict_get k (dict_set k' v d) = dict_get k d.
Proof.
  intros Hne. induction d as [|[k0 v0] rest IH]; simpl.
  - apply String.eqb_neq in Hne. now rewrite Hne.
  - destruct (String.eqb k' k0) eqn:E; simpl.
    + apply String.eqb_eq in E. subst k0.
      apply String.eqb_neq in Hne. now rewrite Hne.
    + now rewrite IH.
Qed.

Lemma has_key_set_same (k : string) (v : pyval) (d : dict) :
  has_key k (dict_set k v d) = true.
Proof. unfold has_key. now rewrite dict_get_set_same. Qed.

Lemma has_key_set_other (k k' : string) (v : pyval) (d : dict) :
  k <> k' -> has_key k (dict_set k' v d) = has_key k d.
Proof. intros H. unfold has_key. now rewrite dict_get_set_other. Qed.

(** ** The monad *)

Lemma bind_ok {A B : Type} (m : M A) (k : A -> M B) s b s' :
  bind m k s = (Ok b, s') ->
  exists a s1, m s = (Ok a, s1) /\ k a s1 = (Ok b, s').
Proof.
  unfold bind. destruct (m s) as [[a|e] s1]; intros H.
  - now exists a, s1.
  - discriminate.
Qed.

Lemma bind_raise {A B : Type} (m : M A) (k : A -> M B) s e s' :
  bind m k s = (Raise e, s') ->
  m s = (Raise e, s') \/ exists a s1, m s = (Ok a, s1) /\ k a s1 = (Raise e, s').
Proof.
  unfold bind. destruct (m s) as [[a|e0] s1]; intros H.
  - right. now exists a, s1.
  - left. now inversion H.
Qed.

Lemma bind_run {A B : Type} (m : M A) (k : A -> M B) s a s1 :
  m s = (Ok a, s1) -> bind m k s = k a s1.
Proof. unfold bind. now intros ->. Qed.

Lemma bind_abort {A B : Type} (m : M A) (k : A -> M B) s e s1 :
  m s = (Raise e, s1) -> bind m k s = (Raise e, s1).
Proof. unfold bind. now intros ->. Qed.

Lemma lift_ok {A : Type} (r : res A) s a s' :
  lift r s = (Ok a, s') -> r = Ok a /\ s' = s.
Proof. unfold lift. intros H. now inversion H. Qed.

Lemma ret_ok {A : Type} (a b : A) s s' :
  ret a s = (Ok b, s') -> b = a /\ s' = s.
Proof. unfold ret. intros H. now inversion H. Qed.

(** Inversion of a successful run, one statement at a time. *)
Ltac run_inv :=
  repeat match goal with
    | H : bind _ _ _ = (Ok _, _) |- _ =>
        let a := fresh "a" in
        let s := fresh "s" in
        let Ha := fresh "Hrun" in
        let Hk := fresh "Hrun" in
        apply bind_ok in H; destruct H as (a & s & Ha & Hk)
    | H : lift _ _ = (Ok _, _) |- _ =>
        apply lift_ok in H; destruct H as [H ?]; subst
    | H : ret _ _ = (Ok _, _) |- _ =>
        apply ret_ok in H; destruct H; subst
    | H : (if ?b then _ else _) _ = (Ok _, _) |- _ =>
        destruct b eqn:?
    end.

(** ** Which keys each statement assigns *)

Lemma assigns_set (ks : list string) (d : dict) (k : string) (v : pyval) :
  In k ks ->
  (forall k', In k' ks -> has_key k' d = true \/ k' = k) ->
  (forall k', In k' ks -> has_key k' (dict_set k v d) = true) /\
  (forall k', ~ In k' ks -> dict_get k' (dict_set k v d) = dict_get k' d).
Proof.
  intros Hin Hall. split.
  - intros k' Hk'. destruct (string_dec k' k) as [->|Hne].
    + apply has_key_set_same.
    + rewrite has_key_set_other by assumption.
      destruct (Hall k' Hk') as [H|H]; [exact H | contradiction].
  - intros k' Hk'. apply dict_get_set_other. intros ->. contradiction.
Qed.

Lemma read_category_assigns (prop key : string) (f : pyval -> res pyval) :
  assigns [key] (read_category prop key f).
Proof.
  intros d s d' s' H. unfold read_category in H. run_inv.
  apply assigns_set; simpl; auto.
  intros k' [<-|[]]. now right.
Qed.

Lemma assigns_after_set (key : string) (v0 : pyval) (read : dict -> M dict) :
  assigns [key] read -> assigns [key] (fun d => read (dict_set key v0 d)).
Proof.
  intros Hr d s d' s' H. destruct (Hr _ _ _ _ H) as [H1 H2]. split.
  - exact H1.
  - intros k Hk. rewrite H2 by assumption.
    apply dict_get_set_other. intros ->. apply Hk. now left.
Qed.

Lemma read_board_assigns : assigns ["board"; "libraries"] read_board.
Proof.
  intros d s d' s' H. unfold read_board in H. run_inv. split.
  - intros k [<-|[<-|[]]].
    + rewrite has_key_set_other by discriminate. apply has_key_set_same.
    + apply has_key_set_same.
  - intros k Hk. simpl in Hk.
    rewrite !dict_get_set_other; auto.
Qed.

Lemma read_memory_assigns : assigns ["ram"; "swap"] read_memory.
Proof.
  intros d s d' s' H. unfold read_memory in H. run_inv. split.
  - intros k [<-|[<-|[]]].
    + rewrite has_key_set_other by discriminate. apply has_key_set_same.
    + apply has_key_set_same.
  - intros k Hk. simpl in Hk.
    rewrite !dict_get_set_other; auto.
Qed.

Lemma read_nvpmodel_assigns : assigns ["nvpmodel"] read_nvpmodel.
Proof.
  intros d s d' s' H. unfold read_nvpmodel in H. run_inv.
  apply assigns_set; simpl; auto.
  intros k' [<-|[]]. now right.
Qed.

Lemma read_jetson_clocks_assigns : assigns ["jetson_clocks"] read_jetson_clocks.
Proof.
  intros d s d' s' H. unfold read_jetson_clocks in H. run_inv;
    (apply assigns_set; simpl; auto; intros k' [<-|[]]; now right).
Qed.

Lemma run_reads_assigns (ks1 ks2 : list string) (read : dict -> M dict)
    (rest : list (dict -> M dict)) :
  assigns ks1 read -> assigns ks2 (run_reads rest) ->
  assigns (ks1 ++ ks2) (run_reads (read :: rest)).
Proof.
  intros H1 H2 d s d' s' H. simpl in H. run_inv.
  destruct (H1 _ _ _ _ Hrun) as [H1a H1b].
  destruct (H2 _ _ _ _ Hrun0) as [H2a H2b]. split.
  - intros k Hk. destruct (in_dec string_dec k ks2) as [Hin|Hout].
    + now apply H2a.
    + apply in_app_or in Hk. destruct Hk as [Hk|Hk]; [|contradiction].
      unfold has_key. rewrite H2b by assumption. now apply H1a.
  - intros k Hk. rewrite H2b, H1b; auto; intros Hin; apply Hk, in_or_app; auto.
Qed.

Lemma run_reads_nil_assigns : assigns [] (run_reads []).
Proof.
  intros d s d' s' H. simpl in H. run_inv. split; [intros k []|reflexivity].
Qed.

Lemma collect_assigns : assigns snapshot_keys collect.
Proof.
  unfold collect, category_reads.
  change snapshot_keys with
    (["board"; "libraries"] ++ ["nvpmodel"] ++ ["jetson_clocks"] ++ ["cpu"]
     ++ ["gpu"] ++ ["engines"] ++ ["ram"; "swap"] ++ ["temperature"]
     ++ ["fan"] ++ ["processes"] ++ ["disk"] ++ [])%list.
  repeat (apply run_reads_assigns);
    try apply run_reads_nil_assigns;
    try apply read_board_assigns;
    try apply read_nvpmodel_assigns;
    try apply read_jetson_clocks_assigns;
    try apply read_memory_assigns;
    try apply read_category_assigns.
  - apply (assigns_after_set "engines"), read_category_assigns.
  - apply (assigns_after_set "processes"), read_category_assigns.
Qed.

(** ** The management actions never raise *)

Lemma enable_clocks_action_returns (data : dict) (s : state) :
  exists k msg s',
    enable_clocks_action data s = (Ok (dict_set k (PStr msg) data), s') /\
    (k = "clocks_action" \/ k = "clocks_action_error").
Proof.
  unfold enable_clocks_action, try_except.
  destruct (enable_clocks_body data s) as [[d'|e] s1] eqn:Hb.
  - unfold enable_clocks_body in Hb. run_inv. do 3 eexists. split; [reflexivity|now left].
  - unfold ret. do 3 eexists. split; [reflexivity|now right].
Qed.

Lemma set_nvpmodel_action_returns (target : string) (data : dict) (s : state) :
  exists k msg s',
    set_nvpmodel_action target data s = (Ok (dict_set k (PStr msg) data), s') /\
    (k = "nvpmodel_action" \/ k = "nvpmodel_action_error").
Proof.
  unfold set_nvpmodel_action, try_except.
  destruct (set_nvpmodel_body target data s) as [[d'|e] s1] eqn:Hb.
  - unfold set_nvpmodel_body in Hb. cbv zeta in Hb. run_inv. do 3 eexists. split; [reflexivity|now left].
  - unfold ret. do 3 eexists. split; [reflexivity|now right].
Qed.

Lemma management_actions_returns (enable_clocks : bool)
    (set_nvpmodel : option string) (data : dict) (s : state) :
  exists data' s',
    management_actions enable_clocks set_nvpmodel data s = (Ok data', s') /\
    (forall k, ~ In k action_keys -> dict_get k data' = dict_get k data).
Proof.
  unfold management_actions.
  assert (H1 : exists d1 s1,
    (if enable_clocks then enable_clocks_action data else ret data) s
      = (Ok d1, s1) /\
    (forall k, ~ In k action_keys -> dict_get k d1 = dict_get k data)).
  { destruct enable_clocks.
    - destruct (enable_clocks_action_returns data s)
        as (k & msg & s1 & Hrun & Hk).
      exists (dict_set k (PStr msg) data), s1. split; [exact Hrun|].
      intros k' Hk'. apply dict_get_set_other. intros ->. apply Hk'.
      simpl. destruct Hk as [->| ->]; auto.
    - exists data, s. split; [reflexivity|auto]. }
  destruct H1 as (d1 & s1 & Hrun1 & Hkeep1).
  rewrite (bind_run _ _ _ _ _ Hrun1).
  destruct set_nvpmodel as [target|].
  - destruct (set_nvpmodel_action_returns target d1 s1)
      as (k & msg & s2 & Hrun & Hk).
    exists (dict_set k (PStr msg) d1), s2. split; [exact Hrun|].
    intros k' Hk'. rewrite dict_get_set_other; [now apply Hkeep1|].
    intros ->. apply Hk'. simpl. destruct Hk as [->| ->]; auto.
  - exists d1, s1. split; [reflexivity|exact Hkeep1].
Qed.

(** ** The shape of what the [with] body returns *)

Lemma actions_keep_other_keys (enable_clocks : bool)
    (set_nvpmodel : option string) (ok : pyval) (s : state) data s' :
  actions_when ok enable_clocks set_nvpmodel [] s = (Ok data, s') ->
  forall k, ~ In k action_keys -> dict_get k data = None.
Proof.
  intros H k Hk. unfold actions_when in H. destruct (truthy ok).
  - destruct (management_actions_returns enable_clocks set_nvpmodel [] s)
      as (d1 & s1 & Hrun & Hkeep).
    rewrite Hrun in H. inversion H; subst. now rewrite Hkeep.
  - apply ret_ok in H. destruct H; subst. reflexivity.
Qed.

Lemma snapshot_after_actions (d0 d : dict) (s s' : state) :
  (forall k, ~ In k action_keys -> dict_get k d0 = None) ->
  collect d0 s = (Ok d, s') -> is_snapshot d.
Proof.
  intros Hd0 Hc. destruct (collect_assigns _ _ _ _ Hc) as [Hall Hkeep].
  split; [exact Hall|].
  intros k Hk. apply in_or_app.
  destruct (in_dec string_dec k snapshot_keys) as [Hin|Hout]; [now right|].
  destruct (in_dec string_dec k action_keys) as [Hin'|Hout']; [now left|].
  unfold has_key in Hk. rewrite (Hkeep k Hout), (Hd0 k Hout') in Hk.
  discriminate.
Qed.

Lemma with_body_returns (enable_clocks : bool) (set_nvpmodel : option string)
    (s : state) (v : pyval) (s' : state) :
  with_body enable_clocks set_nvpmodel s = (Ok v, s') ->
  v = not_ok_record \/ exists d, v = PDict d /\ is_snapshot d.
Proof.
  unfold with_body. intros H. cbv zeta in H.
  apply bind_ok in H. destruct H as (ok1 & s1 & _ & H).
  apply bind_ok in H. destruct H as (d0 & s2 & Hact & H).
  apply bind_ok in H. destruct H as (ok2 & s3 & _ & H).
  destruct (truthy ok2).
  - apply bind_ok in H. destruct H as (d & s4 & Hc & H).
    apply ret_ok in H. destruct H; subst. right. exists d. split; [reflexivity|].
    eapply snapshot_after_actions; [|exact Hc].
    eapply actions_keep_other_keys. exact Hact.
  - apply ret_ok in H. destruct H; subst. now left.
Qed.

Lemma error_record_is_error (e : exn) :
  exists msg, error_record e = PDict [("error", PStr msg)].
Proof. destruct e; simpl; eauto. Qed.

Lemma snapshot_has_no_error_key (d : dict) :
  is_snapshot d -> dict_get "error" d = None.
Proof.
  intros [_ Hkeys]. destruct (dict_get "error" d) eqn:E; [|reflexivity].
  assert (Hin : In "error" (action_keys ++ snapshot_keys)).
  { apply Hkeys. unfold has_key. now rewrite E. }
  simpl in Hin. repeat (destruct Hin as [Hin|Hin]; [discriminate|]).
  contradiction.
Qed.

(** The decomposition of [get_jetson_info] along the [with] statement. *)
Lemma get_jetson_info_cases (enable_clocks : bool)
    (set_nvpmodel : option string) (s : state) :
  (exists e s1,
      invoke Enter s = (Raise e, s1) /\
      get_jetson_info enable_clocks set_nvpmodel s = (Ok (error_record e), s1))
  \/
  (exists x s1 r s2,
      invoke Enter s = (Ok x, s1) /\
      with_body enable_clocks set_nvpmodel s1 = (r, s2) /\
      ((exists e s3,
          invoke Exit s2 = (Raise e, s3) /\
          get_jetson_info enable_clocks set_nvpmodel s
            = (Ok (error_record e), s3))
       \/
       (exists y s3,
          invoke Exit s2 = (Ok y, s3) /\
          get_jetson_info enable_clocks set_nvpmodel s
            = (match r with
               | Ok v => Ok v
               | Raise e => Ok (error_record e)
               end, s3)))).
Proof.
  unfold get_jetson_info, try_except, with_jtop.
  destruct (invoke Enter s) as [[x|e] s1].
  - right. destruct (with_body enable_clocks set_nvpmodel s1) as [r s2] eqn:Hb.
    exists x, s1, r, s2. split; [reflexivity|]. split; [exact Hb|].
    destruct (invoke Exit s2) as [[y|e] s3].
    + right. exists y, s3. split; [reflexivity|]. now destruct r.
    + left. exists e, s3. split; reflexivity.
  - left. exists e, s1. split; reflexivity.
Qed.

Lemma error_record_has_no_category (msg : string) (k : string) :
  In k snapshot_keys -> has_key k [("error", PStr msg)] = false.
Proof.
  simpl. intros H.
  repeat (destruct H as [<-|H]; [reflexivity|]). contradiction.
Qed.

(** C1.  Whatever the two inputs and however the backend answers,
    [get_jetson_info] returns normally, and what it returns is a mapping
    that is either the single-key [error] record with a string message
    (and then holds no category) or a snapshot (and then holds no [error]
    key). *)
Theorem get_jetson_info_returns_snapshot_or_error (enable_clocks : bool)
    (set_nvpmodel : option string) (w : World) :
  exists d,
    output enable_clocks set_nvpmodel w = Ok (PDict d) /\
    ((is_error_record d /\
      forall k, In k snapshot_keys -> has_key k d = false)
     \/
     (is_snapshot d /\ has_key "error" d = false)).
Proof.
  assert (Herr : forall e, exists d,
    error_record e = PDict d /\
    ((is_error_record d /\
      forall k, In k snapshot_keys -> has_key k d = false)
     \/ (is_snapshot d /\ has_key "error" d = false))).
  { intros e. destruct (error_record_is_error e) as [msg Hmsg].
    exists [("error", PStr msg)]. split; [exact Hmsg|]. left. split.
    - now exists msg.
    - intros k. apply error_record_has_no_category. }
  unfold output.
  destruct (get_jetson_info_cases enable_clocks set_nvpmodel (start w))
    as [(e & s1 & _ & Hrun)
       |(x & s1 & r & s2 & _ & Hbody &
           [(e & s3 & _ & Hrun)|(y & s3 & _ & Hrun)])];
    rewrite Hrun; simpl.
  - destruct (Herr e) as (d & -> & Hd). now exists d.
  - destruct (Herr e) as (d & -> & Hd). now exists d.
  - destruct r as [v|e].
    + destruct (with_body_returns _ _ _ _ _ Hbody) as [->|(d & -> & Hsnap)].
      * exists [("error", PStr "jtop is not ok (service might not be running)")].
        split; [reflexivity|]. left. split.
        -- now eexists.
        -- intros k. apply error_record_has_no_category.
      * exists d. split; [reflexivity|]. right. split; [exact Hsnap|].
        unfold has_key. now rewrite (snapshot_has_no_error_key d Hsnap).
    + destruct (Herr e) as (d & -> & Hd). now exists d.
Qed.

(** ** From the observation points to the output *)

Lemma output_acquire_raises (enable_clocks : bool)
    (set_nvpmodel : option string) (w : World) (e : exn) :
  fst (invoke Enter (start w)) = Raise e ->
  output enable_clocks set_nvpmodel w = Ok (error_record e).
Proof.
  intros H. unfold output.
  destruct (get_jetson_info_cases enable_clocks set_nvpmodel (start w))
    as [(e' & s1 & Henter & Hrun)|(x & s1 & r & s2 & Henter & _)];
    rewrite Henter in H; simpl in H.
  - inversion H; subst. now rewrite Hrun.
  - discriminate.
Qed.

Lemma output_release_raises (enable_clocks : bool)
    (set_nvpmodel : option string) (w : World) s1 r s2 (e : exn) :
  acquired w = Some s1 ->
  with_body enable_clocks set_nvpmodel s1 = (r, s2) ->
  fst (invoke Exit s2) = Raise e ->
  output enable_clocks set_nvpmodel w = Ok (error_record e).
Proof.
  intros Hacq Hbody Hexit. unfold output. unfold acquired in Hacq.
  destruct (get_jetson_info_cases enable_clocks set_nvpmodel (start w))
    as [(e' & s1' & Henter & Hrun)
       |(x & s1' & r' & s2' & Henter & Hbody' & Hcases)];
    rewrite Henter in Hacq; [discriminate|].
  inversion Hacq; subst s1'. rewrite Hbody in Hbody'.
  inversion Hbody'; subst r' s2'.
  destruct Hcases as [(e' & s3 & Hx & Hrun)|(y & s3 & Hx & Hrun)];
    rewrite Hx in Hexit; simpl in Hexit; [|discriminate].
  inversion Hexit; subst. now rewrite Hrun.
Qed.

Lemma output_of_body (enable_clocks : bool)
    (set_nvpmodel : option string) (w : World) s1 r s2 :
  acquired w = Some s1 ->
  with_body enable_clocks set_nvpmodel s1 = (r, s2) ->
  released s2 = true ->
  output enable_clocks set_nvpmodel w
    = match r with Ok v => Ok v | Raise e => Ok (error_record e) end.
Proof.
  intros Hacq Hbody Hexit. unfold output. unfold acquired in Hacq.
  unfold released in Hexit.
  destruct (get_jetson_info_cases enable_clocks set_nvpmodel (start w))
    as [(e' & s1' & Henter & Hrun)
       |(x & s1' & r' & s2' & Henter & Hbody' & Hcases)];
    rewrite Henter in Hacq; [discriminate|].
  inversion Hacq; subst s1'. rewrite Hbody in Hbody'.
  inversion Hbody'; subst r' s2'.
  destruct Hcases as [(e' & s3 & Hx & Hrun)|(y & s3 & Hx & Hrun)];
    rewrite Hx in Hexit; simpl in Hexit; [discriminate|].
  now rewrite Hrun.
Qed.

Lemma run_reads_app (l1 l2 : list (dict -> M dict)) (d : dict) (s : state) :
  run_reads (l1 ++ l2) d s
    = bind (run_reads l1 d) (run_reads l2) s.
Proof.
  revert d s. induction l1 as [|read rest IH]; intros d s; simpl.
  - reflexivity.
  - unfold bind. destruct (read d s) as [[d1|e] s1]; [|reflexivity].
    rewrite IH. reflexivity.
Qed.

Lemma first_check_inv (w : World) ok s2 :
  first_check w = Some (ok, s2) ->
  exists s1, acquired w = Some s1 /\ invoke IsOk s1 = (Ok ok, s2).
Proof.
  unfold first_check. destruct (acquired w) as [s1|]; [|discriminate].
  destruct (invoke IsOk s1) as [[ok'|e] s'] eqn:E; intros H; inversion H.
  subst. now exists s1.
Qed.

Lemma after_actions_inv (enable_clocks : bool) (set_nvpmodel : option string)
    (w : World) d s3 :
  after_actions enable_clocks set_nvpmodel w = Some (d, s3) ->
  exists ok s2,
    first_check w = Some (ok, s2) /\
    actions_when ok enable_clocks set_nvpmodel [] s2 = (Ok d, s3).
Proof.
  unfold after_actions.
  destruct (first_check w) as [[ok s2]|]; [|discriminate].
  destruct (actions_when ok enable_clocks set_nvpmodel [] s2)
    as [[d'|e] s'] eqn:E; intros H; inversion H.
  subst. now exists ok, s2.
Qed.

Lemma second_check_inv (enable_clocks : bool) (set_nvpmodel : option string)
    (w : World) d ok s4 :
  second_check enable_clocks set_nvpmodel w = Some (d, ok, s4) ->
  exists s3,
    after_actions enable_clocks set_nvpmodel w = Some (d, s3) /\
    invoke IsOk s3 = (Ok ok, s4).
Proof.
  unfold second_check.
  destruct (after_actions enable_clocks set_nvpmodel w) as [[d' s3]|];
    [|discriminate].
  destruct (invoke IsOk s3) as [[ok'|e] s'] eqn:E; intros H; inversion H.
  subst. now exists s3.
Qed.

Lemma arrive_inv (enable_clocks : bool) (set_nvpmodel : option string)
    (w : World) (i : nat) d s :
  arrive enable_clocks set_nvpmodel w i = Some (d, s) ->
  exists d0 ok s4,
    second_check enable_clocks set_nvpmodel w = Some (d0, ok, s4) /\
    truthy ok = true /\
    run_reads (firstn i category_reads) d0 s4 = (Ok d, s).
Proof.
  unfold arrive.
  destruct (second_check enable_clocks set_nvpmodel w) as [[[d0 ok] s4]|];
    [|discriminate].
  destruct (truthy ok) eqn:Hok; [|discriminate].
  destruct (run_reads (firstn i category_reads) d0 s4) as [[d'|e] s'] eqn:E;
    intros H; inversion H.
  subst. now exists d0, ok, s4.
Qed.

(** What the [with] body does once the second readiness check is done. *)
Lemma with_body_after_checks (enable_clocks : bool)
    (set_nvpmodel : option string) (w : World) s1 d0 ok s4 :
  acquired w = Some s1 ->
  second_check enable_clocks set_nvpmodel w = Some (d0, ok, s4) ->
  with_body enable_clocks set_nvpmodel s1
    = (if truthy ok
       then bind (collect d0) (fun data => ret (PDict data))
       else ret not_ok_record) s4.
Proof.
  intros Hacq H2.
  apply second_check_inv in H2. destruct H2 as (s3 & H1 & Hok2).
  apply after_actions_inv in H1. destruct H1 as (ok1 & s2 & H0 & Hact).
  apply first_check_inv in H0. destruct H0 as (s1' & Hacq' & Hok1).
  rewrite Hacq in Hacq'. inversion Hacq'; subst s1'.
  unfold with_body. cbv zeta.
  rewrite (bind_run _ _ _ _ _ Hok1).
  rewrite (bind_run _ _ _ _ _ Hact).
  rewrite (bind_run _ _ _ _ _ Hok2).
  reflexivity.
Qed.

(** Once the run is at the [i]-th category read, the [with] body does the
    remaining reads and returns the mapping. *)
Lemma with_body_from_read (enable_clocks : bool)
    (set_nvpmodel : option string) (w : World) (i : nat) s1 d s :
  acquired w = Some s1 ->
  arrive enable_clocks set_nvpmodel w i = Some (d, s) ->
  with_body enable_clocks set_nvpmodel s1
    = bind (run_reads (skipn i category_reads) d)
        (fun data => ret (PDict data)) s.
Proof.
  intros Hacq Harr.
  apply arrive_inv in Harr. destruct Harr as (d0 & ok & s4 & H2 & Hok & Hpre).
  rewrite (with_body_after_checks _ _ _ _ _ _ _ Hacq H2), Hok.
  unfold collect. rewrite <- (firstn_skipn i category_reads) at 1.
  unfold bind at 1. rewrite run_reads_app.
  rewrite (bind_run _ _ _ _ _ Hpre). reflexivity.
Qed.

Lemma arrive_acquired (enable_clocks : bool) (set_nvpmodel : option string)
    (w : World) (i : nat) d s :
  arrive enable_clocks set_nvpmodel w i = Some (d, s) ->
  exists s1, acquired w = Some s1.
Proof.
  intros H. apply arrive_inv in H. destruct H as (d0 & ok & s4 & H2 & _).
  apply second_check_inv in H2. destruct H2 as (s3 & H1 & _).
  apply after_actions_inv in H1. destruct H1 as (ok1 & s2 & H0 & _).
  apply first_check_inv in H0. destruct H0 as (s1 & Hacq & _).
  now exists s1.
Qed.

Lemma error_record_has_error_key (e : exn) (d : dict) :
  error_record e = PDict d -> dict_get "error" d <> None.
Proof. destruct e; simpl; intros H; inversion H; simpl; discriminate. Qed.

(** A snapshot output comes from a [with] body that returned it and a
    release that raised nothing. *)
Lemma snapshot_output_body (enable_clocks : bool)
    (set_nvpmodel : option string) (w : World) (out : dict) :
  output enable_clocks set_nvpmodel w = Ok (PDict out) ->
  dict_get "error" out = None ->
  exists s1 s2,
    acquired w = Some s1 /\
    with_body enable_clocks set_nvpmodel s1 = (Ok (PDict out), s2).
Proof.
  intros Hout Hnoerr. unfold output in Hout. unfold acquired.
  destruct (get_jetson_info_cases enable_clocks set_nvpmodel (start w))
    as [(e & s1 & Henter & Hrun)
       |(x & s1 & r & s2 & Henter & Hbody &
           [(e & s3 & _ & Hrun)|(y & s3 & _ & Hrun)])];
    rewrite Hrun in Hout; simpl in Hout; rewrite Henter.
  - inversion Hout as [He]. now apply error_record_has_error_key in He.
  - inversion Hout as [He]. now apply error_record_has_error_key in He.
  - destruct r as [v|e].
    + inversion Hout; subst. now exists s1, s2.
    + inversion Hout as [He]. now apply error_record_has_error_key in He.
Qed.

(** A snapshot output is what the remaining category reads build, from
    whichever read the run is observed at. *)
Lemma snapshot_output_from_read (enable_clocks : bool)
    (set_nvpmodel : option string) (w : World) (i : nat) d s (out : dict) :
  arrive enable_clocks set_nvpmodel w i = Some (d, s) ->
  output enable_clocks set_nvpmodel w = Ok (PDict out) ->
  dict_get "error" out = None ->
  exists s', run_reads (skipn i category_reads) d s = (Ok out, s').
Proof.
  intros Harr Hout Hnoerr.
  destruct (snapshot_output_body _ _ _ _ Hout Hnoerr) as (s1 & s2 & Hacq & Hb).
  rewrite (with_body_from_read _ _ _ _ _ _ _ Hacq Harr) in Hb.
  apply bind_ok in Hb. destruct Hb as (d' & s' & Hreads & Hret).
  apply ret_ok in Hret. destruct Hret as [Hd _]. inversion Hd; subst.
  now exists s'.
Qed.

(** A snapshot output means the run got to the category reads. *)
Lemma snapshot_output_arrived (enable_clocks : bool)
    (set_nvpmodel : option string) (w : World) (out : dict) :
  output enable_clocks set_nvpmodel w = Ok (PDict out) ->
  dict_get "error" out = None ->
  exists d0 s0, arrive enable_clocks set_nvpmodel w 0 = Some (d0, s0).
Proof.
  intros Hout Hnoerr.
  destruct (snapshot_output_body _ _ _ _ Hout Hnoerr) as (s1 & s2 & Hacq & Hb).
  unfold with_body in Hb. cbv zeta in Hb.
  apply bind_ok in Hb. destruct Hb as (ok1 & sa & Hok1 & Hb).
  apply bind_ok in Hb. destruct Hb as (d0 & sb & Hact & Hb).
  apply bind_ok in Hb. destruct Hb as (ok2 & sc & Hok2 & Hb).
  destruct (truthy ok2) eqn:Ht.
  - exists d0, sc. unfold arrive, second_check, after_actions, first_check.
    rewrite Hacq, Hok1. cbv beta iota. rewrite Hact, Hok2, Ht. reflexivity.
  - apply ret_ok in Hb. destruct Hb as [Hv _]. inversion Hv; subst.
    discriminate.
Qed.

Lemma skipn_nth_error {A : Type} (l : list A) (i : nat) (x : A) :
  nth_error l i = Some x -> skipn i l = x :: skipn (S i) l.
Proof.
  revert i. induction l as [|y rest IH]; intros [|i] H; simpl in H;
    try discriminate.
  - now inversion H.
  - simpl. now apply IH.
Qed.

(** An exception raised by a category read leaves the [with] body. *)
Lemma with_body_read_raises (enable_clocks : bool)
    (set_nvpmodel : option string) (w : World) (i : nat)
    (read : dict -> M dict) s1 d s e s' :
  acquired w = Some s1 ->
  arrive enable_clocks set_nvpmodel w i = Some (d, s) ->
  nth_error category_reads i = Some read ->
  read d s = (Raise e, s') ->
  with_body enable_clocks set_nvpmodel s1 = (Raise e, s').
Proof.
  intros Hacq Harr Hnth Hread.
  rewrite (with_body_from_read _ _ _ _ _ _ _ Hacq Harr).
  rewrite (skipn_nth_error _ _ _ Hnth). simpl run_reads.
  apply bind_abort. now apply bind_abort.
Qed.

Lemma read_raises_output (enable_clocks : bool)
    (set_nvpmodel : option string) (w : World) (i : nat)
    (read : dict -> M dict) d s e s' :
  arrive enable_clocks set_nvpmodel w i = Some (d, s) ->
  nth_error category_reads i = Some read ->
  read d s = (Raise e, s') ->
  released s' = true ->
  output enable_clocks set_nvpmodel w = Ok (error_record e).
Proof.
  intros Harr Hnth Hread Hrel.
  destruct (arrive_acquired _ _ _ _ _ _ Harr) as [s1 Hacq].
  pose proof (with_body_read_raises _ _ _ _ _ _ _ _ _ _
                Hacq Harr Hnth Hread) as Hb.
  now rewrite (output_of_body _ _ _ _ _ _ Hacq Hb Hrel).
Qed.

Lemma read_category_raises (prop key : string) (f : pyval -> res pyval)
    (d : dict) (s : state) x s' e :
  invoke (GetProp prop) s = (Ok x, s') ->
  f x = Raise e ->
  read_category prop key f d s = (Raise e, s').
Proof.
  intros Hget Hf. unfold read_category.
  rewrite (bind_run _ _ _ _ _ Hget). unfold bind, lift. now rewrite Hf.
Qed.

Lemma read_category_returns (prop key : string) (f : pyval -> res pyval)
    (d : dict) (s : state) x s' v :
  invoke (GetProp prop) s = (Ok x, s') ->
  f x = Ok v ->
  read_category prop key f d s = (Ok (dict_set key v d), s').
Proof.
  intros Hget Hf. unfold read_category.
  rewrite (bind_run _ _ _ _ _ Hget). unfold bind, lift, ret. now rewrite Hf.
Qed.

Lemma fan_speed_empty_list (f : dict) :
  dict_get "speed" f = Some (PList []) ->
  fan_speed (PDict f) = Raise (OtherException "list index out of range").
Proof.
  intros H. unfold fan_speed. cbn [py_get res_bind]. unfold get_or.
  rewrite H. reflexivity.
Qed.

(** C10.  When the run gets to the fan read on a ready handle and the
    backend reports the fan with its speed field an empty list, the speed
    extraction subscripts the empty list at 0, no default is applied, and
    (the handle being released normally) the output is the single-key
    record [{"error": "Unexpected error: list index out of range"}]. *)
Theorem fan_speed_empty_list_aborts_snapshot (enable_clocks : bool)
    (set_nvpmodel : option string) (w : World) d s (fan : dict) s' :
  arrive enable_clocks set_nvpmodel w 8 = Some (d, s) ->
  invoke (GetProp "fan") s = (Ok (PDict fan), s') ->
  dict_get "speed" fan = Some (PList []) ->
  released s' = true ->
  fan_speed (PDict fan) = Raise (OtherException "list index out of range") /\
  read_fan d s = (Raise (OtherException "list index out of range"), s') /\
  output enable_clocks set_nvpmodel w
    = Ok (PDict [("error", PStr "Unexpected error: list index out of range")]).
Proof.
  intros Harr Hfan Hspeed Hrel.
  pose proof (fan_speed_empty_list fan Hspeed) as Hraise.
  assert (Hread : read_fan d s
            = (Raise (OtherException "list index out of range"), s')).
  { unfold read_fan. eapply read_category_raises; [exact Hfan|].
    unfold fan_category. now rewrite Hraise. }
  repeat split; [exact Hraise|exact Hread|].
  now rewrite (read_raises_output _ _ _ 8 read_fan _ _ _ _
                 Harr eq_refl Hread Hrel).
Qed.

(** ** Later reads leave earlier categories alone *)

Lemma read_engines_assigns : assigns ["engines"] read_engines.
Proof. apply (assigns_after_set "engines"), read_category_assigns. Qed.

Lemma read_processes_assigns : assigns ["processes"] read_processes.
Proof. apply (assigns_after_set "processes"), read_category_assigns. Qed.

Ltac assigns_reads :=
  repeat first
    [ apply run_reads_nil_assigns
    | eapply run_reads_assigns
    | apply read_board_assigns
    | apply read_nvpmodel_assigns
    | apply read_jetson_clocks_assigns
    | apply read_engines_assigns
    | apply read_memory_assigns
    | apply read_processes_assigns
    | apply read_category_assigns ].

Ltac not_among :=
  simpl; intros Hamong;
  repeat (destruct Hamong as [Hamong|Hamong]; [discriminate|]);
  exact Hamong.

(** The category stored by the [i]-th read is still there in a snapshot
    output. *)
Lemma category_survives (enable_clocks : bool)
    (set_nvpmodel : option string) (w : World) (i : nat)
    (read : dict -> M dict) (ks : list string) (k : string)
    d s d1 s1 (out : dict) :
  arrive enable_clocks set_nvpmodel w i = Some (d, s) ->
  nth_error category_reads i = Some read ->
  read d s = (Ok d1, s1) ->
  assigns ks (run_reads (skipn (S i) category_reads)) ->
  ~ In k ks ->
  output enable_clocks set_nvpmodel w = Ok (PDict out) ->
  dict_get "error" out = None ->
  dict_get k out = dict_get k d1.
Proof.
  intros Harr Hnth Hread Hrest Hk Hout Hnoerr.
  destruct (snapshot_output_from_read _ _ _ _ _ _ _ Harr Hout Hnoerr)
    as [s' Hreads].
  rewrite (skipn_nth_error _ _ _ Hnth) in Hreads. simpl run_reads in Hreads.
  rewrite (bind_run _ _ _ _ _ Hread) in Hreads.
  destruct (Hrest _ _ _ _ Hreads) as [_ Hkeep]. now apply Hkeep.
Qed.

(** ** Processes *)

Lemma process_entry_record (fields : list pyval) :
  has_ten_fields fields = true ->
  process_entry (PList fields) = Ok (process_record fields).
Proof.
  unfold has_ten_fields. intros H. apply Nat.leb_le in H.
  unfold process_entry, process_record, py_getitem_int.
  rewrite !(nth_error_nth' fields PNone) by lia. reflexivity.
Qed.

Lemma process_entries_records (records : list (list pyval))
    (acc : list pyval) :
  process_entries (map PList records) acc
    = Ok (acc ++ map process_record (filter has_ten_fields records))%list.
Proof.
  revert acc. induction records as [|fields rest IH]; intros acc.
  - simpl. now rewrite app_nil_r.
  - cbn [map process_entries py_len res_bind filter].
    change (Nat.leb 10 (Datatypes.length fields)) with (has_ten_fields fields).
    destruct (has_ten_fields fields) eqn:Hlen.
    + rewrite (process_entry_record fields Hlen). cbn [res_bind map].
      rewrite IH, <- app_assoc. reflexivity.
    + apply IH.
Qed.

Lemma processes_category_records (records : list (list pyval)) :
  processes_category (PList (map PList records))
    = Ok (PList (map process_record (filter has_ten_fields records))).
Proof.
  unfold processes_category. simpl.
  now rewrite process_entries_records.
Qed.

(** C9.  When the backend reports a list of positional process records,
    the processes category is the list of the entries built from the
    records of at least ten fields, in order, each with pid, user,
    accelerator memory and name taken from positions 0, 1, 8 and 9; the
    shorter records leave no trace, and the extraction never raises. *)
Theorem processes_keep_records_of_ten_fields (enable_clocks : bool)
    (set_nvpmodel : option string) (w : World) d s
    (records : list (list pyval)) s' :
  arrive enable_clocks set_nvpmodel w 9 = Some (d, s) ->
  invoke (GetProp "processes") s = (Ok (PList (map PList records)), s') ->
  let entries := map process_record (filter has_ten_fields records) in
  processes_category (PList (map PList records)) = Ok (PList entries) /\
  (exists d1,
      read_processes d s = (Ok d1, s') /\
      dict_get "processes" d1 = Some (PList entries)) /\
  (forall out,
      output enable_clocks set_nvpmodel w = Ok (PDict out) ->
      dict_get "error" out = None ->
      dict_get "processes" out = Some (PList entries)).
Proof.
  intros Harr Hget entries.
  pose proof (processes_category_records records) as Hcat.
  fold entries in Hcat.
  assert (Hread : read_processes d s
            = (Ok (dict_set "processes" (PList entries)
                     (dict_set "processes" (PList []) d)), s')).
  { unfold read_processes. cbv zeta.
    now apply (read_category_returns _ _ _ _ _ _ _ _ Hget Hcat). }
  split; [exact Hcat|]. split.
  - eexists. split; [exact Hread|]. apply dict_get_set_same.
  - intros out Hout Hnoerr.
    eapply eq_trans; [|apply dict_get_set_same].
    eapply (category_survives _ _ _ 9);
      [exact Harr|reflexivity|exact Hread| | |exact Hout|exact Hnoerr].
    + unfold category_reads. cbn [skipn]. assigns_reads.
    + not_among.
Qed.

(** ** Memory *)

Lemma py_get_ok_inv (v : pyval) (k : string) (dflt x : pyval) :
  py_get v k dflt = Ok x -> exists d, v = PDict d /\ x = get_or d k dflt.
Proof.
  destruct v; simpl; try discriminate.
  intros H. inversion H. eauto.
Qed.

Lemma nested_field_ok_inv (info : pyval) (group field : string) (x : pyval) :
  nested_field info group field = Ok x ->
  exists d sub,
    info = PDict d /\ get_or d group (PDict []) = PDict sub /\
    x = get_or sub field (PInt 0).
Proof.
  unfold nested_field. intros H.
  destruct (py_get info group (PDict [])) as [y|e] eqn:E; [|discriminate].
  simpl in H.
  apply py_get_ok_inv in E. destruct E as (d & -> & ->).
  apply py_get_ok_inv in H. destruct H as (sub & Hsub & ->).
  now exists d, sub.
Qed.

Lemma swap_category_ok_inv (memory v : pyval) :
  swap_category memory = Ok v ->
  exists mem swap,
    memory = PDict mem /\ get_or mem "SWAP" (PDict []) = PDict swap /\
    v = swap_report swap.
Proof.
  unfold swap_category. intros H.
  destruct (nested_field memory "SWAP" "tot") as [total|e] eqn:E1;
    [|discriminate].
  simpl in H.
  destruct (nested_field memory "SWAP" "used") as [used|e] eqn:E2;
    [|discriminate].
  simpl in H. inversion H; subst v.
  apply nested_field_ok_inv in E1. destruct E1 as (mem & swap & -> & Hs & ->).
  apply nested_field_ok_inv in E2. destruct E2 as (mem' & swap' & Hm & Hs' & ->).
  inversion Hm; subst mem'. rewrite Hs in Hs'. inversion Hs'; subst swap'.
  now exists mem, swap.
Qed.

(** C5, as amended.  In every snapshot the swap category holds exactly two
    values, total and used: the [tot] and [used] fields of the swap
    mapping the backend reported (an empty mapping when it reports none),
    passed through unchanged, each 0 when the field is missing.  No free
    value is reported for swap. *)
Theorem swap_category_reports_total_and_used (enable_clocks : bool)
    (set_nvpmodel : option string) (w : World) d s (memory : pyval) s'
    (out : dict) :
  arrive enable_clocks set_nvpmodel w 6 = Some (d, s) ->
  invoke (GetProp "memory") s = (Ok memory, s') ->
  output enable_clocks set_nvpmodel w = Ok (PDict out) ->
  dict_get "error" out = None ->
  exists mem swap,
    memory = PDict mem /\
    get_or mem "SWAP" (PDict []) = PDict swap /\
    dict_get "swap" out
      = Some (PDict [("total", get_or swap "tot" (PInt 0));
                     ("used", get_or swap "used" (PInt 0))]).
Proof.
  intros Harr Hget Hout Hnoerr.
  destruct (snapshot_output_from_read _ _ _ _ _ _ _ Harr Hout Hnoerr)
    as [sf Hreads].
  unfold category_reads in Hreads. cbn [skipn run_reads] in Hreads.
  apply bind_ok in Hreads. destruct Hreads as (d1 & s1 & Hread & _).
  pose proof Hread as Hmem. unfold read_memory in Hmem.
  rewrite (bind_run _ _ _ _ _ Hget) in Hmem. cbv zeta in Hmem. run_inv.
  match goal with H : swap_category memory = Ok _ |- _ =>
    apply swap_category_ok_inv in H;
    destruct H as (mem & swap & Hm & Hswap & Hv) end.
  exists mem, swap. split; [exact Hm|]. split; [exact Hswap|].
  eapply eq_trans; [|apply dict_get_set_same].
  fold (swap_report swap). rewrite <- Hv.
  eapply (category_survives _ _ _ 6);
    [exact Harr|reflexivity|exact Hread| | |exact Hout|exact Hnoerr].
  - unfold category_reads. cbn [skipn]. assigns_reads.
  - not_among.
Qed.

(** ** The clocks-control object *)

(** C6, what the code does for an existing but inactive object.  When the
    clocks-control object read at line 58 is false as a truth value, the
    [else] branch is taken: the category is the constant record
    active=false, status="inactive", boot=false, whatever the status and
    the boot flag of the object are. *)
Theorem inactive_clocks_object_gets_defaults (enable_clocks : bool)
    (set_nvpmodel : option string) (w : World) d s
    (cls : string) (attrs : dict) s' :
  arrive enable_clocks set_nvpmodel w 2 = Some (d, s) ->
  invoke (GetProp "jetson_clocks") s = (Ok (PObj cls false attrs), s') ->
  read_jetson_clocks d s = (Ok (dict_set "jetson_clocks" clocks_default d), s')
  /\
  (forall out,
      output enable_clocks set_nvpmodel w = Ok (PDict out) ->
      dict_get "error" out = None ->
      dict_get "jetson_clocks" out = Some clocks_default).
Proof.
  intros Harr Hget.
  assert (Hread : read_jetson_clocks d s
            = (Ok (dict_set "jetson_clocks" clocks_default d), s')).
  { unfold read_jetson_clocks. rewrite (bind_run _ _ _ _ _ Hget).
    reflexivity. }
  split; [exact Hread|].
  intros out Hout Hnoerr.
  eapply eq_trans; [|apply dict_get_set_same].
  eapply (category_survives _ _ _ 2);
    [exact Harr|reflexivity|exact Hread| | |exact Hout|exact Hnoerr].
  - unfold category_reads. cbn [skipn]. assigns_reads.
  - not_among.
Qed.

(** ** The log of calls *)

Lemma logs_ret (P : call -> Prop) {A : Type} (a : A) : logs P (ret a).
Proof. intros s. exists []. simpl. now rewrite app_nil_r. Qed.

Lemma logs_lift (P : call -> Prop) {A : Type} (r : res A) : logs P (lift r).
Proof. intros s. exists []. simpl. now rewrite app_nil_r. Qed.

Lemma logs_invoke (P : call -> Prop) (c : call) : P c -> logs P (invoke c).
Proof.
  intros Hc s. exists [c]. unfold invoke.
  destruct (backend c (world s)) as [r w']. simpl. auto.
Qed.

Lemma logs_time_sleep (P : call -> Prop) (secs : Z) :
  P (Sleep secs) -> logs P (time_sleep secs).
Proof. intros Hc s. exists [Sleep secs]. simpl. auto. Qed.

Lemma logs_bind (P : call -> Prop) {A B : Type} (m : M A) (k : A -> M B) :
  logs P m -> (forall a, logs P (k a)) -> logs P (bind m k).
Proof.
  intros Hm Hk s. unfold bind.
  destruct (Hm s) as (cs1 & E1 & F1).
  destruct (m s) as [[a|e] s1]; simpl in E1.
  - destruct (Hk a s1) as (cs2 & E2 & F2).
    exists (cs1 ++ cs2)%list. rewrite E2, E1, app_assoc.
    split; [reflexivity|]. apply Forall_app. auto.
  - exists cs1. auto.
Qed.

Lemma logs_try_except (P : call -> Prop) {A : Type} (body : M A)
    (handler : exn -> M A) :
  logs P body -> (forall e, logs P (handler e)) ->
  logs P (try_except body handler).
Proof.
  intros Hb Hh s. unfold try_except.
  destruct (Hb s) as (cs1 & E1 & F1).
  destruct (body s) as [[a|e] s1]; simpl in E1.
  - exists cs1. auto.
  - destruct (Hh e s1) as (cs2 & E2 & F2).
    exists (cs1 ++ cs2)%list. rewrite E2, E1, app_assoc.
    split; [reflexivity|]. apply Forall_app. auto.
Qed.

Lemma logs_with_jtop (P : call -> Prop) {A : Type} (body : M A) :
  P Enter -> P Exit -> logs P body -> logs P (with_jtop body).
Proof.
  intros HE HX Hb s. unfold with_jtop.
  destruct (logs_invoke P Enter HE s) as (cs1 & E1 & F1).
  destruct (invoke Enter s) as [[x|e] s1]; simpl in E1.
  - destruct (Hb s1) as (cs2 & E2 & F2).
    destruct (body s1) as [r s2]; simpl in E2.
    destruct (logs_invoke P Exit HX s2) as (cs3 & E3 & F3).
    exists (cs1 ++ cs2 ++ cs3)%list.
    split;
      [|apply Forall_app; split; [|apply Forall_app; split]; assumption].
    destruct (invoke Exit s2) as [[y|e] s3]; simpl in E3 |- *;
      now rewrite E3, E2, E1, !app_assoc.
  - exists cs1. auto.
Qed.

Lemma logs_if (P : call -> Prop) {A : Type} (b : bool) (m1 m2 : M A) :
  logs P m1 -> logs P m2 -> logs P (if b then m1 else m2).
Proof. now destruct b. Qed.

Ltac logs_step :=
  match goal with
  | |- logs _ (ret _) => apply logs_ret
  | |- logs _ (lift _) => apply logs_lift
  | |- logs _ (bind _ _) => apply logs_bind; [|intros ?]
  | |- logs _ (if _ then _ else _) => apply logs_if
  | |- logs _ (try_except _ _) => apply logs_try_except; [|intros ?]
  | |- logs _ (invoke _) => apply logs_invoke
  | |- logs _ (time_sleep _) => apply logs_time_sleep
  end.

Section Logs.

Variable P : call -> Prop.
Hypothesis P_reads : forall name, P (GetProp name).

Lemma logs_read_category (prop key : string) (f : pyval -> res pyval)
    (d : dict) :
  logs P (read_category prop key f d).
Proof. unfold read_category. repeat logs_step. apply P_reads. Qed.

Lemma logs_nvpmodel_field (attr : string) (dflt : pyval) :
  logs P (nvpmodel_field attr dflt).
Proof. unfold nvpmodel_field. repeat logs_step; apply P_reads. Qed.

Lemma logs_category_reads :
  Forall (fun read => forall d, logs P (read d)) category_reads.
Proof.
  unfold category_reads.
  repeat apply Forall_cons; try apply Forall_nil; intros d;
    try apply logs_read_category.
  - unfold read_board. repeat logs_step. apply P_reads.
  - unfold read_nvpmodel. repeat logs_step; apply logs_nvpmodel_field.
  - unfold read_jetson_clocks. repeat logs_step; apply P_reads.
  - unfold read_memory. repeat logs_step. apply P_reads.
Qed.

Lemma logs_run_reads (reads : list (dict -> M dict)) :
  Forall (fun read => forall d, logs P (read d)) reads ->
  forall d, logs P (run_reads reads d).
Proof.
  induction 1 as [|read rest Hread _ IH]; intros d; simpl.
  - apply logs_ret.
  - apply logs_bind; [apply Hread|apply IH].
Qed.

Lemma logs_collect (d : dict) : logs P (collect d).
Proof. apply logs_run_reads, logs_category_reads. Qed.

Hypothesis P_ok : P IsOk.

(** The part of the [with] body that follows the guarded block. *)
Lemma logs_second_half (data : dict) :
  logs P (bind (invoke IsOk) (fun ok =>
            if truthy ok
            then bind (collect data) (fun data => ret (PDict data))
            else ret not_ok_record)).
Proof. repeat logs_step; [exact P_ok|apply logs_collect]. Qed.

Lemma logs_enable_clocks_action (data : dict) :
  P (SetProp "jetson_clocks" (PBool true)) ->
  (forall obj, P (SetAttr obj "boot" (PBool true))) ->
  logs P (enable_clocks_action data).
Proof.
  intros Hset Hboot. unfold enable_clocks_action, enable_clocks_body.
  repeat logs_step; try assumption; try apply P_reads.
  unfold py_setattr.
  match goal with |- logs _ (match ?o with _ => _ end) => destruct o end;
    first [apply logs_lift | apply logs_invoke, Hboot].
Qed.

Lemma logs_set_nvpmodel_action (target : string) (data : dict) :
  P (SetProp "nvpmodel" (nvp_pyval (convert_nvpmodel target))) ->
  P (Sleep 1) ->
  logs P (set_nvpmodel_action target data).
Proof.
  intros Hset Hsleep. unfold set_nvpmodel_action, set_nvpmodel_body.
  cbv zeta. repeat logs_step; assumption.
Qed.

Lemma logs_get_jetson_info (enable_clocks : bool)
    (set_nvpmodel : option string) :
  P Enter -> P Exit ->
  (enable_clocks = true ->
   P (SetProp "jetson_clocks" (PBool true)) /\
   forall obj, P (SetAttr obj "boot" (PBool true))) ->
  (forall target, set_nvpmodel = Some target ->
   P (SetProp "nvpmodel" (nvp_pyval (convert_nvpmodel target))) /\
   P (Sleep 1)) ->
  logs P (get_jetson_info enable_clocks set_nvpmodel).
Proof.
  intros HE HX Hclocks Hnvp. unfold get_jetson_info.
  apply logs_try_except; [|intros e; apply logs_ret].
  apply logs_with_jtop; [exact HE|exact HX|].
  unfold with_body. cbv zeta.
  apply logs_bind; [apply logs_invoke, P_ok|intros ok1].
  apply logs_bind; [|intros data; apply logs_second_half].
  unfold actions_when, management_actions.
  apply logs_if; [|apply logs_ret].
  apply logs_bind.
  - destruct enable_clocks; [|apply logs_ret].
    destruct (Hclocks eq_refl). now apply logs_enable_clocks_action.
  - intros data. destruct set_nvpmodel as [target|]; [|apply logs_ret].
    destruct (Hnvp target eq_refl). now apply logs_set_nvpmodel_action.
Qed.

End Logs.

Lemma logs_grows (P : call -> Prop) {A : Type} (m : M A) :
  logs P m -> forall s c, In c (trace s) -> In c (trace (snd (m s))).
Proof.
  intros Hm s c Hc. destruct (Hm s) as (cs & E & _). rewrite E.
  apply in_or_app. now left.
Qed.

Lemma logs_anything_collect_phase (data : dict) :
  logs (fun _ => True)
    (bind (invoke IsOk) (fun ok =>
       if truthy ok
       then bind (collect data) (fun data => ret (PDict data))
       else ret not_ok_record)).
Proof. apply logs_second_half; auto. Qed.

(** ** The conversion and the integer literals *)

Lemma is_space_white (c : ascii) : is_space c = true <-> In c white_space.
Proof.
  split.
  - destruct c as [[] [] [] [] [] [] [] []]; intros H;
      try discriminate H; vm_compute; tauto.
  - intros H. vm_compute in H.
    repeat (destruct H as [<-|H]; [reflexivity|]). contradiction.
Qed.

Lemma digit_of_decimal (c : ascii) (d : Z) :
  digit_of c = Some d <-> In (c, d) decimal_digits.
Proof.
  split.
  - destruct c as [[] [] [] [] [] [] [] []]; intros H;
      try discriminate H; vm_compute in H; inversion H; subst d;
      simpl; tauto.
  - intros H. simpl in H.
    repeat (destruct H as [H|H]; [inversion H; reflexivity|]). contradiction.
Qed.

Lemma digits_value_groups (cs : list ascii) (acc v : Z) :
  (digits_value cs acc false = Some v ->
   exists ds,
     digit_groups cs ds /\ v = fold_left (fun a d => 10 * a + d) ds acc) /\
  (digits_value cs acc true = Some v ->
   cs = [] /\ v = acc \/
   exists ds,
     (digit_groups cs ds \/
      exists rest, cs = "_"%char :: rest /\ digit_groups rest ds) /\
     v = fold_left (fun a d => 10 * a + d) ds acc).
Proof.
  revert acc v. induction cs as [|c rest IH]; intros acc v.
  - split; simpl; [discriminate|]. intros H. inversion H. now left.
  - cbn [digits_value]. destruct (digit_of c) as [d|] eqn:Ed.
    + pose proof (proj1 (digit_of_decimal c d) Ed) as Hin.
      assert (K : digits_value rest (10 * acc + d) true = Some v ->
                  exists ds,
                    digit_groups (c :: rest) ds /\
                    v = fold_left (fun a d => 10 * a + d) ds acc).
      { intros H. apply (proj2 (IH _ _)) in H.
        destruct H as [[-> ->]|(ds & [G|(rest' & -> & G)] & ->)].
        - exists [d]. split; [now constructor|reflexivity].
        - exists (d :: ds). split; [now apply groups_digit|reflexivity].
        - exists (d :: ds). split; [now apply groups_underscore|reflexivity]. }
      split; intros H; [now apply K|].
      right. destruct (K H) as (ds & G & E). exists ds. auto.
    + split.
      * rewrite andb_false_r. discriminate.
      * rewrite andb_true_r. destruct (Ascii.eqb c "_") eqn:Eu; [|discriminate].
        apply Ascii.eqb_eq in Eu. subst c. intros H.
        apply (proj1 (IH _ _)) in H. destruct H as (ds & G & E).
        right. exists ds. split; [|exact E]. right. now exists rest.
Qed.

Lemma groups_digits_value (cs : list ascii) (ds : list Z) :
  digit_groups cs ds ->
  forall acc after_digit,
    digits_value cs acc after_digit
      = Some (fold_left (fun a d => 10 * a + d) ds acc).
Proof.
  induction 1 as [c d Hin|c d rest ds Hin _ IH|c d rest ds Hin _ IH];
    intros acc b; cbn [digits_value];
    rewrite (proj2 (digit_of_decimal _ _) Hin).
  - reflexivity.
  - apply IH.
  - cbn [digits_value]. change (digit_of "_") with (@None Z).
    rewrite Ascii.eqb_refl. apply IH.
Qed.

Lemma groups_digit_count (cs : list ascii) (ds : list Z) :
  digit_groups cs ds -> digit_count cs = Z.of_nat (List.length ds).
Proof.
  intros G. unfold digit_count. f_equal.
  assert (Hd : forall c d, In (c, d) decimal_digits -> is_digit c = true).
  { intros c d Hin. unfold is_digit.
    now rewrite (proj2 (digit_of_decimal _ _) Hin). }
  induction G as [c d Hin|c d rest ds Hin _ IH|c d rest ds Hin _ IH];
    cbn [filter]; rewrite (Hd _ _ Hin); cbn [List.length].
  - reflexivity.
  - now rewrite IH.
  - change (is_digit "_") with false. cbv iota. now rewrite IH.
Qed.

Lemma int_digits_groups (cs : list ascii) (v : Z) :
  int_digits cs = Some v <->
  exists ds,
    digit_groups cs ds /\ Z.of_nat (List.length ds) <= 4300 /\ v = decimal ds.
Proof.
  unfold int_digits, max_str_digits. split.
  - destruct (digit_count cs <=? 4300) eqn:E; [|discriminate].
    intros H. apply (proj1 (digits_value_groups _ _ _)) in H.
    destruct H as (ds & G & ->). exists ds. split; [exact G|].
    split; [|reflexivity].
    rewrite <- (groups_digit_count _ _ G). now apply Z.leb_le.
  - intros (ds & G & Hn & ->).
    rewrite (groups_digit_count _ _ G).
    rewrite (proj2 (Z.leb_le _ _) Hn).
    apply (groups_digits_value _ _ G).
Qed.

Lemma lstrip_split (cs : list ascii) :
  exists pre,
    cs = (pre ++ lstrip cs)%list /\ Forall (fun c => is_space c = true) pre.
Proof.
  induction cs as [|c rest (pre & E & F)]; [now exists []|].
  cbn [lstrip]. destruct (is_space c) eqn:Ec.
  - exists (c :: pre). split; [simpl; now rewrite <- E|now constructor].
  - now exists [].
Qed.

Lemma lstrip_spaces (pre cs : list ascii) :
  Forall (fun c => is_space c = true) pre -> lstrip (pre ++ cs) = lstrip cs.
Proof.
  induction 1 as [|c pre Hc _ IH]; [reflexivity|].
  simpl. now rewrite Hc.
Qed.

Lemma strip_split (cs : list ascii) :
  exists pre post,
    cs = (pre ++ strip cs ++ post)%list /\
    Forall (fun c => is_space c = true) pre /\
    Forall (fun c => is_space c = true) post.
Proof.
  destruct (lstrip_split cs) as (pre & E1 & F1).
  destruct (lstrip_split (rev (lstrip cs))) as (q & E2 & F2).
  exists pre, (rev q). split; [|split; [exact F1|now apply Forall_rev]].
  unfold strip. rewrite <- rev_app_distr, <- E2, rev_involutive. exact E1.
Qed.

Lemma strip_exact (pre body post : list ascii) (first last : ascii)
    (middle init : list ascii) :
  Forall (fun c => is_space c = true) pre ->
  Forall (fun c => is_space c = true) post ->
  body = first :: middle -> is_space first = false ->
  body = (init ++ [last])%list -> is_space last = false ->
  strip (pre ++ body ++ post) = body.
Proof.
  intros Fpre Fpost Hf Hfs Hl Hls. unfold strip.
  rewrite (lstrip_spaces _ _ Fpre).
  assert (E1 : lstrip (body ++ post) = (body ++ post)%list).
  { rewrite Hf. simpl. now rewrite Hfs. }
  rewrite E1, rev_app_distr, (lstrip_spaces _ _ (Forall_rev Fpost)).
  assert (E2 : lstrip (rev body) = rev body).
  { rewrite Hl, rev_app_distr. simpl. now rewrite Hls. }
  rewrite E2. apply rev_involutive.
Qed.

Lemma decimal_digit_is_plain (c : ascii) (d : Z) :
  In (c, d) decimal_digits ->
  is_space c = false /\ Ascii.eqb c "-" = false /\ Ascii.eqb c "+" = false.
Proof.
  intros H. simpl in H.
  repeat (destruct H as [H|H]; [inversion H; repeat split|]). contradiction.
Qed.

Lemma groups_ends (cs : list ascii) (ds : list Z) :
  digit_groups cs ds ->
  (exists first d middle, cs = first :: middle /\ In (first, d) decimal_digits) /\
  (exists init last d, cs = (init ++ [last])%list /\ In (last, d) decimal_digits).
Proof.
  induction 1 as [c d Hin|c d rest ds Hin _ [_ (init & l & dl & E & Hl)]
                 |c d rest ds Hin _ [_ (init & l & dl & E & Hl)]].
  - split; [now exists c, d, []|now exists [], c, d].
  - split; [now exists c, d, rest|].
    exists (c :: init), l, dl. split; [simpl; now rewrite E|exact Hl].
  - split; [now exists c, d, ("_"%char :: rest)|].
    exists (c :: "_"%char :: init), l, dl.
    split; [simpl; now rewrite E|exact Hl].
Qed.

Lemma white_space_spaces (cs : list ascii) :
  Forall (fun c => In c white_space) cs <->
  Forall (fun c => is_space c = true) cs.
Proof.
  split; intros H; eapply Forall_impl; try exact H; intros c;
    apply is_space_white.
Qed.

Lemma py_int_literal (s : string) (n : Z) :
  py_int s = Some n <-> int_literal s n.
Proof.
  unfold py_int, int_literal. split.
  - destruct (strip_split (list_ascii_of_string s)) as (pre & post & E & F1 & F2).
    apply white_space_spaces in F1, F2.
    destruct (strip (list_ascii_of_string s)) as [|c rest]; [discriminate|].
    destruct (Ascii.eqb c "-") eqn:Em;
      [|destruct (Ascii.eqb c "+") eqn:Ep].
    + apply Ascii.eqb_eq in Em. subst c.
      destruct (int_digits rest) as [v|] eqn:Ev; [|discriminate].
      intros H. inversion H; subst n.
      apply int_digits_groups in Ev. destruct Ev as (ds & G & Hn & ->).
      exists pre, ["-"%char], rest, post, ds. auto 10.
    + apply Ascii.eqb_eq in Ep. subst c. intros Ev.
      apply int_digits_groups in Ev. destruct Ev as (ds & G & Hn & ->).
      exists pre, ["+"%char], rest, post, ds. auto 10.
    + intros Ev.
      apply int_digits_groups in Ev. destruct Ev as (ds & G & Hn & ->).
      exists pre, [], (c :: rest), post, ds. auto 10.
  - intros (pre & sign & body & post & ds & E & F1 & F2 & G & Hn & Hs).
    apply white_space_spaces in F1, F2.
    destruct (groups_ends _ _ G)
      as [(first & d & middle & Hb & Hfirst) (init & last & dl & Hl & Hlast)].
    destruct (decimal_digit_is_plain _ _ Hfirst) as (Sf & Mf & Pf).
    destruct (decimal_digit_is_plain _ _ Hlast) as (Sl & _ & _).
    assert (Ev : int_digits body = Some (decimal ds)).
    { apply int_digits_groups. exists ds. auto. }
    rewrite E.
    replace (pre ++ sign ++ body ++ post)%list
      with (pre ++ (sign ++ body) ++ post)%list
      by now rewrite <- !app_assoc.
    destruct Hs as [[-> ->]|[[->| ->] ->]].
    + rewrite (strip_exact pre (["-"%char] ++ body) post "-" last body
                 ("-"%char :: init) F1 F2 eq_refl eq_refl
                 ltac:(simpl; now rewrite Hl) Sl).
      simpl. now rewrite Ev.
    + rewrite (strip_exact pre (["+"%char] ++ body) post "+" last body
                 ("+"%char :: init) F1 F2 eq_refl eq_refl
                 ltac:(simpl; now rewrite Hl) Sl).
      simpl. exact Ev.
    + simpl app at 2.
      rewrite (strip_exact pre body post first last middle init
                 F1 F2 Hb Sf Hl Sl).
      rewrite Hb in Ev |- *. now rewrite Mf, Pf.
Qed.

(** ** The power-model assignment *)

Lemma nvp_pyval_convert (target : string) :
  nvp_pyval (convert_nvpmodel target)
    = match py_int target with
      | Some n => PInt n
      | None => PStr target
      end.
Proof. unfold convert_nvpmodel. now destruct (py_int target). Qed.

Lemma set_nvpmodel_action_assigns (target : string) (data : dict) (s : state) :
  In (SetProp "nvpmodel" (nvp_pyval (convert_nvpmodel target)))
     (trace (snd (set_nvpmodel_action target data s))).
Proof.
  unfold set_nvpmodel_action, set_nvpmodel_body, try_except, bind, invoke,
    time_sleep, ret.
  cbv zeta.
  destruct (backend (SetProp "nvpmodel" (nvp_pyval (convert_nvpmodel target)))
              (world s)) as [[x|e] w']; simpl;
    rewrite !in_app_iff; simpl; auto 6.
Qed.

Lemma management_actions_assign_nvpmodel (enable_clocks : bool)
    (target : string) (data : dict) (s : state) :
  In (SetProp "nvpmodel" (nvp_pyval (convert_nvpmodel target)))
     (trace (snd (management_actions enable_clocks (Some target) data s))).
Proof.
  unfold management_actions.
  assert (H : exists d1 s1,
    (if enable_clocks then enable_clocks_action data else ret data) s
      = (Ok d1, s1)).
  { destruct enable_clocks.
    - destruct (enable_clocks_action_returns data s) as (k & m & s1 & H & _).
      eauto.
    - now exists data, s. }
  destruct H as (d1 & s1 & H). rewrite (bind_run _ _ _ _ _ H).
  apply set_nvpmodel_action_assigns.
Qed.

(** Every assignment a run makes to the power-model property carries the
    value the argument converts to, and on a handle that is ready at the
    first readiness check that assignment is made. *)
Lemma assignment_follows_conversion (enable_clocks : bool)
    (target : string) (w : World) :
  let val := match py_int target with
             | Some n => PInt n
             | None => PStr target
             end in
  Forall (assigns_nvpmodel_only val) (calls enable_clocks (Some target) w) /\
  (ready w = true ->
   In (SetProp "nvpmodel" val) (calls enable_clocks (Some target) w)).
Proof.
  intros val. subst val. rewrite <- nvp_pyval_convert. split.
  - destruct (logs_get_jetson_info
               (assigns_nvpmodel_only (nvp_pyval (convert_nvpmodel target)))
               ltac:(intros name x; discriminate)
               ltac:(intros x; discriminate)
               enable_clocks (Some target)
               ltac:(intros x; discriminate)
               ltac:(intros x; discriminate)
               ltac:(intros _; split; [|intros obj]; intros x; discriminate)
               ltac:(intros t Ht; inversion Ht; subst t; split; intros x Hx;
                     [now inversion Hx|discriminate])
               (start w)) as (cs & E & F).
    unfold calls. rewrite E. exact F.
  - intros Hready. unfold ready in Hready.
    destruct (first_check w) as [[ok s2]|] eqn:Hfirst; [|discriminate].
    apply first_check_inv in Hfirst. destruct Hfirst as (s1 & Hacq & Hok).
    unfold acquired in Hacq.
    destruct (invoke Enter (start w)) as [[x|e] s1'] eqn:Henter;
      inversion Hacq; subst s1'.
    unfold calls, get_jetson_info, try_except, with_jtop. rewrite Henter.
    assert (Hbody : In (SetProp "nvpmodel" (nvp_pyval (convert_nvpmodel target)))
                      (trace (snd (with_body enable_clocks (Some target) s1)))).
    { unfold with_body. cbv zeta. rewrite (bind_run _ _ _ _ _ Hok).
      unfold actions_when. rewrite Hready.
      pose proof (management_actions_assign_nvpmodel enable_clocks target [] s2)
        as Hact.
      destruct (management_actions_returns enable_clocks (Some target) [] s2)
        as (d' & s' & Hrun & _).
      rewrite Hrun in Hact. rewrite (bind_run _ _ _ _ _ Hrun).
      now apply (logs_grows _ _ (logs_anything_collect_phase d')). }
    destruct (with_body enable_clocks (Some target) s1) as [r sb].
    simpl in Hbody.
    pose proof (logs_grows (fun _ => True) (invoke Exit)
                  (logs_invoke _ Exit I) sb _ Hbody) as Hexit.
    destruct (invoke Exit sb) as [[y|e] s3]; simpl in Hexit.
    + now destruct r.
    + exact Hexit.
Qed.

(** C8.  With a target power model, every assignment the run makes to the
    power-model property of the backend assigns the integer [n] when the
    argument is an integer literal for [n] ("2" gives 2, and so do " 2"
    and "+02"), and the argument itself, unchanged, when it is no integer
    literal ("Quiet"); and on a handle that is ready at the first
    readiness check that assignment is made. *)
Theorem nvpmodel_assignment_uses_converted_value (enable_clocks : bool)
    (target : string) (w : World) :
  (forall n,
      int_literal target n ->
      Forall (assigns_nvpmodel_only (PInt n))
        (calls enable_clocks (Some target) w) /\
      (ready w = true ->
       In (SetProp "nvpmodel" (PInt n))
          (calls enable_clocks (Some target) w))) /\
  ((forall n, ~ int_literal target n) ->
   Forall (assigns_nvpmodel_only (PStr target))
     (calls enable_clocks (Some target) w) /\
   (ready w = true ->
    In (SetProp "nvpmodel" (PStr target))
       (calls enable_clocks (Some target) w))).
Proof.
  pose proof (assignment_follows_conversion enable_clocks target w) as H.
  cbv zeta in H. split.
  - intros n Hn. apply py_int_literal in Hn. now rewrite Hn in H.
  - intros Hnone. destruct (py_int target) as [n|] eqn:E; [|exact H].
    apply py_int_literal in E. now destruct (Hnone n).
Qed.

(** ** A handle that is not ready at the first check *)

Lemma actions_when_not_ok (ok : pyval) (enable_clocks : bool)
    (set_nvpmodel : option string) (data : dict) (s : state) :
  truthy ok = false ->
  actions_when ok enable_clocks set_nvpmodel data s = (Ok data, s).
Proof. intros H. unfold actions_when. now rewrite H. Qed.

Lemma no_actions_requested (ok : pyval) (data : dict) (s : state) :
  actions_when ok false None data s = (Ok data, s).
Proof. unfold actions_when, management_actions. now destruct (truthy ok). Qed.

Lemma not_ready_run_ignores_flags (enable_clocks : bool)
    (set_nvpmodel : option string) (w : World) ok s2 :
  first_check w = Some (ok, s2) ->
  truthy ok = false ->
  get_jetson_info enable_clocks set_nvpmodel (start w)
    = get_jetson_info false None (start w).
Proof.
  intros Hfirst Hok.
  apply first_check_inv in Hfirst. destruct Hfirst as (s1 & Hacq & Hcheck).
  unfold acquired in Hacq.
  destruct (invoke Enter (start w)) as [[x|e] s1'] eqn:Henter;
    inversion Hacq; subst s1'.
  unfold get_jetson_info, try_except, with_jtop. rewrite Henter.
  assert (Hb : with_body enable_clocks set_nvpmodel s1 = with_body false None s1).
  { unfold with_body. cbv zeta. rewrite !(bind_run _ _ _ _ _ Hcheck).
    rewrite (bind_run _ _ _ _ _
               (actions_when_not_ok ok enable_clocks set_nvpmodel [] s2 Hok)).
    now rewrite (bind_run _ _ _ _ _ (no_actions_requested ok [] s2)). }
  now rewrite Hb.
Qed.

Lemma plain_body_has_no_action_key (s : state) (out : dict) s' (k : string) :
  with_body false None s = (Ok (PDict out), s') ->
  In k action_keys -> dict_get k out = None.
Proof.
  unfold with_body. cbv zeta. intros H Hk.
  apply bind_ok in H. destruct H as (ok1 & sa & _ & H).
  rewrite (bind_run _ _ _ _ _ (no_actions_requested ok1 [] sa)) in H.
  apply bind_ok in H. destruct H as (ok2 & sb & _ & H).
  assert (Hother : ~ In k snapshot_keys).
  { simpl in Hk. simpl. intros Hs.
    repeat (destruct Hk as [<-|Hk];
            [repeat (destruct Hs as [Hs|Hs]; [discriminate|]); exact Hs|]).
    exact Hk. }
  destruct (truthy ok2).
  - apply bind_ok in H. destruct H as (d & sc & Hc & H).
    apply ret_ok in H. destruct H as [Hv _]. inversion Hv; subst.
    destruct (collect_assigns _ _ _ _ Hc) as [_ Hkeep].
    now rewrite (Hkeep k Hother).
  - apply ret_ok in H. destruct H as [Hv _]. inversion Hv; subst.
    simpl in Hk. simpl.
    repeat (destruct Hk as [<-|Hk]; [reflexivity|]). contradiction.
Qed.

(** C3, as amended.  When the handle answers the first readiness check
    with a false value, the run is the same for every value of the two
    action inputs: no assignment is made to the backend and no
    [*_action] or [*_action_error] key appears in the output.  The
    readiness check is then made a second time; when its answer is false
    again and the handle is released normally, the output is exactly
    [{"error": "jtop is not ok (service might not be running)"}]. *)
Theorem not_ready_at_first_check (enable_clocks : bool)
    (set_nvpmodel : option string) (w : World) ok s2 :
  first_check w = Some (ok, s2) ->
  truthy ok = false ->
  get_jetson_info enable_clocks set_nvpmodel (start w)
    = get_jetson_info false None (start w) /\
  Forall (fun c => is_action c = false) (calls enable_clocks set_nvpmodel w) /\
  (forall out k,
      output enable_clocks set_nvpmodel w = Ok (PDict out) ->
      In k action_keys -> dict_get k out = None) /\
  (forall ok2 s3,
      invoke IsOk s2 = (Ok ok2, s3) ->
      truthy ok2 = false ->
      released s3 = true ->
      output enable_clocks set_nvpmodel w = Ok not_ok_record).
Proof.
  intros Hfirst Hok.
  pose proof (not_ready_run_ignores_flags enable_clocks set_nvpmodel w _ _
                Hfirst Hok) as Hsame.
  split; [exact Hsame|]. split; [|split].
  - unfold calls. rewrite Hsame.
    destruct (logs_get_jetson_info (fun c => is_action c = false)
                ltac:(reflexivity) ltac:(reflexivity) false None
                ltac:(reflexivity) ltac:(reflexivity)
                ltac:(discriminate) ltac:(discriminate) (start w))
      as (cs & E & F).
    rewrite E. exact F.
  - intros out k Hout Hk. unfold output in Hout. rewrite Hsame in Hout.
    destruct (get_jetson_info_cases false None (start w))
      as [(e & s1 & _ & Hrun)
         |(x & s1 & r & sb & _ & Hbody &
             [(e & s3 & _ & Hrun)|(y & s3 & _ & Hrun)])];
      rewrite Hrun in Hout; simpl in Hout.
    + destruct e; inversion Hout; subst; simpl in Hk |- *;
        repeat (destruct Hk as [<-|Hk]; [reflexivity|]); contradiction.
    + destruct e; inversion Hout; subst; simpl in Hk |- *;
        repeat (destruct Hk as [<-|Hk]; [reflexivity|]); contradiction.
    + destruct r as [v|e].
      * inversion Hout; subst.
        eapply plain_body_has_no_action_key; eauto.
      * destruct e; inversion Hout; subst; simpl in Hk |- *;
          repeat (destruct Hk as [<-|Hk]; [reflexivity|]); contradiction.
  - intros ok2 s3 Hcheck2 Hok2 Hrel.
    destruct (first_check_inv _ _ _ Hfirst) as (s1 & Hacq & _).
    assert (H2 : second_check enable_clocks set_nvpmodel w = Some ([], ok2, s3)).
    { unfold second_check, after_actions. rewrite Hfirst.
      rewrite (actions_when_not_ok ok enable_clocks set_nvpmodel [] s2 Hok).
      now rewrite Hcheck2. }
    pose proof (with_body_after_checks _ _ _ _ _ _ _ Hacq H2) as Hb.
    rewrite Hok2 in Hb. unfold ret in Hb.
    now rewrite (output_of_body _ _ _ _ _ _ Hacq Hb Hrel).
Qed.

(** ** The clocks action *)

(** A snapshot output carries what the management actions recorded. *)
Lemma snapshot_keeps_action_reports (enable_clocks : bool)
    (set_nvpmodel : option string) (w : World) d2 s2 (out : dict) (k : string) :
  after_actions enable_clocks set_nvpmodel w = Some (d2, s2) ->
  output enable_clocks set_nvpmodel w = Ok (PDict out) ->
  dict_get "error" out = None ->
  ~ In k snapshot_keys ->
  dict_get k out = dict_get k d2.
Proof.
  intros Hafter Hout Hnoerr Hk.
  destruct (snapshot_output_arrived _ _ _ _ Hout Hnoerr) as (d0 & s0 & Harr).
  destruct (snapshot_output_from_read _ _ _ _ _ _ _ Harr Hout Hnoerr)
    as [sf Hreads].
  apply arrive_inv in Harr. destruct Harr as (d0' & ok2 & s4 & H2 & _ & Hpre).
  simpl in Hpre. apply ret_ok in Hpre. destruct Hpre; subst d0 s0.
  apply second_check_inv in H2. destruct H2 as (s3 & Hafter' & _).
  rewrite Hafter in Hafter'. inversion Hafter'; subst d0' s3.
  simpl skipn in Hreads.
  destruct (collect_assigns _ _ _ _ Hreads) as [_ Hkeep]. now apply Hkeep.
Qed.

Lemma power_model_step_keeps_clocks_report (set_nvpmodel : option string)
    (data : dict) (s : state) :
  exists d2 s2,
    match set_nvpmodel with
    | Some target => set_nvpmodel_action target data
    | None => ret data
    end s = (Ok d2, s2) /\
    dict_get "clocks_action" d2 = dict_get "clocks_action" data /\
    dict_get "clocks_action_error" d2 = dict_get "clocks_action_error" data.
Proof.
  destruct set_nvpmodel as [target|].
  - destruct (set_nvpmodel_action_returns target data s)
      as (k & msg & s2 & Hrun & Hk).
    exists (dict_set k (PStr msg) data), s2. split; [exact Hrun|].
    destruct Hk as [->| ->]; split; now apply dict_get_set_other.
  - exists data, s. now split.
Qed.

(** When the second readiness check is true and every category read
    returns, the output is the mapping they built, and it is a snapshot. *)
Lemma all_reads_return_snapshot (enable_clocks : bool)
    (set_nvpmodel : option string) (w : World) (out : dict) s3 :
  arrive enable_clocks set_nvpmodel w 11 = Some (out, s3) ->
  released s3 = true ->
  output enable_clocks set_nvpmodel w = Ok (PDict out) /\ is_snapshot out.
Proof.
  intros Harr Hrel.
  destruct (arrive_acquired _ _ _ _ _ _ Harr) as (s1 & Hacq).
  pose proof (with_body_from_read _ _ _ 11 _ _ _ Hacq Harr) as Hbody.
  change (skipn 11 category_reads) with (@nil (dict -> M dict)) in Hbody.
  assert (Hb : with_body enable_clocks set_nvpmodel s1 = (Ok (PDict out), s3))
    by (rewrite Hbody; reflexivity).
  split.
  - now rewrite (output_of_body _ _ _ _ _ _ Hacq Hb Hrel).
  - apply arrive_inv in Harr.
    destruct Harr as (d0 & ok & s4 & H2 & _ & Hpre).
    change (firstn 11 category_reads) with category_reads in Hpre.
    apply second_check_inv in H2. destruct H2 as (sa & Ha & _).
    apply after_actions_inv in Ha. destruct Ha as (ok1 & s2 & _ & Hact).
    eapply snapshot_after_actions; [|exact Hpre].
    eapply actions_keep_other_keys. exact Hact.
Qed.

(** An output with an [error] key is a bare error record. *)
Lemma error_records_are_bare (enable_clocks : bool)
    (set_nvpmodel : option string) (w : World) (out : dict) :
  output enable_clocks set_nvpmodel w = Ok (PDict out) ->
  dict_get "error" out <> None ->
  exists msg, out = [("error", PStr msg)].
Proof.
  assert (Herr : forall e,
    Ok (error_record e) = Ok (PDict out) ->
    exists msg, out = [("error", PStr msg)]).
  { intros e H. destruct (error_record_is_error e) as [msg Hmsg].
    exists msg. rewrite Hmsg in H. now inversion H. }
  unfold output.
  destruct (get_jetson_info_cases enable_clocks set_nvpmodel (start w))
    as [(e & s1 & _ & Hrun)
       |(x & s1 & r & s2 & _ & Hbody &
           [(e & s3 & _ & Hrun)|(y & s3 & _ & Hrun)])];
    rewrite Hrun; simpl; intros Hout Hkey; try (now apply (Herr e)).
  destruct r as [v|e]; [|now apply (Herr e)].
  destruct (with_body_returns _ _ _ _ _ Hbody) as [->|(d & -> & Hsnap)].
  - eexists. inversion Hout. reflexivity.
  - inversion Hout; subst d.
    now rewrite (snapshot_has_no_error_key out Hsnap) in Hkey.
Qed.

(** C7, as amended.  With [enable_clocks] on a handle that is ready at
    the first readiness check: when the clocks action succeeds, the
    mapping handed on to the rest of the run holds [clocks_action], a
    string, and no [clocks_action_error]; when it raises, the mapping
    holds [clocks_action_error], the message of the exception, and no
    [clocks_action].  In both cases the run goes on to the second
    readiness check and to the category reads: when that check is true
    and every read returns, the output is the snapshot with all its
    categories and that report; and a snapshot is the only output that
    holds the report. *)
Theorem clocks_action_outcome_is_recorded (set_nvpmodel : option string)
    (w : World) ok s :
  first_check w = Some (ok, s) ->
  truthy ok = true ->
  (forall d1 s1,
      enable_clocks_body [] s = (Ok d1, s1) ->
      (exists d2 s2,
          after_actions true set_nvpmodel w = Some (d2, s2) /\
          dict_get "clocks_action" d2
            = Some (PStr "Enabled jetson_clocks and set to boot") /\
          dict_get "clocks_action_error" d2 = None) /\
      (forall out,
          output true set_nvpmodel w = Ok (PDict out) ->
          dict_get "error" out = None ->
          dict_get "clocks_action" out
            = Some (PStr "Enabled jetson_clocks and set to boot") /\
          dict_get "clocks_action_error" out = None) /\
      (forall out s3,
          arrive true set_nvpmodel w 11 = Some (out, s3) ->
          released s3 = true ->
          output true set_nvpmodel w = Ok (PDict out) /\
          is_snapshot out /\
          dict_get "clocks_action" out
            = Some (PStr "Enabled jetson_clocks and set to boot") /\
          dict_get "clocks_action_error" out = None)) /\
  (forall e s1,
      enable_clocks_body [] s = (Raise e, s1) ->
      (exists d2 s2,
          after_actions true set_nvpmodel w = Some (d2, s2) /\
          dict_get "clocks_action_error" d2 = Some (PStr (str_exn e)) /\
          dict_get "clocks_action" d2 = None) /\
      (forall out,
          output true set_nvpmodel w = Ok (PDict out) ->
          dict_get "error" out = None ->
          dict_get "clocks_action_error" out = Some (PStr (str_exn e)) /\
          dict_get "clocks_action" out = None) /\
      (forall out s3,
          arrive true set_nvpmodel w 11 = Some (out, s3) ->
          released s3 = true ->
          output true set_nvpmodel w = Ok (PDict out) /\
          is_snapshot out /\
          dict_get "clocks_action_error" out = Some (PStr (str_exn e)) /\
          dict_get "clocks_action" out = None)) /\
  (forall out,
      output true set_nvpmodel w = Ok (PDict out) ->
      dict_get "error" out <> None ->
      dict_get "clocks_action" out = None /\
      dict_get "clocks_action_error" out = None).
Proof.
  intros Hfirst Hok.
  assert (Hafter : forall dA sA,
    enable_clocks_action [] s = (Ok dA, sA) ->
    exists d2 s2,
      after_actions true set_nvpmodel w = Some (d2, s2) /\
      dict_get "clocks_action" d2 = dict_get "clocks_action" dA /\
      dict_get "clocks_action_error" d2 = dict_get "clocks_action_error" dA).
  { intros dA sA HA.
    destruct (power_model_step_keeps_clocks_report set_nvpmodel dA sA)
      as (d2 & s2 & Hstep & Hk1 & Hk2).
    exists d2, s2. split; [|now split].
    unfold after_actions. rewrite Hfirst.
    unfold actions_when, management_actions. rewrite Hok.
    rewrite (bind_run _ _ _ _ _ HA). now rewrite Hstep. }
  assert (Hsnap : forall d2 s2 out,
    after_actions true set_nvpmodel w = Some (d2, s2) ->
    output true set_nvpmodel w = Ok (PDict out) ->
    dict_get "error" out = None ->
    dict_get "clocks_action" out = dict_get "clocks_action" d2 /\
    dict_get "clocks_action_error" out = dict_get "clocks_action_error" d2).
  { intros d2 s2 out H2 Hout Hnoerr.
    split; eapply snapshot_keeps_action_reports; eauto; not_among. }
  assert (Hfull : forall out s3 (P : dict -> Prop),
    (forall o, output true set_nvpmodel w = Ok (PDict o) ->
               dict_get "error" o = None -> P o) ->
    arrive true set_nvpmodel w 11 = Some (out, s3) ->
    released s3 = true ->
    output true set_nvpmodel w = Ok (PDict out) /\ is_snapshot out /\ P out).
  { intros out s3 P HP Harr Hrel.
    destruct (all_reads_return_snapshot _ _ _ _ _ Harr Hrel) as [Hout Hs].
    split; [exact Hout|]. split; [exact Hs|].
    apply HP; [exact Hout|]. now apply snapshot_has_no_error_key. }
  split; [|split].
  - intros d1 s1 Hbody.
    assert (HA : enable_clocks_action [] s
              = (Ok [("clocks_action",
                      PStr "Enabled jetson_clocks and set to boot")], s1)).
    { unfold enable_clocks_action, try_except. rewrite Hbody.
      unfold enable_clocks_body in Hbody. run_inv. reflexivity. }
    destruct (Hafter _ _ HA) as (d2 & s2 & H2 & Hk1 & Hk2).
    assert (Hrec : forall out,
      output true set_nvpmodel w = Ok (PDict out) ->
      dict_get "error" out = None ->
      dict_get "clocks_action" out
        = Some (PStr "Enabled jetson_clocks and set to boot") /\
      dict_get "clocks_action_error" out = None).
    { intros out Hout Hnoerr.
      destruct (Hsnap _ _ _ H2 Hout Hnoerr) as [E1 E2].
      now rewrite E1, E2, Hk1, Hk2. }
    split; [|split].
    + exists d2, s2. split; [exact H2|]. now rewrite Hk1, Hk2.
    + exact Hrec.
    + intros out s3 Harr Hrel.
      exact (Hfull out s3
               (fun o =>
                  dict_get "clocks_action" o
                    = Some (PStr "Enabled jetson_clocks and set to boot") /\
                  dict_get "clocks_action_error" o = None)
               Hrec Harr Hrel).
  - intros e s1 Hbody.
    assert (HA : enable_clocks_action [] s
              = (Ok [("clocks_action_error", PStr (str_exn e))], s1)).
    { unfold enable_clocks_action, try_except. now rewrite Hbody. }
    destruct (Hafter _ _ HA) as (d2 & s2 & H2 & Hk1 & Hk2).
    assert (Hrec : forall out,
      output true set_nvpmodel w = Ok (PDict out) ->
      dict_get "error" out = None ->
      dict_get "clocks_action_error" out = Some (PStr (str_exn e)) /\
      dict_get "clocks_action" out = None).
    { intros out Hout Hnoerr.
      destruct (Hsnap _ _ _ H2 Hout Hnoerr) as [E1 E2].
      now rewrite E1, E2, Hk1, Hk2. }
    split; [|split].
    + exists d2, s2. split; [exact H2|]. now rewrite Hk1, Hk2.
    + exact Hrec.
    + intros out s3 Harr Hrel.
      exact (Hfull out s3
               (fun o =>
                  dict_get "clocks_action_error" o = Some (PStr (str_exn e)) /\
                  dict_get "clocks_action" o = None)
               Hrec Harr Hrel).
  - intros out Hout Herr.
    destruct (error_records_are_bare true set_nvpmodel w out Hout Herr)
      as (msg & ->).
    split; reflexivity.
Qed.

(** ** Exceptions, phase by phase *)

Lemma first_check_raises_output (enable_clocks : bool)
    (set_nvpmodel : option string) (w : World) s1 e s' :
  acquired w = Some s1 ->
  invoke IsOk s1 = (Raise e, s') ->
  released s' = true ->
  output enable_clocks set_nvpmodel w = Ok (error_record e).
Proof.
  intros Hacq Hcheck Hrel.
  assert (Hb : with_body enable_clocks set_nvpmodel s1 = (Raise e, s')).
  { unfold with_body. cbv zeta. now apply bind_abort. }
  now rewrite (output_of_body _ _ _ _ _ _ Hacq Hb Hrel).
Qed.

Lemma second_check_raises_output (enable_clocks : bool)
    (set_nvpmodel : option string) (w : World) d s e s' :
  after_actions enable_clocks set_nvpmodel w = Some (d, s) ->
  invoke IsOk s = (Raise e, s') ->
  released s' = true ->
  output enable_clocks set_nvpmodel w = Ok (error_record e).
Proof.
  intros Hafter Hcheck Hrel.
  apply after_actions_inv in Hafter. destruct Hafter as (ok & s2 & Hfirst & Hact).
  apply first_check_inv in Hfirst. destruct Hfirst as (s1 & Hacq & Hok).
  assert (Hb : with_body enable_clocks set_nvpmodel s1 = (Raise e, s')).
  { unfold with_body. cbv zeta.
    rewrite (bind_run _ _ _ _ _ Hok), (bind_run _ _ _ _ _ Hact).
    now apply bind_abort. }
  now rewrite (output_of_body _ _ _ _ _ _ Hacq Hb Hrel).
Qed.

(** C4, as amended.  An exception [e] raised by the acquisition of the
    handle, by either readiness check or by any category read (the handle
    then being released normally), or by the release itself, ends the run
    with the record [error_record e]: [{"error": "JtopException: m"}] for
    the backend's own exception with message [m], and
    [{"error": "Unexpected error: m"}] for any other, two shapes that never
    coincide.  An exception raised inside a management action, the
    backend's own included, is not reported that way: the action catches
    it and records its message under [clocks_action_error] or
    [nvpmodel_action_error], and returns normally. *)
Theorem exceptions_are_reported_by_origin (enable_clocks : bool)
    (set_nvpmodel : option string) (w : World) (e : exn) :
  (fst (invoke Enter (start w)) = Raise e ->
   output enable_clocks set_nvpmodel w = Ok (error_record e)) /\
  (forall s1 s',
      acquired w = Some s1 ->
      invoke IsOk s1 = (Raise e, s') ->
      released s' = true ->
      output enable_clocks set_nvpmodel w = Ok (error_record e)) /\
  (forall d s s',
      after_actions enable_clocks set_nvpmodel w = Some (d, s) ->
      invoke IsOk s = (Raise e, s') ->
      released s' = true ->
      output enable_clocks set_nvpmodel w = Ok (error_record e)) /\
  (forall i read d s s',
      nth_error category_reads i = Some read ->
      arrive enable_clocks set_nvpmodel w i = Some (d, s) ->
      read d s = (Raise e, s') ->
      released s' = true ->
      output enable_clocks set_nvpmodel w = Ok (error_record e)) /\
  (forall s1 r s2,
      acquired w = Some s1 ->
      with_body enable_clocks set_nvpmodel s1 = (r, s2) ->
      fst (invoke Exit s2) = Raise e ->
      output enable_clocks set_nvpmodel w = Ok (error_record e)) /\
  (forall data s s',
      enable_clocks_body data s = (Raise e, s') ->
      enable_clocks_action data s
        = (Ok (dict_set "clocks_action_error" (PStr (str_exn e)) data), s')) /\
  (forall target data s s',
      set_nvpmodel_body target data s = (Raise e, s') ->
      set_nvpmodel_action target data s
        = (Ok (dict_set "nvpmodel_action_error" (PStr (str_exn e)) data), s')) /\
  (forall m,
      error_record (JtopException m)
        = PDict [("error", PStr ("JtopException: " ++ m))]) /\
  (forall m,
      error_record (OtherException m)
        = PDict [("error", PStr ("Unexpected error: " ++ m))]) /\
  (forall m m',
      error_record (JtopException m) <> error_record (OtherException m')).
Proof.
  repeat split.
  - apply output_acquire_raises.
  - intros s1 s'. apply first_check_raises_output.
  - intros d s s'. apply second_check_raises_output.
  - intros i read d s s' Hnth Harr Hread Hrel.
    eapply read_raises_output; eauto.
  - intros s1 r s2. apply output_release_raises.
  - intros data s s' Hbody. unfold enable_clocks_action, try_except.
    now rewrite Hbody.
  - intros target data s s' Hbody. unfold set_nvpmodel_action, try_except.
    now rewrite Hbody.
  - intros m m' H. simpl in H. discriminate.
Qed.

(** ** Each category against its specification *)

Lemma hardware_field_default (board : dict) (field : string) :
  absent_or_mapping board "hardware" = true ->
  hardware_field (PDict board) field
    = Ok (get_or (sub_mapping board "hardware") field (PStr "Unknown")).
Proof.
  unfold hardware_field, absent_or_mapping, sub_mapping. cbn [py_get res_bind].
  unfold get_or at 1.
  destruct (dict_get "hardware" board) as [[]|]; try discriminate; reflexivity.
Qed.

Lemma board_category_expected (v : pyval) :
  board_ok v = true ->
  board_category v = Ok (expected_board (as_mapping v)).
Proof.
  destruct v; try discriminate. cbn [board_ok as_mapping]. intros H.
  unfold board_category. rewrite !(hardware_field_default _ _ H). reflexivity.
Qed.


Lemma nested_field_default (d : dict) (group field : string) :
  absent_or_mapping d group = true ->
  nested_field (PDict d) group field
    = Ok (get_or (sub_mapping d group) field (PInt 0)).
Proof.
  unfold nested_field, absent_or_mapping, sub_mapping. cbn [py_get res_bind].
  unfold get_or at 1.
  destruct (dict_get group d) as [[]|]; try discriminate; reflexivity.
Qed.

Lemma round1_number (v : pyval) :
  is_number v = true -> round1 v = Ok (rounded v).
Proof. destruct v; try discriminate; reflexivity. Qed.




Lemma gpu_category_expected (v : pyval) :
  gpu_ok v = true ->
  gpu_category v = Ok (expected_gpu (as_mapping v)).
Proof.
  destruct v; try discriminate. cbn [gpu_ok as_mapping]. intros H.
  apply andb_true_iff in H. destruct H as [Hs Hf].
  unfold gpu_category.
  rewrite (nested_field_default _ _ _ Hs), !(nested_field_default _ _ _ Hf).
  reflexivity.
Qed.

Lemma ram_category_expected (v : pyval) :
  memory_ok v = true ->
  ram_category v = Ok (expected_ram (as_mapping v)).
Proof.
  destruct v; try discriminate. cbn [memory_ok as_mapping]. intros H.
  apply andb_true_iff in H. destruct H as [Hr _].
  unfold ram_category. rewrite !(nested_field_default _ _ _ Hr). reflexivity.
Qed.

Lemma swap_category_expected (v : pyval) :
  memory_ok v = true ->
  swap_category v = Ok (expected_swap (as_mapping v)).
Proof.
  destruct v; try discriminate. cbn [memory_ok as_mapping]. intros H.
  apply andb_true_iff in H. destruct H as [_ Hs].
  unfold swap_category. rewrite !(nested_field_default _ _ _ Hs). reflexivity.
Qed.

Lemma disk_category_expected (v : pyval) :
  is_mapping v = true ->
  disk_category v = Ok (expected_disk (as_mapping v)).
Proof. destruct v; try discriminate. reflexivity. Qed.



(** ** Mappings built entry by entry *)

Lemma dict_set_new (k : string) (v : pyval) (acc : dict) :
  dict_get k acc = None -> dict_set k v acc = (acc ++ [(k, v)])%list.
Proof.
  induction acc as [|[k' v'] rest IH]; simpl; intros H.
  - reflexivity.
  - destruct (String.eqb k k'); [discriminate|]. now rewrite IH.
Qed.

Lemma dict_get_app_other (k k' : string) (v : pyval) (acc : dict) :
  dict_get k acc = None -> k <> k' ->
  dict_get k (acc ++ [(k', v)])%list = None.
Proof.
  intros H Hne. induction acc as [|[k0 v0] rest IH]; simpl in *.
  - apply String.eqb_neq in Hne. now rewrite Hne.
  - destruct (String.eqb k k0); [discriminate|]. now apply IH.
Qed.

Lemma fresh_for_nil (items : dict) : fresh_for items [].
Proof. intros k _. reflexivity. Qed.

Lemma fresh_for_head (k : string) (v : pyval) (rest acc : dict) :
  fresh_for ((k, v) :: rest) acc -> dict_get k acc = None.
Proof.
  intros H. apply H. unfold has_key. simpl. now rewrite String.eqb_refl.
Qed.

Lemma fresh_for_tail (k : string) (v : pyval) (rest acc : dict) :
  fresh_for ((k, v) :: rest) acc -> fresh_for rest acc.
Proof.
  intros H k' Hk'. apply H. unfold has_key in *. simpl.
  now destruct (String.eqb k' k).
Qed.

Lemma fresh_for_tail_set (k : string) (v v' : pyval) (rest acc : dict) :
  has_key k rest = false ->
  fresh_for ((k, v) :: rest) acc ->
  fresh_for rest (acc ++ [(k, v')])%list.
Proof.
  intros Hk H k' Hk'. apply dict_get_app_other.
  - now apply (fresh_for_tail _ _ _ _ H).
  - intros ->. rewrite Hk in Hk'. discriminate.
Qed.

Lemma distinct_keys_cons (k : string) (v : pyval) (rest : dict) :
  distinct_keys ((k, v) :: rest) = true ->
  has_key k rest = false /\ distinct_keys rest = true.
Proof.
  simpl. intros H. apply andb_true_iff in H. destruct H as [H1 H2].
  split; [|exact H2]. now destruct (has_key k rest).
Qed.

Lemma engine_items_expected (items acc : dict) :
  distinct_keys items = true ->
  forallb (fun e => is_mapping (snd e)) items = true ->
  fresh_for items acc ->
  engine_items items acc = Ok (acc ++ map expected_engine items)%list.
Proof.
  revert acc. induction items as [|[k info] rest IH]; intros acc Hd Hm Hf.
  - simpl. now rewrite app_nil_r.
  - apply distinct_keys_cons in Hd. destruct Hd as [Hk Hd].
    cbn [forallb snd] in Hm. apply andb_true_iff in Hm.
    destruct Hm as [Hinfo Hm]. destruct info; try discriminate.
    cbn [engine_items py_get res_bind].
    rewrite (dict_set_new _ _ _ (fresh_for_head _ _ _ _ Hf)).
    rewrite (IH _ Hd Hm (fresh_for_tail_set _ _ _ _ _ Hk Hf)).
    now rewrite <- app_assoc.
Qed.

Lemma engine_groups_expected (groups acc : dict) :
  distinct_keys groups = true ->
  forallb group_ok groups = true ->
  fresh_for groups acc ->
  engine_groups groups acc = Ok (acc ++ map expected_group groups)%list.
Proof.
  revert acc. induction groups as [|[k items] rest IH]; intros acc Hd Hm Hf.
  - simpl. now rewrite app_nil_r.
  - apply distinct_keys_cons in Hd. destruct Hd as [Hk Hd].
    cbn [forallb] in Hm. apply andb_true_iff in Hm.
    destruct Hm as [Hitems Hm]. unfold group_ok in Hitems. cbn [snd] in Hitems.
    destruct items as [| | | | | |its|]; try discriminate.
    apply andb_true_iff in Hitems. destruct Hitems as [Hdi Hmi].
    cbn [engine_groups py_items res_bind].
    rewrite (engine_items_expected its [] Hdi Hmi (fresh_for_nil its)).
    cbn [res_bind app].
    rewrite (dict_set_new _ _ _ (fresh_for_head _ _ _ _ Hf)).
    rewrite (IH _ Hd Hm (fresh_for_tail_set _ _ _ _ _ Hk Hf)).
    now rewrite <- app_assoc.
Qed.

Lemma engines_category_expected (v : pyval) :
  engines_ok v = true ->
  engines_category v = Ok (expected_engines (as_mapping v)).
Proof.
  destruct v as [| | | | | |engines|]; try discriminate.
  cbn [engines_ok as_mapping]. intros H.
  apply andb_true_iff in H. destruct H as [Hd Hg].
  unfold engines_category. cbn [py_items res_bind].
  now rewrite (engine_groups_expected engines [] Hd Hg (fresh_for_nil _)).
Qed.

Lemma temperature_items_expected (items acc : dict) :
  distinct_keys items = true ->
  forallb sensor_ok items = true ->
  fresh_for items acc ->
  temperature_items items acc
    = Ok (acc ++ map expected_reading (filter sensor_online items))%list.
Proof.
  revert acc. induction items as [|[k v] rest IH]; intros acc Hd Hm Hf.
  - simpl. now rewrite app_nil_r.
  - apply distinct_keys_cons in Hd. destruct Hd as [Hk Hd].
    cbn [forallb] in Hm. apply andb_true_iff in Hm.
    destruct Hm as [Hv Hm]. unfold sensor_ok in Hv. cbn [snd] in Hv.
    destruct v as [| | | | | |sensor|]; try discriminate.
    cbn [temperature_items py_get res_bind filter].
    change (truthy (get_or sensor "online" (PBool false)))
      with (sensor_online (k, PDict sensor)).
    destruct (sensor_online (k, PDict sensor)).
    + destruct (dict_get "temp" sensor) as [x|] eqn:Ex; [|discriminate].
      cbn [py_getitem_str]. rewrite Ex. cbn [res_bind].
      rewrite (round1_number _ Hv). cbn [res_bind].
      rewrite (dict_set_new _ _ _ (fresh_for_head _ _ _ _ Hf)).
      rewrite (IH _ Hd Hm (fresh_for_tail_set _ _ _ _ _ Hk Hf)).
      rewrite <- app_assoc. cbn [map app].
      change (expected_reading (k, PDict sensor))
        with (k, rounded (get_or sensor "temp" PNone)).
      unfold get_or. now rewrite Ex.
    + apply (IH _ Hd Hm (fresh_for_tail _ _ _ _ Hf)).
Qed.


(** ** The run on a steady handle *)

Section Steady.

Variable report : string -> pyval.
Hypothesis reads_steady :
  forall name s, fst (invoke (GetProp name) s) = Ok (report name).










End Steady.



(** * Further properties of [get_jetson_info] *)

(** ** The keys of a snapshot, in order *)

Lemma has_key_in_keys (k : string) (d : dict) :
  has_key k d = true <-> In k (dict_keys d).
Proof.
  unfold has_key. induction d as [|[k' v] rest IH]; simpl.
  - split; [discriminate|contradiction].
  - destruct (String.eqb k k') eqn:E.
    + apply String.eqb_eq in E. subst. split; auto.
    + apply String.eqb_neq in E. rewrite IH. split; [auto|].
      intros [H|H]; [now subst|exact H].
Qed.

Lemma dict_keys_set_new (k : string) (v : pyval) (d : dict) :
  has_key k d = false -> dict_keys (dict_set k v d) = (dict_keys d ++ [k])%list.
Proof.
  intros H. rewrite dict_set_new.
  - unfold dict_keys. now rewrite map_app.
  - unfold has_key in H. now destruct (dict_get k d).
Qed.

Lemma dict_keys_set_same (k : string) (v : pyval) (d : dict) :
  has_key k d = true -> dict_keys (dict_set k v d) = dict_keys d.
Proof.
  unfold has_key. induction d as [|[k' v'] rest IH]; simpl.
  - discriminate.
  - destruct (String.eqb k k') eqn:E; simpl; [reflexivity|].
    intros H. now rewrite IH.
Qed.

Lemma read_category_appends (prop key : string) (f : pyval -> res pyval) :
  appends [key] (read_category prop key f).
Proof.
  intros d s d' s' H Hfresh. unfold read_category in H. run_inv.
  apply dict_keys_set_new, Hfresh. now left.
Qed.

Lemma appends_after_set (prop key : string) (f : pyval -> res pyval)
    (v0 : pyval) :
  appends [key] (fun d => read_category prop key f (dict_set key v0 d)).
Proof.
  intros d s d' s' H Hfresh. unfold read_category in H. run_inv.
  rewrite dict_keys_set_same by apply has_key_set_same.
  apply dict_keys_set_new, Hfresh. now left.
Qed.

Lemma two_sets_append (k1 k2 : string) (v1 v2 : pyval) (d : dict) :
  k1 <> k2 ->
  (forall k, In k [k1; k2] -> has_key k d = false) ->
  dict_keys (dict_set k2 v2 (dict_set k1 v1 d)) = (dict_keys d ++ [k1; k2])%list.
Proof.
  intros Hne Hfresh.
  rewrite dict_keys_set_new.
  - rewrite dict_keys_set_new by (apply Hfresh; simpl; auto).
    now rewrite <- app_assoc.
  - rewrite has_key_set_other by auto. apply Hfresh. simpl. auto.
Qed.

Lemma read_board_appends : appends ["board"; "libraries"] read_board.
Proof.
  intros d s d' s' H Hfresh. unfold read_board in H. run_inv.
  now apply two_sets_append.
Qed.

Lemma read_memory_appends : appends ["ram"; "swap"] read_memory.
Proof.
  intros d s d' s' H Hfresh. unfold read_memory in H. run_inv.
  now apply two_sets_append.
Qed.

Lemma read_nvpmodel_appends : appends ["nvpmodel"] read_nvpmodel.
Proof.
  intros d s d' s' H Hfresh. unfold read_nvpmodel in H. run_inv.
  apply dict_keys_set_new, Hfresh. now left.
Qed.

Lemma read_jetson_clocks_appends :
  appends ["jetson_clocks"] read_jetson_clocks.
Proof.
  intros d s d' s' H Hfresh. unfold read_jetson_clocks in H. run_inv;
    (apply dict_keys_set_new, Hfresh; now left).
Qed.

Lemma run_reads_appends (ks1 ks2 : list string) (read : dict -> M dict)
    (rest : list (dict -> M dict)) :
  appends ks1 read -> appends ks2 (run_reads rest) ->
  (forall k, In k ks2 -> ~ In k ks1) ->
  appends (ks1 ++ ks2) (run_reads (read :: rest)).
Proof.
  intros H1 H2 Hdisj d s d' s' H Hfresh. simpl in H. run_inv.
  assert (E1 : dict_keys a = (dict_keys d ++ ks1)%list).
  { apply (H1 _ _ _ _ Hrun). intros k Hk. apply Hfresh, in_or_app. auto. }
  rewrite (H2 _ _ _ _ Hrun0).
  - now rewrite E1, app_assoc.
  - intros k Hk. destruct (has_key k a) eqn:E; [|reflexivity].
    apply has_key_in_keys in E. rewrite E1 in E. apply in_app_or in E.
    destruct E as [E|E].
    + apply has_key_in_keys in E.
      rewrite (Hfresh k) in E by (apply in_or_app; auto). discriminate.
    + now apply Hdisj in Hk.
Qed.

Ltac not_among_tail :=
  let k := fresh "k" in
  let H1 := fresh "H" in
  let H2 := fresh "H" in
  intros k H1 H2; simpl in H1, H2;
  repeat (destruct H2 as [<-|H2];
          [repeat (destruct H1 as [H1|H1]; [discriminate|]); exact H1|]);
  exact H2.

Lemma run_reads_nil_appends : appends [] (run_reads []).
Proof.
  intros d s d' s' H _. simpl in H. run_inv. now rewrite app_nil_r.
Qed.

Lemma collect_appends : appends snapshot_keys collect.
Proof.
  unfold collect, category_reads.
  change snapshot_keys with
    (["board"; "libraries"] ++ ["nvpmodel"] ++ ["jetson_clocks"] ++ ["cpu"]
     ++ ["gpu"] ++ ["engines"] ++ ["ram"; "swap"] ++ ["temperature"]
     ++ ["fan"] ++ ["processes"] ++ ["disk"] ++ [])%list.
  repeat (apply run_reads_appends; [| |not_among_tail]);
    try apply run_reads_nil_appends;
    try apply read_board_appends;
    try apply read_nvpmodel_appends;
    try apply read_jetson_clocks_appends;
    try apply read_memory_appends;
    try apply read_category_appends;
    try (apply (appends_after_set "engine" "engines"));
    try (apply (appends_after_set "processes" "processes")).
Qed.

Lemma actions_report_keys (enable_clocks : bool)
    (set_nvpmodel : option string) (s : state) d0 s' :
  management_actions enable_clocks set_nvpmodel [] s = (Ok d0, s') ->
  action_report_keys enable_clocks set_nvpmodel (dict_keys d0).
Proof.
  unfold management_actions. intros H.
  apply bind_ok in H. destruct H as (d1 & s1 & Hc & Hn).
  assert (Hcs : if enable_clocks
                then d1 = [("clocks_action",
                            PStr "Enabled jetson_clocks and set to boot")] \/
                     exists msg, d1 = [("clocks_action_error", PStr msg)]
                else d1 = []).
  { destruct enable_clocks.
    - destruct (enable_clocks_action_returns [] s) as (k & msg & s2 & Hr & Hk).
      rewrite Hr in Hc. inversion Hc; subst.
      unfold enable_clocks_action, try_except in Hr.
      destruct (enable_clocks_body [] s) as [[d'|e] sb] eqn:Hb.
      + unfold enable_clocks_body in Hb. run_inv. inversion Hr. now left.
      + unfold ret in Hr. inversion Hr. right. eauto.
    - apply ret_ok in Hc. now destruct Hc. }
  exists (dict_keys d1).
  destruct set_nvpmodel as [target|].
  - destruct (set_nvpmodel_action_returns target d1 s1)
      as (k & msg & s2 & Hr & Hk).
    rewrite Hr in Hn. inversion Hn; subst d0 s2.
    exists [k]. split; [|split].
    + apply dict_keys_set_new.
      destruct enable_clocks;
        [destruct Hcs as [->|[m ->]]|subst d1];
        destruct Hk as [->| ->]; reflexivity.
    + destruct enable_clocks; [|now subst].
      destruct Hcs as [->|[m ->]]; simpl; auto.
    + destruct Hk as [->| ->]; auto.
  - apply ret_ok in Hn. destruct Hn; subst. exists [].
    split; [now rewrite app_nil_r|]. split; [|reflexivity].
    destruct enable_clocks; [|now subst].
    destruct Hcs as [->|[m ->]]; simpl; auto.
Qed.

Lemma action_reports_are_not_categories (enable_clocks : bool)
    (set_nvpmodel : option string) (ks : list string) (k : string) :
  action_report_keys enable_clocks set_nvpmodel ks ->
  In k snapshot_keys -> ~ In k ks.
Proof.
  intros (cs & ns & -> & Hcs & Hns) Hk Hin.
  assert (Hact : In k action_keys).
  { apply in_app_or in Hin. destruct Hin as [Hin|Hin].
    - destruct enable_clocks; [|now subst].
      destruct Hcs as [->| ->]; destruct Hin as [<-|[]]; simpl; auto.
    - destruct set_nvpmodel; [|now subst].
      destruct Hns as [->| ->]; destruct Hin as [<-|[]]; simpl; auto. }
  simpl in Hact, Hk.
  repeat (destruct Hact as [<-|Hact];
          [repeat (destruct Hk as [Hk|Hk]; [discriminate|]); exact Hk|]).
  exact Hact.
Qed.

(** X1.  The keys of a snapshot output, in order, are the reports of the
    management actions followed by the thirteen categories in the order
    of the source.  When the handle is not ready at the first readiness
    check there is no report; when it is, there is one clocks report
    exactly when [enable_clocks] is set and one power-model report exactly
    when a target is given.  With no action requested the keys are the
    thirteen categories and nothing else. *)
Theorem snapshot_keys_in_order (enable_clocks : bool)
    (set_nvpmodel : option string) (w : World) (out : dict) :
  output enable_clocks set_nvpmodel w = Ok (PDict out) ->
  dict_get "error" out = None ->
  exists reports,
    dict_keys out = (reports ++ snapshot_keys)%list /\
    (if ready w
     then action_report_keys enable_clocks set_nvpmodel reports
     else reports = []) /\
    (enable_clocks = false -> set_nvpmodel = None ->
     dict_keys out = snapshot_keys).
Proof.
  intros Hout Hnoerr.
  destruct (snapshot_output_arrived _ _ _ _ Hout Hnoerr) as (d0 & s0 & Harr).
  destruct (snapshot_output_from_read _ _ _ _ _ _ _ Harr Hout Hnoerr)
    as [sf Hreads].
  cbn [skipn] in Hreads. fold collect in Hreads.
  apply arrive_inv in Harr. destruct Harr as (d0' & ok2 & s4 & H2 & _ & Hpre).
  simpl in Hpre. apply ret_ok in Hpre. destruct Hpre; subst d0 s0.
  apply second_check_inv in H2. destruct H2 as (s3 & Hafter & _).
  apply after_actions_inv in Hafter.
  destruct Hafter as (ok1 & s2 & Hfirst & Hact).
  assert (Hrep : if truthy ok1
                 then action_report_keys enable_clocks set_nvpmodel
                        (dict_keys d0')
                 else dict_keys d0' = []).
  { unfold actions_when in Hact. destruct (truthy ok1).
    - eapply actions_report_keys; eauto.
    - apply ret_ok in Hact. now destruct Hact; subst. }
  assert (Hfresh : forall k, In k snapshot_keys -> has_key k d0' = false).
  { intros k Hk. destruct (has_key k d0') eqn:E; [|reflexivity].
    apply has_key_in_keys in E. destruct (truthy ok1).
    - now apply (action_reports_are_not_categories _ _ _ _ Hrep Hk) in E.
    - rewrite Hrep in E. contradiction. }
  pose proof (collect_appends _ _ _ _ Hreads Hfresh) as Hkeys.
  exists (dict_keys d0'). split; [exact Hkeys|]. split.
  - unfold ready. now rewrite Hfirst.
  - intros -> ->. rewrite Hkeys.
    destruct (truthy ok1); [|now rewrite Hrep].
    destruct Hrep as (cs & ns & -> & -> & ->). reflexivity.
Qed.

(** ** Where a [JtopException] can come from *)

Lemma other_only_ok {A : Type} (a : A) : other_only (Ok a).
Proof. intros m. discriminate. Qed.

Lemma other_only_bind {A B : Type} (r : res A) (k : A -> res B) :
  other_only r -> (forall a, other_only (k a)) -> other_only (res_bind r k).
Proof.
  intros Hr Hk m. destruct r as [a|e]; simpl.
  - apply Hk.
  - intros H. inversion H; subst. now apply (Hr m).
Qed.

Lemma other_only_attribute_error {A : Type} (v : pyval) (name : string) :
  other_only (@attribute_error A v name).
Proof. intros m. discriminate. Qed.

Lemma other_only_py_get (v : pyval) (k : string) (dflt : pyval) :
  other_only (py_get v k dflt).
Proof. intros m. destruct v; discriminate. Qed.

Lemma other_only_py_items (v : pyval) : other_only (py_items v).
Proof. intros m. destruct v; discriminate. Qed.

Lemma other_only_py_getattr (v : pyval) (name : string) :
  other_only (py_getattr v name).
Proof.
  intros m. destruct v; try discriminate. simpl.
  destruct (dict_get name attrs); discriminate.
Qed.

Lemma other_only_py_getitem_str (v : pyval) (k : string) :
  other_only (py_getitem_str v k).
Proof.
  intros m. destruct v; try discriminate. simpl.
  destruct (dict_get k kvs); discriminate.
Qed.

Lemma other_only_py_getitem_int (v : pyval) (i : nat) :
  other_only (py_getitem_int v i).
Proof.
  intros m. destruct v; try discriminate; simpl.
  - destruct (char_at s i); discriminate.
  - destruct (nth_error xs i); discriminate.
Qed.

Lemma other_only_py_len (v : pyval) : other_only (py_len v).
Proof. intros m. destruct v; discriminate. Qed.

Lemma other_only_py_iter (v : pyval) : other_only (py_iter v).
Proof. intros m. destruct v; discriminate. Qed.

Lemma other_only_round1 (v : pyval) : other_only (round1 v).
Proof. intros m. destruct v; discriminate. Qed.

Ltac other_only_step :=
  match goal with
  | |- other_only (res_bind _ _) => apply other_only_bind; [|intros ?]
  | |- other_only (Ok _) => apply other_only_ok
  | |- other_only (py_get _ _ _) => apply other_only_py_get
  | |- other_only (py_items _) => apply other_only_py_items
  | |- other_only (py_getattr _ _) => apply other_only_py_getattr
  | |- other_only (py_getitem_str _ _) => apply other_only_py_getitem_str
  | |- other_only (py_getitem_int _ _) => apply other_only_py_getitem_int
  | |- other_only (py_len _) => apply other_only_py_len
  | |- other_only (py_iter _) => apply other_only_py_iter
  | |- other_only (round1 _) => apply other_only_round1
  | |- other_only (if ?b then _ else _) => destruct b
  end.

Lemma other_only_hardware_field (board : pyval) (field : string) :
  other_only (hardware_field board field).
Proof. unfold hardware_field. repeat other_only_step. Qed.

Lemma other_only_board_category (v : pyval) : other_only (board_category v).
Proof.
  unfold board_category.
  repeat first [apply other_only_hardware_field | other_only_step].
Qed.

Lemma other_only_libraries_category (v : pyval) :
  other_only (libraries_category v).
Proof. unfold libraries_category. other_only_step. Qed.

Lemma other_only_cpu_total (v : pyval) (field : string) :
  other_only (cpu_total v field).
Proof. unfold cpu_total. repeat other_only_step. Qed.

Lemma other_only_count_online (cores : list pyval) :
  other_only (count_online cores).
Proof.
  induction cores as [|c rest IH]; cbn [count_online].
  - apply other_only_ok.
  - repeat first [exact IH | other_only_step].
Qed.

Lemma other_only_cpu_category (v : pyval) : other_only (cpu_category v).
Proof.
  unfold cpu_category.
  repeat first [apply other_only_cpu_total | apply other_only_count_online
               | other_only_step].
Qed.

Lemma other_only_nested_field (v : pyval) (group field : string) :
  other_only (nested_field v group field).
Proof. unfold nested_field. repeat other_only_step. Qed.

Lemma other_only_gpu_category (v : pyval) : other_only (gpu_category v).
Proof.
  unfold gpu_category.
  repeat first [apply other_only_nested_field | other_only_step].
Qed.

Lemma other_only_ram_category (v : pyval) : other_only (ram_category v).
Proof.
  unfold ram_category.
  repeat first [apply other_only_nested_field | other_only_step].
Qed.

Lemma other_only_swap_category (v : pyval) : other_only (swap_category v).
Proof.
  unfold swap_category.
  repeat first [apply other_only_nested_field | other_only_step].
Qed.

Lemma other_only_engine_items (items acc : dict) :
  other_only (engine_items items acc).
Proof.
  revert acc. induction items as [|[k info] rest IH]; intros acc;
    cbn [engine_items].
  - apply other_only_ok.
  - repeat first [apply IH | other_only_step].
Qed.

Lemma other_only_engine_groups (groups acc : dict) :
  other_only (engine_groups groups acc).
Proof.
  revert acc. induction groups as [|[k items] rest IH]; intros acc;
    cbn [engine_groups].
  - apply other_only_ok.
  - repeat first [apply IH | apply other_only_engine_items | other_only_step].
Qed.

Lemma other_only_engines_category (v : pyval) :
  other_only (engines_category v).
Proof.
  unfold engines_category.
  repeat first [apply other_only_engine_groups | other_only_step].
Qed.

Lemma other_only_temperature_items (items acc : dict) :
  other_only (temperature_items items acc).
Proof.
  revert acc. induction items as [|[k v] rest IH]; intros acc;
    cbn [temperature_items].
  - apply other_only_ok.
  - repeat first [apply IH | other_only_step].
Qed.

Lemma other_only_temperature_category (v : pyval) :
  other_only (temperature_category v).
Proof.
  unfold temperature_category.
  repeat first [apply other_only_temperature_items | other_only_step].
Qed.

Lemma other_only_fan_category (v : pyval) : other_only (fan_category v).
Proof.
  unfold fan_category, fan_speed, fan_profile. repeat other_only_step.
Qed.

Lemma other_only_process_entries (ps acc : list pyval) :
  other_only (process_entries ps acc).
Proof.
  revert acc. induction ps as [|p rest IH]; intros acc;
    cbn [process_entries].
  - apply other_only_ok.
  - unfold process_entry. repeat first [apply IH | other_only_step].
Qed.

Lemma other_only_processes_category (v : pyval) :
  other_only (processes_category v).
Proof.
  unfold processes_category.
  repeat first [apply other_only_process_entries | other_only_step].
Qed.

Lemma other_only_disk_category (v : pyval) : other_only (disk_category v).
Proof. unfold disk_category. repeat other_only_step. Qed.

Lemma jfb_ret {A : Type} (a : A) : jtop_from_backend (ret a).
Proof. intros s m s' H. discriminate. Qed.

Lemma jfb_lift {A : Type} (r : res A) :
  other_only r -> jtop_from_backend (lift r).
Proof.
  intros Hr s m s' H. unfold lift in H. inversion H. now apply Hr in H1.
Qed.

Lemma invoke_raise (c : call) (s : state) (e : exn) s' :
  invoke c s = (Raise e, s') -> fst (backend c (world s)) = Raise e.
Proof.
  unfold invoke. destruct (backend c (world s)) as [r w']. intros H.
  now inversion H.
Qed.

Lemma jfb_invoke (c : call) : jtop_from_backend (invoke c).
Proof.
  intros s m s' H. exists c, (world s). now apply invoke_raise in H.
Qed.

Lemma jfb_bind {A B : Type} (c : M A) (k : A -> M B) :
  jtop_from_backend c -> (forall a, jtop_from_backend (k a)) ->
  jtop_from_backend (bind c k).
Proof.
  intros Hc Hk s m s' H. apply bind_raise in H.
  destruct H as [H|(a & s1 & _ & H)].
  - eapply Hc; eauto.
  - eapply Hk; eauto.
Qed.

Ltac jfb_step :=
  match goal with
  | |- jtop_from_backend (bind _ _) => apply jfb_bind; [|intros ?]
  | |- jtop_from_backend (ret _) => apply jfb_ret
  | |- jtop_from_backend (invoke _) => apply jfb_invoke
  | |- jtop_from_backend (lift _) => apply jfb_lift
  | |- jtop_from_backend (if ?b then _ else _) => destruct b
  end.

Lemma jfb_read_category (prop key : string) (f : pyval -> res pyval)
    (d : dict) :
  (forall x, other_only (f x)) ->
  jtop_from_backend (read_category prop key f d).
Proof. intros Hf. unfold read_category. repeat jfb_step. apply Hf. Qed.

Lemma jfb_category_reads :
  Forall (fun read => forall d, jtop_from_backend (read d)) category_reads.
Proof.
  unfold category_reads.
  repeat apply Forall_cons; try apply Forall_nil; intros d.
  - unfold read_board. repeat jfb_step.
    + apply other_only_board_category.
    + apply other_only_libraries_category.
  - unfold read_nvpmodel, nvpmodel_field.
    repeat jfb_step; apply other_only_py_getattr.
  - unfold read_jetson_clocks. repeat jfb_step; apply other_only_py_getattr.
  - apply jfb_read_category, other_only_cpu_category.
  - apply jfb_read_category, other_only_gpu_category.
  - apply jfb_read_category, other_only_engines_category.
  - unfold read_memory. repeat jfb_step.
    + apply other_only_ram_category.
    + apply other_only_swap_category.
  - apply jfb_read_category, other_only_temperature_category.
  - apply jfb_read_category, other_only_fan_category.
  - apply jfb_read_category, other_only_processes_category.
  - apply jfb_read_category, other_only_disk_category.
Qed.

Lemma jfb_run_reads (reads : list (dict -> M dict)) :
  Forall (fun read => forall d, jtop_from_backend (read d)) reads ->
  forall d, jtop_from_backend (run_reads reads d).
Proof.
  induction 1 as [|read rest Hread _ IH]; intros d; simpl.
  - apply jfb_ret.
  - apply jfb_bind; [apply Hread|apply IH].
Qed.

Lemma jfb_with_body (enable_clocks : bool) (set_nvpmodel : option string) :
  jtop_from_backend (with_body enable_clocks set_nvpmodel).
Proof.
  unfold with_body. cbv zeta.
  apply jfb_bind; [apply jfb_invoke|intros ok1].
  apply jfb_bind.
  - intros s m s' H. unfold actions_when in H. destruct (truthy ok1).
    + destruct (management_actions_returns enable_clocks set_nvpmodel [] s)
        as (d & s1 & Hr & _).
      rewrite Hr in H. discriminate.
    + discriminate.
  - intros data. apply jfb_bind; [apply jfb_invoke|intros ok2].
    destruct (truthy ok2); [|apply jfb_ret].
    apply jfb_bind; [|intros d; apply jfb_ret].
    apply jfb_run_reads, jfb_category_reads.
Qed.

(** X2.  Every output is a snapshot or one of three error records: the
    "jtop is not ok" record, [{"error": "Unexpected error: m"}], or
    [{"error": "JtopException: m"}]; and the last one is only ever
    produced when some call made the backend raise its own exception with
    that message [m]: the script's own look-ups never produce it. *)
Theorem error_records_by_origin (enable_clocks : bool)
    (set_nvpmodel : option string) (w : World) :
  exists out,
    output enable_clocks set_nvpmodel w = Ok (PDict out) /\
    (is_snapshot out \/
     PDict out = not_ok_record \/
     (exists m, out = [("error", PStr ("Unexpected error: " ++ m))]) \/
     (exists m, out = [("error", PStr ("JtopException: " ++ m))] /\
                backend_raises m)).
Proof.
  assert (Herr : forall e,
    (forall m, e = JtopException m -> backend_raises m) ->
    exists out,
      error_record e = PDict out /\
      (is_snapshot out \/ PDict out = not_ok_record \/
       (exists m, out = [("error", PStr ("Unexpected error: " ++ m))]) \/
       (exists m, out = [("error", PStr ("JtopException: " ++ m))] /\
                  backend_raises m))).
  { intros [m|m] Hm; simpl; eexists; (split; [reflexivity|]).
    - right. right. right. exists m. split; [reflexivity|]. now apply Hm.
    - right. right. left. now exists m. }
  unfold output.
  destruct (get_jetson_info_cases enable_clocks set_nvpmodel (start w))
    as [(e & s1 & Henter & Hrun)
       |(x & s1 & r & s2 & _ & Hbody &
           [(e & s3 & Hexit & Hrun)|(y & s3 & _ & Hrun)])];
    rewrite Hrun; simpl.
  - destruct (Herr e) as (out & -> & H); [|now exists out].
    intros m ->. eapply jfb_invoke; eauto.
  - destruct (Herr e) as (out & -> & H); [|now exists out].
    intros m ->. eapply jfb_invoke; eauto.
  - destruct r as [v|e].
    + destruct (with_body_returns _ _ _ _ _ Hbody) as [->|(d & -> & Hsnap)].
      * eexists. split; [reflexivity|]. right. now left.
      * exists d. split; [reflexivity|]. now left.
    + destruct (Herr e) as (out & -> & H); [|now exists out].
      intros m ->. eapply jfb_with_body; eauto.
Qed.

(** ** What is called, and in which order *)

Lemma logs_enable_clocks_body_calls (P : call -> Prop) (data : dict) :
  P (SetProp "jetson_clocks" (PBool true)) ->
  P (GetProp "jetson_clocks") ->
  (forall obj, P (SetAttr obj "boot" (PBool true))) ->
  logs P (enable_clocks_action data).
Proof.
  intros Hset Hget Hboot. unfold enable_clocks_action, enable_clocks_body.
  repeat logs_step; try assumption.
  unfold py_setattr.
  match goal with |- logs _ (match ?o with _ => _ end) => destruct o end;
    first [apply logs_lift | apply logs_invoke, Hboot].
Qed.

Lemma logs_management_actions (P : call -> Prop) (enable_clocks : bool)
    (set_nvpmodel : option string) (data : dict) :
  (enable_clocks = true ->
   P (SetProp "jetson_clocks" (PBool true)) /\
   P (GetProp "jetson_clocks") /\
   forall obj, P (SetAttr obj "boot" (PBool true))) ->
  (forall target, set_nvpmodel = Some target ->
   P (SetProp "nvpmodel" (nvp_pyval (convert_nvpmodel target))) /\
   P (Sleep 1)) ->
  logs P (management_actions enable_clocks set_nvpmodel data).
Proof.
  intros Hclocks Hnvp. unfold management_actions. apply logs_bind.
  - destruct enable_clocks; [|apply logs_ret].
    destruct (Hclocks eq_refl) as (H1 & H2 & H3).
    now apply logs_enable_clocks_body_calls.
  - intros d. destruct set_nvpmodel as [target|]; [|apply logs_ret].
    destruct (Hnvp target eq_refl).
    unfold set_nvpmodel_action, set_nvpmodel_body. cbv zeta.
    repeat logs_step; assumption.
Qed.

Lemma logs_with_body (P : call -> Prop) (enable_clocks : bool)
    (set_nvpmodel : option string) :
  P IsOk ->
  (forall name, P (GetProp name)) ->
  (enable_clocks = true ->
   P (SetProp "jetson_clocks" (PBool true)) /\
   forall obj, P (SetAttr obj "boot" (PBool true))) ->
  (forall target, set_nvpmodel = Some target ->
   P (SetProp "nvpmodel" (nvp_pyval (convert_nvpmodel target))) /\
   P (Sleep 1)) ->
  logs P (with_body enable_clocks set_nvpmodel).
Proof.
  intros Hok Hreads Hclocks Hnvp. unfold with_body. cbv zeta.
  apply logs_bind; [now apply logs_invoke|intros ok1].
  apply logs_bind; [|intros data; now apply logs_second_half].
  unfold actions_when. apply logs_if; [|apply logs_ret].
  apply logs_management_actions; [|exact Hnvp].
  intros Hen. destruct (Hclocks Hen). auto.
Qed.

Lemma invoke_trace (c : call) (s : state) :
  trace (snd (invoke c s)) = (trace s ++ [c])%list.
Proof. unfold invoke. now destruct (backend c (world s)). Qed.

(** X3.  The handle is released exactly once, last, on every path on
    which it was acquired, and no second acquisition is ever attempted;
    when the acquisition itself raises, nothing else is called. *)
Theorem handle_released_exactly_once (enable_clocks : bool)
    (set_nvpmodel : option string) (w : World) :
  (acquired w = None -> calls enable_clocks set_nvpmodel w = [Enter]) /\
  (forall s1,
      acquired w = Some s1 ->
      exists mid,
        calls enable_clocks set_nvpmodel w = (Enter :: mid ++ [Exit])%list /\
        Forall (fun c => c <> Enter /\ c <> Exit) mid).
Proof.
  unfold acquired, calls, get_jetson_info, try_except, with_jtop.
  pose proof (invoke_trace Enter (start w)) as Ht.
  destruct (invoke Enter (start w)) as [[x|e] s1]; simpl in Ht.
  - split; [discriminate|]. intros s1' Hs. inversion Hs; subst s1'.
    destruct (logs_with_body (fun c => c <> Enter /\ c <> Exit)
                enable_clocks set_nvpmodel
                ltac:(split; discriminate)
                ltac:(intros name; split; discriminate)
                ltac:(intros _; split; [|intros obj]; split; discriminate)
                ltac:(intros t _; split; split; discriminate) s1)
      as (mid & E & F).
    exists mid. split; [|exact F].
    destruct (with_body enable_clocks set_nvpmodel s1) as [r s2].
    simpl in E. pose proof (invoke_trace Exit s2) as Hx.
    destruct (invoke Exit s2) as [[y|e] s3]; simpl in Hx.
    + destruct r; simpl; now rewrite Hx, E, Ht.
    + simpl. now rewrite Hx, E, Ht.
  - split; [|discriminate]. intros _. simpl. exact Ht.
Qed.

(** X4.  An invocation that requests no action never assigns anything to
    the backend and never pauses; one that does not set [enable_clocks]
    never assigns the clocks-control property nor an attribute of an
    object; one that gives no target power model never assigns the
    power-model property and never pauses. *)
Theorem unrequested_actions_are_never_made (w : World) :
  Forall (fun c => is_action c = false) (calls false None w) /\
  (forall set_nvpmodel,
      Forall (fun c => is_clocks_assignment c = false)
        (calls false set_nvpmodel w)) /\
  (forall enable_clocks,
      Forall (fun c => is_nvpmodel_action c = false)
        (calls enable_clocks None w)).
Proof.
  split; [|split].
  - destruct (logs_get_jetson_info (fun c => is_action c = false)
                ltac:(reflexivity) ltac:(reflexivity) false None
                ltac:(reflexivity) ltac:(reflexivity)
                ltac:(discriminate) ltac:(discriminate) (start w))
      as (cs & E & F).
    unfold calls. rewrite E. exact F.
  - intros set_nvpmodel.
    destruct (logs_get_jetson_info (fun c => is_clocks_assignment c = false)
                ltac:(reflexivity) ltac:(reflexivity) false set_nvpmodel
                ltac:(reflexivity) ltac:(reflexivity)
                ltac:(discriminate)
                ltac:(intros t _; split; reflexivity) (start w))
      as (cs & E & F).
    unfold calls. rewrite E. exact F.
  - intros enable_clocks.
    destruct (logs_get_jetson_info (fun c => is_nvpmodel_action c = false)
                ltac:(reflexivity) ltac:(reflexivity) enable_clocks None
                ltac:(reflexivity) ltac:(reflexivity)
                ltac:(intros _; split; [|intros obj]; reflexivity)
                ltac:(discriminate) (start w))
      as (cs & E & F).
    unfold calls. rewrite E. exact F.
Qed.

Lemma logs2_bind_split (P Q : call -> Prop) {A B : Type} (m : M A)
    (k : A -> M B) :
  logs P m -> (forall a, logs Q (k a)) -> logs2 P Q (bind m k).
Proof.
  intros Hm Hk s. unfold bind.
  destruct (Hm s) as (cs1 & E1 & F1).
  destruct (m s) as [[a|e] s1]; simpl in E1.
  - destruct (Hk a s1) as (cs2 & E2 & F2).
    exists cs1, cs2. rewrite E2, E1, app_assoc. auto.
  - exists cs1, []. simpl. rewrite app_nil_r. auto.
Qed.

Lemma logs2_bind_pre (P Q : call -> Prop) {A B : Type} (m : M A)
    (k : A -> M B) :
  logs P m -> (forall a, logs2 P Q (k a)) -> logs2 P Q (bind m k).
Proof.
  intros Hm Hk s. unfold bind.
  destruct (Hm s) as (cs1 & E1 & F1).
  destruct (m s) as [[a|e] s1]; simpl in E1.
  - destruct (Hk a s1) as (pre & post & E2 & F2 & F3).
    exists (cs1 ++ pre)%list, post. rewrite E2, E1, !app_assoc.
    split; [reflexivity|]. split; [|exact F3]. apply Forall_app. auto.
  - exists cs1, []. simpl. rewrite app_nil_r. auto.
Qed.

(** X5.  Management actions are done before the statistics are read: the
    calls of a run split in two consecutive groups, the first without any
    read of a category (the clocks-control object, which the clocks action
    reads, apart) and the second without any assignment or pause. *)
Theorem actions_precede_reads (enable_clocks : bool)
    (set_nvpmodel : option string) (w : World) :
  exists pre post,
    calls enable_clocks set_nvpmodel w = (pre ++ post)%list /\
    Forall (fun c => is_category_read c = false) pre /\
    Forall (fun c => is_action c = false) post.
Proof.
  assert (Hbody : logs2 (fun c => is_category_read c = false)
                        (fun c => is_action c = false)
                        (with_body enable_clocks set_nvpmodel)).
  { unfold with_body. cbv zeta.
    apply logs2_bind_pre; [now apply logs_invoke|intros ok1].
    apply logs2_bind_split.
    - unfold actions_when. apply logs_if; [|apply logs_ret].
      apply logs_management_actions.
      + intros _. split; [reflexivity|]. split; [reflexivity|].
        intros obj. reflexivity.
      + intros t _. split; reflexivity.
    - intros data. apply logs_second_half; reflexivity. }
  unfold calls, get_jetson_info, try_except, with_jtop.
  pose proof (invoke_trace Enter (start w)) as Ht.
  destruct (invoke Enter (start w)) as [[x|e] s1]; simpl in Ht.
  - destruct (Hbody s1) as (pre & post & E & F1 & F2).
    destruct (with_body enable_clocks set_nvpmodel s1) as [r s2].
    simpl in E. pose proof (invoke_trace Exit s2) as Hx.
    exists (Enter :: pre), (post ++ [Exit])%list.
    split; [|split].
    + destruct (invoke Exit s2) as [[y|e] s3]; simpl in Hx;
        [destruct r|]; simpl; rewrite Hx, E, Ht; simpl;
        now rewrite <- !app_assoc.
    + now constructor.
    + apply Forall_app. split; [exact F2|]. now constructor.
  - exists [Enter], []. simpl. rewrite Ht. split; [reflexivity|].
    split; constructor; auto.
Qed.

(** ** The power-model action *)

Lemma clocks_step_returns (enable_clocks : bool) (s : state) d1 s1 :
  clocks_step enable_clocks [] s = (Ok d1, s1) ->
  dict_get "nvpmodel_action" d1 = None /\
  dict_get "nvpmodel_action_error" d1 = None.
Proof.
  unfold clocks_step. destruct enable_clocks.
  - destruct (enable_clocks_action_returns [] s) as (k & msg & s' & Hr & Hk).
    rewrite Hr. intros H. inversion H; subst.
    destruct Hk as [->| ->]; split; reflexivity.
  - intros H. apply ret_ok in H. destruct H; subst. split; reflexivity.
Qed.

Lemma after_actions_power_model (enable_clocks : bool) (target : string)
    (w : World) ok s d1 s1 d2 s2 :
  first_check w = Some (ok, s) ->
  truthy ok = true ->
  clocks_step enable_clocks [] s = (Ok d1, s1) ->
  set_nvpmodel_action target d1 s1 = (Ok d2, s2) ->
  after_actions enable_clocks (Some target) w = Some (d2, s2).
Proof.
  intros Hfirst Hok Hc Hn. unfold after_actions. rewrite Hfirst.
  unfold actions_when, management_actions. rewrite Hok.
  change (if enable_clocks then enable_clocks_action [] else ret [])
    with (clocks_step enable_clocks []).
  rewrite (bind_run _ _ _ _ _ Hc). now rewrite Hn.
Qed.

(** The outcome of the power-model action, in terms of the value the
    argument converts to. *)
Lemma power_model_action_outcome (enable_clocks : bool)
    (target : string) (w : World) ok s d1 s1 :
  first_check w = Some (ok, s) ->
  truthy ok = true ->
  clocks_step enable_clocks [] s = (Ok d1, s1) ->
  (forall x s2,
      invoke (SetProp "nvpmodel" (nvp_pyval (convert_nvpmodel target))) s1
        = (Ok x, s2) ->
      exists d2 s3,
        after_actions enable_clocks (Some target) w = Some (d2, s3) /\
        trace s3
          = (trace s1 ++
             [SetProp "nvpmodel" (nvp_pyval (convert_nvpmodel target));
              Sleep 1])%list /\
        dict_get "nvpmodel_action" d2
          = Some (PStr ("Set nvpmodel to " ++ nvp_str (convert_nvpmodel target)))
        /\
        dict_get "nvpmodel_action_error" d2 = None /\
        forall out,
          output enable_clocks (Some target) w = Ok (PDict out) ->
          dict_get "error" out = None ->
          dict_get "nvpmodel_action" out
            = Some (PStr ("Set nvpmodel to "
                          ++ nvp_str (convert_nvpmodel target))) /\
          dict_get "nvpmodel_action_error" out = None) /\
  (forall e s2,
      invoke (SetProp "nvpmodel" (nvp_pyval (convert_nvpmodel target))) s1
        = (Raise e, s2) ->
      exists d2,
        after_actions enable_clocks (Some target) w = Some (d2, s2) /\
        trace s2
          = (trace s1 ++
             [SetProp "nvpmodel" (nvp_pyval (convert_nvpmodel target))])%list /\
        dict_get "nvpmodel_action_error" d2 = Some (PStr (str_exn e)) /\
        dict_get "nvpmodel_action" d2 = None /\
        forall out,
          output enable_clocks (Some target) w = Ok (PDict out) ->
          dict_get "error" out = None ->
          dict_get "nvpmodel_action_error" out = Some (PStr (str_exn e)) /\
          dict_get "nvpmodel_action" out = None).
Proof.
  intros Hfirst Hok Hc.
  destruct (clocks_step_returns _ _ _ _ Hc) as [Hn1 Hn2].
  assert (Hsnap : forall d2 s3 out,
    after_actions enable_clocks (Some target) w = Some (d2, s3) ->
    output enable_clocks (Some target) w = Ok (PDict out) ->
    dict_get "error" out = None ->
    dict_get "nvpmodel_action" out = dict_get "nvpmodel_action" d2 /\
    dict_get "nvpmodel_action_error" out
      = dict_get "nvpmodel_action_error" d2).
  { intros d2 s3 out H2 Hout Hnoerr.
    split; eapply snapshot_keeps_action_reports; eauto; not_among. }
  split.
  - intros x s2 Hset.
    assert (Hact : set_nvpmodel_action target d1 s1
              = (Ok (dict_set "nvpmodel_action"
                       (PStr ("Set nvpmodel to "
                              ++ nvp_str (convert_nvpmodel target))) d1),
                 snd (time_sleep 1 s2))).
    { unfold set_nvpmodel_action, set_nvpmodel_body, try_except. cbv zeta.
      rewrite (bind_run _ _ _ _ _ Hset). reflexivity. }
    pose proof (after_actions_power_model _ _ _ _ _ _ _ _ _
                  Hfirst Hok Hc Hact) as Hafter.
    do 2 eexists. split; [exact Hafter|]. split; [|split; [|split]].
    + pose proof (invoke_trace
                    (SetProp "nvpmodel" (nvp_pyval (convert_nvpmodel target)))
                    s1) as Ht.
      rewrite Hset in Ht. simpl in Ht. simpl. rewrite Ht.
      now rewrite <- app_assoc.
    + apply dict_get_set_same.
    + now rewrite dict_get_set_other by discriminate.
    + intros out Hout Hnoerr.
      destruct (Hsnap _ _ _ Hafter Hout Hnoerr) as [E1 E2].
      rewrite E1, E2, dict_get_set_same.
      now rewrite dict_get_set_other by discriminate.
  - intros e s2 Hset.
    assert (Hact : set_nvpmodel_action target d1 s1
              = (Ok (dict_set "nvpmodel_action_error" (PStr (str_exn e)) d1),
                 s2)).
    { unfold set_nvpmodel_action, set_nvpmodel_body, try_except. cbv zeta.
      now rewrite (bind_abort _ _ _ _ _ Hset). }
    pose proof (after_actions_power_model _ _ _ _ _ _ _ _ _
                  Hfirst Hok Hc Hact) as Hafter.
    eexists. split; [exact Hafter|]. split; [|split; [|split]].
    + pose proof (invoke_trace
                    (SetProp "nvpmodel" (nvp_pyval (convert_nvpmodel target)))
                    s1) as Ht.
      now rewrite Hset in Ht.
    + apply dict_get_set_same.
    + now rewrite dict_get_set_other by discriminate.
    + intros out Hout Hnoerr.
      destruct (Hsnap _ _ _ Hafter Hout Hnoerr) as [E1 E2].
      rewrite E1, E2, dict_get_set_same.
      now rewrite dict_get_set_other by discriminate.
Qed.

(** X6.  With a target power model on a handle that is ready at the first
    readiness check: when the assignment succeeds the run pauses one
    second and records [nvpmodel_action], the string
    "Set nvpmodel to " followed by the converted value (not the raw
    argument), and no [nvpmodel_action_error]; when the assignment raises
    there is no pause and the run records [nvpmodel_action_error], the
    message of the exception, and no [nvpmodel_action].  In both cases the
    run goes on, and every snapshot it outputs holds the same report.
    The converted value is the integer [n], printed in decimal, when the
    argument is an integer literal for [n], and the argument itself when
    it is no integer literal. *)
Theorem nvpmodel_action_outcome_is_recorded (enable_clocks : bool)
    (target : string) (w : World) ok s d1 s1 :
  first_check w = Some (ok, s) ->
  truthy ok = true ->
  clocks_step enable_clocks [] s = (Ok d1, s1) ->
  (forall x s2,
      invoke (SetProp "nvpmodel" (nvp_pyval (convert_nvpmodel target))) s1
        = (Ok x, s2) ->
      exists d2 s3,
        after_actions enable_clocks (Some target) w = Some (d2, s3) /\
        trace s3
          = (trace s1 ++
             [SetProp "nvpmodel" (nvp_pyval (convert_nvpmodel target));
              Sleep 1])%list /\
        dict_get "nvpmodel_action" d2
          = Some (PStr ("Set nvpmodel to " ++ nvp_str (convert_nvpmodel target)))
        /\
        dict_get "nvpmodel_action_error" d2 = None /\
        forall out,
          output enable_clocks (Some target) w = Ok (PDict out) ->
          dict_get "error" out = None ->
          dict_get "nvpmodel_action" out
            = Some (PStr ("Set nvpmodel to "
                          ++ nvp_str (convert_nvpmodel target))) /\
          dict_get "nvpmodel_action_error" out = None) /\
  (forall e s2,
      invoke (SetProp "nvpmodel" (nvp_pyval (convert_nvpmodel target))) s1
        = (Raise e, s2) ->
      exists d2,
        after_actions enable_clocks (Some target) w = Some (d2, s2) /\
        trace s2
          = (trace s1 ++
             [SetProp "nvpmodel" (nvp_pyval (convert_nvpmodel target))])%list /\
        dict_get "nvpmodel_action_error" d2 = Some (PStr (str_exn e)) /\
        dict_get "nvpmodel_action" d2 = None /\
        forall out,
          output enable_clocks (Some target) w = Ok (PDict out) ->
          dict_get "error" out = None ->
          dict_get "nvpmodel_action_error" out = Some (PStr (str_exn e)) /\
          dict_get "nvpmodel_action" out = None) /\
  (forall n,
      int_literal target n ->
      nvp_pyval (convert_nvpmodel target) = PInt n /\
      nvp_str (convert_nvpmodel target) = string_of_Z n) /\
  ((forall n, ~ int_literal target n) ->
   nvp_pyval (convert_nvpmodel target) = PStr target /\
   nvp_str (convert_nvpmodel target) = target).
Proof.
  intros Hfirst Hok Hclocks.
  destruct (power_model_action_outcome enable_clocks target w ok s d1 s1
              Hfirst Hok Hclocks) as [Hdone Hfail].
  split; [exact Hdone|]. split; [exact Hfail|]. split.
  - intros n Hn. apply py_int_literal in Hn.
    unfold convert_nvpmodel. rewrite Hn. split; reflexivity.
  - intros Hnone. unfold convert_nvpmodel.
    destruct (py_int target) as [n|] eqn:E; [|split; reflexivity].
    apply py_int_literal in E. now destruct (Hnone n).
Qed.

(** ** Actions whose report is lost *)

Lemma logs_anything_management_actions (enable_clocks : bool)
    (set_nvpmodel : option string) (data : dict) :
  logs (fun _ => True) (management_actions enable_clocks set_nvpmodel data).
Proof. apply logs_management_actions; auto. Qed.

Lemma enable_clocks_action_assigns (data : dict) (s : state) :
  In (SetProp "jetson_clocks" (PBool true))
     (trace (snd (enable_clocks_action data s))).
Proof.
  unfold enable_clocks_action, try_except, enable_clocks_body.
  pose proof (invoke_trace (SetProp "jetson_clocks" (PBool true)) s) as Ht.
  unfold bind at 1.
  destruct (invoke (SetProp "jetson_clocks" (PBool true)) s) as [[x|e] s1];
    simpl in Ht.
  - assert (Hin : In (SetProp "jetson_clocks" (PBool true)) (trace s1)).
    { rewrite Ht. apply in_or_app. right. now left. }
    match goal with |- context [match ?m s1 with _ => _ end] =>
      assert (Hrest : logs (fun _ => True) m) end.
    { repeat logs_step; auto. unfold py_setattr.
      match goal with |- logs _ (match ?o with _ => _ end) => destruct o end;
        first [apply logs_lift | now apply logs_invoke]. }
    match goal with |- context [match ?m s1 with _ => _ end] =>
      pose proof (logs_grows _ m Hrest s1 _ Hin) as Hg;
      destruct (m s1) as [[d'|e] s2] end; exact Hg.
  - simpl. rewrite Ht. apply in_or_app. right. now left.
Qed.

(** X7.  The clocks assignment is made whenever the handle is ready at the
    first readiness check, whatever happens next: when the handle answers
    the second readiness check with a false value, the output is the bare
    "jtop is not ok" record, which says nothing of the assignment that was
    made. *)
Theorem clocks_assignment_can_go_unreported (set_nvpmodel : option string)
    (w : World) d ok2 s :
  ready w = true ->
  second_check true set_nvpmodel w = Some (d, ok2, s) ->
  truthy ok2 = false ->
  released s = true ->
  In (SetProp "jetson_clocks" (PBool true)) (calls true set_nvpmodel w) /\
  output true set_nvpmodel w = Ok not_ok_record.
Proof.
  intros Hready H2 Hok2 Hrel.
  destruct (second_check_inv _ _ _ _ _ _ H2) as (s3 & Hafter & Hcheck2).
  destruct (after_actions_inv _ _ _ _ _ Hafter) as (ok1 & s2 & Hfirst & Hact).
  destruct (first_check_inv _ _ _ Hfirst) as (s1 & Hacq & Hcheck1).
  pose proof (with_body_after_checks _ _ _ _ _ _ _ Hacq H2) as Hb.
  rewrite Hok2 in Hb. unfold ret in Hb.
  split; [|now rewrite (output_of_body _ _ _ _ _ _ Hacq Hb Hrel)].
  unfold ready in Hready. rewrite Hfirst in Hready.
  unfold actions_when in Hact. rewrite Hready in Hact.
  assert (Hin3 : In (SetProp "jetson_clocks" (PBool true)) (trace s3)).
  { unfold management_actions in Hact.
    pose proof (enable_clocks_action_assigns [] s2) as Hin.
    destruct (enable_clocks_action_returns [] s2) as (k & msg & sa & Hr & _).
    rewrite Hr in Hin. simpl in Hin.
    rewrite (bind_run _ _ _ _ _ Hr) in Hact.
    assert (Hk : logs (fun _ => True)
              (match set_nvpmodel with
               | Some target =>
                   set_nvpmodel_action target (dict_set k (PStr msg) [])
               | None => ret (dict_set k (PStr msg) [])
               end)).
    { destruct set_nvpmodel; [|apply logs_ret].
      apply logs_set_nvpmodel_action; auto. }
    pose proof (logs_grows _ _ Hk sa _ Hin) as Hg.
    now rewrite Hact in Hg. }
  assert (Hin4 : In (SetProp "jetson_clocks" (PBool true)) (trace s)).
  { pose proof (invoke_trace IsOk s3) as Ht. rewrite Hcheck2 in Ht.
    simpl in Ht. rewrite Ht. apply in_or_app. now left. }
  unfold calls, get_jetson_info, try_except, with_jtop.
  unfold acquired in Hacq.
  destruct (invoke Enter (start w)) as [[x|e] s1'] eqn:Henter;
    inversion Hacq; subst s1'.
  rewrite Hb.
  pose proof (invoke_trace Exit s) as Hx.
  destruct (invoke Exit s) as [[y|e] sx]; simpl in Hx |- *;
    rewrite Hx; apply in_or_app; now left.
Qed.

(** ** Mappings with distinct keys *)

Lemma res_bind_ok {A B : Type} (r : res A) (k : A -> res B) (b : B) :
  res_bind r k = Ok b -> exists a, r = Ok a /\ k a = Ok b.
Proof. destruct r as [a|e]; simpl; [eauto|discriminate]. Qed.

Lemma distinct_in_get (d : dict) (k : string) (v : pyval) :
  distinct_keys d = true -> In (k, v) d -> dict_get k d = Some v.
Proof.
  induction d as [|[k' v'] rest IH]; intros Hd Hin; [contradiction|].
  apply distinct_keys_cons in Hd. destruct Hd as [Hk Hd].
  simpl. destruct Hin as [Hin|Hin].
  - inversion Hin; subst. now rewrite String.eqb_refl.
  - destruct (String.eqb k k') eqn:E.
    + apply String.eqb_eq in E. subst k'.
      pose proof (IH Hd Hin) as G. unfold has_key in Hk.
      rewrite G in Hk. discriminate.
    + now apply IH.
Qed.

Lemma has_key_filter (p : string * pyval -> bool) (d : dict) (k : string) :
  has_key k (filter p d) = true -> has_key k d = true.
Proof.
  rewrite !has_key_in_keys. unfold dict_keys. rewrite !in_map_iff.
  intros ((k', v) & Hk & Hin). apply filter_In in Hin.
  exists (k', v). now split.
Qed.

Lemma distinct_filter (p : string * pyval -> bool) (d : dict) :
  distinct_keys d = true -> distinct_keys (filter p d) = true.
Proof.
  induction d as [|[k v] rest IH]; intros Hd; [reflexivity|].
  apply distinct_keys_cons in Hd. destruct Hd as [Hk Hd].
  simpl. destruct (p (k, v)); [|now apply IH].
  simpl. rewrite (IH Hd), andb_true_r.
  destruct (has_key k (filter p rest)) eqn:E; [|reflexivity].
  apply has_key_filter in E. rewrite Hk in E. discriminate.
Qed.

Lemma dict_get_map_entries (f : string * pyval -> string * pyval) (d : dict)
    (k : string) :
  (forall e, fst (f e) = fst e) ->
  dict_get k (map f d) = option_map (fun v => snd (f (k, v))) (dict_get k d).
Proof.
  intros Hf. induction d as [|[k' v'] rest IH]; [reflexivity|].
  simpl. specialize (Hf (k', v')) as Hfe.
  destruct (f (k', v')) as [k2 v2] eqn:E. simpl in Hfe. subst k2.
  destruct (String.eqb k k') eqn:Ek.
  - apply String.eqb_eq in Ek. subst k'. simpl. now rewrite E.
  - exact IH.
Qed.

(** ** Temperature *)

Lemma temperature_items_sensors_ok (items acc out : dict) :
  temperature_items items acc = Ok out -> forallb sensor_ok items = true.
Proof.
  revert acc. induction items as [|[k v] rest IH]; intros acc H;
    [reflexivity|].
  cbn [temperature_items] in H.
  apply res_bind_ok in H. destruct H as (online & Hon & H).
  apply py_get_ok_inv in Hon. destruct Hon as (sensor & -> & ->).
  cbn [forallb]. unfold sensor_ok at 1, sensor_online. cbn [snd as_mapping].
  destruct (truthy (get_or sensor "online" (PBool false))).
  - apply res_bind_ok in H. destruct H as (temp & Ht & H).
    apply res_bind_ok in H. destruct H as (r & Hr & H).
    cbn [py_getitem_str] in Ht.
    destruct (dict_get "temp" sensor) as [x|]; [|discriminate].
    inversion Ht; subst temp.
    assert (Hnum : is_number x = true) by (destruct x; try discriminate; auto).
    rewrite Hnum. simpl. now apply (IH _ H).
  - simpl. now apply (IH _ H).
Qed.

(** X8.  For a temperature report with distinct sensor names, the
    temperature category holds exactly the sensors flagged online, in the
    order of the report, each with its reading rounded; a sensor that is
    not flagged online is left out whatever its reading is (missing and
    ill-typed readings included). *)
Theorem temperature_keeps_online_sensors (sensors out : dict) :
  distinct_keys sensors = true ->
  temperature_category (PDict sensors) = Ok (PDict out) ->
  dict_keys out = map fst (filter sensor_online sensors) /\
  (forall k v,
      In (k, v) sensors -> sensor_online (k, v) = false ->
      dict_get k out = None) /\
  (forall k sensor x,
      In (k, PDict sensor) sensors ->
      sensor_online (k, PDict sensor) = true ->
      dict_get "temp" sensor = Some x ->
      dict_get k out = Some (rounded x)).
Proof.
  intros Hd H. unfold temperature_category in H. cbn [py_items res_bind] in H.
  apply res_bind_ok in H. destruct H as (built & Hb & H).
  inversion H; subst built.
  pose proof (temperature_items_sensors_ok _ _ _ Hb) as Hok.
  rewrite (temperature_items_expected sensors [] Hd Hok (fresh_for_nil _))
    in Hb.
  inversion Hb as [Hout]. cbn [app]. split; [|split].
  - unfold dict_keys. rewrite map_map. reflexivity.
  - intros k v Hin Hoff.
    rewrite dict_get_map_entries by reflexivity.
    destruct (dict_get k (filter sensor_online sensors)) as [v'|] eqn:E;
      [|reflexivity].
    assert (Hin' : In (k, v') (filter sensor_online sensors)).
    { clear - E. induction (filter sensor_online sensors) as [|[k0 v0] l IH];
        [discriminate|].
      simpl in E. destruct (String.eqb k k0) eqn:Ek.
      - apply String.eqb_eq in Ek. inversion E; subst. now left.
      - right. now apply IH. }
    apply filter_In in Hin'. destruct Hin' as [Hin' Hon].
    pose proof (distinct_in_get _ _ _ Hd Hin) as G1.
    pose proof (distinct_in_get _ _ _ Hd Hin') as G2.
    rewrite G1 in G2. inversion G2; subst v'.
    rewrite Hoff in Hon. discriminate.
  - intros k sensor x Hin Hon Hx.
    rewrite dict_get_map_entries by reflexivity.
    assert (Hin' : In (k, PDict sensor) (filter sensor_online sensors)).
    { apply filter_In. now split. }
    rewrite (distinct_in_get _ _ _ (distinct_filter _ _ Hd) Hin').
    simpl. unfold get_or. now rewrite Hx.
Qed.

(** ** Fan *)

(** X9.  The fan speed of a fan mapping: 0 when no speed is reported, the
    first element when the speed is a non-empty list, and otherwise the
    reported value itself, passed through unchecked whatever its type;
    only the empty list makes the extraction raise. *)
Theorem fan_speed_by_shape (fan : dict) :
  (dict_get "speed" fan = None -> fan_speed (PDict fan) = Ok (PInt 0)) /\
  (forall first rest,
      dict_get "speed" fan = Some (PList (first :: rest)) ->
      fan_speed (PDict fan) = Ok first) /\
  (forall v,
      dict_get "speed" fan = Some v -> is_list v = false ->
      fan_speed (PDict fan) = Ok v) /\
  (forall e,
      fan_speed (PDict fan) = Raise e ->
      dict_get "speed" fan = Some (PList [])).
Proof.
  unfold fan_speed. cbn [py_get res_bind]. unfold get_or.
  repeat split.
  - now intros ->.
  - now intros first rest ->.
  - intros v -> Hv. now rewrite Hv.
  - intros e. destruct (dict_get "speed" fan) as [[| | | | |[|x xs]| |]|];
      simpl; try discriminate. reflexivity.
Qed.

(** X10.  The fan profile of a fan mapping falls back in three steps: the
    [profile] field unless it is missing or the string "Unknown"; else the
    [governor] field when there is one, whatever it holds ("Unknown"
    included); else the [control] field; else "Unknown".  The extraction
    never raises. *)
Theorem fan_profile_fallback (fan : dict) :
  (forall p,
      dict_get "profile" fan = Some p -> eq_str p "Unknown" = false ->
      fan_profile (PDict fan) = Ok p) /\
  (forall g,
      eq_str (get_or fan "profile" (PStr "Unknown")) "Unknown" = true ->
      dict_get "governor" fan = Some g ->
      fan_profile (PDict fan) = Ok g) /\
  (eq_str (get_or fan "profile" (PStr "Unknown")) "Unknown" = true ->
   dict_get "governor" fan = None ->
   fan_profile (PDict fan) = Ok (get_or fan "control" (PStr "Unknown"))) /\
  (exists v, fan_profile (PDict fan) = Ok v).
Proof.
  unfold fan_profile. cbn [py_get res_bind].
  repeat split.
  - intros p Hp Hne.
    assert (E : get_or fan "profile" (PStr "Unknown") = p)
      by (unfold get_or; now rewrite Hp).
    now rewrite E, Hne.
  - intros g Hu Hg. rewrite Hu.
    assert (E : forall dflt, get_or fan "governor" dflt = g)
      by (intros dflt; unfold get_or; now rewrite Hg).
    now rewrite E.
  - intros Hu Hg. rewrite Hu.
    assert (E : forall dflt, get_or fan "governor" dflt = dflt)
      by (intros dflt; unfold get_or; now rewrite Hg).
    now rewrite E.
  - destruct (eq_str (get_or fan "profile" (PStr "Unknown")) "Unknown");
      eauto.
Qed.

(** ** CPU *)

Lemma count_online_bounds (cores : list pyval) (n : Z) :
  count_online cores = Ok n -> 0 <= n <= Z.of_nat (List.length cores).
Proof.
  revert n. induction cores as [|c rest IH]; intros n H.
  - inversion H. simpl. lia.
  - cbn [count_online] in H.
    apply res_bind_ok in H. destruct H as (online & _ & H).
    apply res_bind_ok in H. destruct H as (m & Hm & H).
    specialize (IH m Hm). cbn [List.length]. rewrite Nat2Z.inj_succ.
    destruct (truthy online);
      [assert (E : n = 1 + m) by congruence
      |assert (E : n = m) by congruence]; lia.
Qed.

Lemma count_online_no_mapping (cores : list pyval) (n : Z) :
  count_online cores = Ok n ->
  forallb is_mapping cores = true.
Proof.
  revert n. induction cores as [|c rest IH]; intros n H; [reflexivity|].
  cbn [count_online] in H.
  apply res_bind_ok in H. destruct H as (online & Hon & H).
  apply res_bind_ok in H. destruct H as (m & Hm & _).
  apply py_get_ok_inv in Hon. destruct Hon as (d & -> & _).
  simpl. now apply (IH m).
Qed.

(** X11.  Whenever the CPU category is produced, its [online_cores] field
    is an integer between 0 and the number of per-core entries the backend
    reported. *)
Theorem online_cores_is_bounded (cpu out : dict) :
  cpu_category (PDict cpu) = Ok (PDict out) ->
  exists n,
    dict_get "online_cores" out = Some (PInt n) /\
    0 <= n <= Z.of_nat (List.length (cores_of cpu)).
Proof.
  unfold cpu_category. intros H.
  apply res_bind_ok in H. destruct H as (tu & _ & H).
  apply res_bind_ok in H. destruct H as (ts & _ & H).
  apply res_bind_ok in H. destruct H as (ti & _ & H).
  cbn [py_get res_bind] in H.
  apply res_bind_ok in H. destruct H as (cores & Hit & H).
  apply res_bind_ok in H. destruct H as (n & Hn & H).
  inversion H; subst out. exists n. split; [reflexivity|].
  pose proof (count_online_bounds _ _ Hn) as Hb.
  pose proof (count_online_no_mapping _ _ Hn) as Hmap.
  unfold cores_of.
  destruct (get_or cpu "cpu" (PList [])) as [| | | |str|l|kvs|];
    simpl in Hit; try discriminate; inversion Hit; subst cores.
  - destruct str; [simpl in Hb |- *; lia|discriminate].
  - exact Hb.
  - destruct kvs; [simpl in Hb |- *; lia|discriminate].
Qed.

(** ** Engines *)

Lemma engine_entries_shape (items : dict) (n : string) (info : pyval) :
  In (n, info) (map expected_engine items) ->
  exists online cur, info = PDict [("online", online); ("cur", cur)].
Proof.
  intros H. apply in_map_iff in H. destruct H as (e & He & _).
  unfold expected_engine in He. inversion He. eauto.
Qed.

(** X12.  For an engine report of well-formed mappings, the engines
    category never raises and keeps every reported group, in order, and
    within each group every reported engine, in order; each engine entry
    is reduced to exactly two fields, [online] and [cur]. *)
Theorem engines_are_passed_through (v : pyval) :
  engines_ok v = true ->
  exists out,
    engines_category v = Ok (PDict out) /\
    dict_keys out = dict_keys (as_mapping v) /\
    (forall g items,
        In (g, items) (as_mapping v) ->
        exists its,
          dict_get g out = Some (PDict its) /\
          dict_keys its = dict_keys (as_mapping items) /\
          forall n info,
            In (n, info) its ->
            exists online cur,
              info = PDict [("online", online); ("cur", cur)]).
Proof.
  intros Hok. pose proof (engines_category_expected v Hok) as H.
  destruct v as [| | | | | |engines|]; try discriminate.
  cbn [as_mapping] in *. unfold expected_engines in H.
  exists (map expected_group engines). split; [exact H|]. split.
  - unfold dict_keys. rewrite map_map. reflexivity.
  - intros g items Hin. cbn [engines_ok] in Hok.
    apply andb_true_iff in Hok. destruct Hok as [Hd _].
    exists (map expected_engine (as_mapping items)). split; [|split].
    + rewrite dict_get_map_entries by reflexivity.
      now rewrite (distinct_in_get _ _ _ Hd Hin).
    + unfold dict_keys. rewrite map_map. reflexivity.
    + intros n info. apply engine_entries_shape.
Qed.

(** ** Readiness checks and reads, in order *)

Lemma filter_none {A : Type} (f : A -> bool) (l : list A) :
  Forall (fun x => f x = false) l -> filter f l = [].
Proof.
  induction 1 as [|x l Hx _ IH]; [reflexivity|]. simpl. now rewrite Hx.
Qed.

Lemma probes_quiet {A : Type} (full : A -> Prop) (m : M A) :
  logs (fun c => is_probe c = false) m -> probes_of [] full m.
Proof.
  intros H s. destruct (H s) as (cs & E & F).
  exists [], []. rewrite E, filter_app, (filter_none _ _ F).
  repeat split; reflexivity.
Qed.

Lemma probes_ret {A : Type} (full : A -> Prop) (a : A) :
  probes_of [] full (ret a).
Proof. intros s. exists [], []. simpl. now rewrite app_nil_r. Qed.

Lemma probes_ret_short {A : Type} (ps : list call) (full : A -> Prop) (a : A) :
  ~ full a -> probes_of ps full (ret a).
Proof.
  intros Hn s. exists [], ps. simpl. rewrite app_nil_r.
  repeat split. intros b Hb Hf. inversion Hb; subst. contradiction.
Qed.

Lemma probes_lift {A : Type} (full : A -> Prop) (r : res A) :
  probes_of [] full (lift r).
Proof. intros s. exists [], []. simpl. now rewrite app_nil_r. Qed.

Lemma probes_invoke (full : pyval -> Prop) (c : call) :
  probes_of (filter is_probe [c]) full (invoke c).
Proof.
  intros s. exists (filter is_probe [c]), [].
  rewrite invoke_trace, filter_app, app_nil_r. repeat split; reflexivity.
Qed.

Lemma probes_bind {A B : Type} (p1 p2 ps : list call) (full : B -> Prop)
    (m : M A) (k : A -> M B) :
  probes_of p1 (fun _ => True) m ->
  (forall a, probes_of p2 full (k a)) ->
  ps = (p1 ++ p2)%list ->
  probes_of ps full (bind m k).
Proof.
  intros Hm Hk -> s. unfold bind.
  destruct (Hm s) as (d1 & r1 & E1 & P1 & F1).
  destruct (m s) as [[a|e] s1]; simpl in E1, F1.
  - rewrite (F1 a eq_refl I), app_nil_r in P1. subst p1.
    destruct (Hk a s1) as (d2 & r2 & E2 & P2 & F2).
    exists (d1 ++ d2)%list, r2. rewrite E2, E1, P2, !app_assoc.
    repeat split. exact F2.
  - exists d1, (r1 ++ p2)%list. simpl. rewrite E1, P1, !app_assoc.
    repeat split. discriminate.
Qed.

Lemma probes_read_category (prop key : string) (f : pyval -> res pyval)
    (d : dict) (full : dict -> Prop) :
  probes_of (filter is_probe [GetProp prop]) full (read_category prop key f d).
Proof.
  unfold read_category.
  eapply probes_bind; [apply probes_invoke| |symmetry; apply app_nil_r].
  intros x.
  eapply probes_bind; [apply probes_lift|intros v; apply probes_ret|reflexivity].
Qed.

Lemma probes_read_board (d : dict) (full : dict -> Prop) :
  probes_of [GetProp "board"] full (read_board d).
Proof.
  unfold read_board.
  eapply probes_bind; [apply probes_invoke| |reflexivity]. intros board.
  eapply probes_bind; [apply probes_lift| |reflexivity]. intros info.
  eapply probes_bind; [apply probes_lift|intros v; apply probes_ret|reflexivity].
Qed.

Lemma probes_read_memory (d : dict) (full : dict -> Prop) :
  probes_of [GetProp "memory"] full (read_memory d).
Proof.
  unfold read_memory.
  eapply probes_bind; [apply probes_invoke| |reflexivity]. intros memory.
  eapply probes_bind; [apply probes_lift| |reflexivity]. intros ram.
  eapply probes_bind; [apply probes_lift|intros v; apply probes_ret|reflexivity].
Qed.

Lemma probes_read_nvpmodel (d : dict) (full : dict -> Prop) :
  probes_of [] full (read_nvpmodel d).
Proof.
  apply probes_quiet. unfold read_nvpmodel, nvpmodel_field.
  repeat logs_step; reflexivity.
Qed.

Lemma probes_read_jetson_clocks (d : dict) (full : dict -> Prop) :
  probes_of [] full (read_jetson_clocks d).
Proof.
  apply probes_quiet. unfold read_jetson_clocks.
  repeat logs_step; reflexivity.
Qed.

Lemma probes_collect (d : dict) (full : dict -> Prop) :
  probes_of (map GetProp single_reads) full (collect d).
Proof.
  unfold collect, category_reads. cbn [run_reads].
  eapply probes_bind; [apply probes_read_board| |reflexivity]. intros d1.
  eapply probes_bind; [apply probes_read_nvpmodel| |reflexivity]. intros d2.
  eapply probes_bind; [apply probes_read_jetson_clocks| |reflexivity].
  intros d3.
  eapply probes_bind; [apply probes_read_category| |reflexivity]. intros d4.
  eapply probes_bind; [apply probes_read_category| |reflexivity]. intros d5.
  eapply probes_bind; [apply probes_read_category| |reflexivity]. intros d6.
  eapply probes_bind; [apply probes_read_memory| |reflexivity]. intros d7.
  eapply probes_bind; [apply probes_read_category| |reflexivity]. intros d8.
  eapply probes_bind; [apply probes_read_category| |reflexivity]. intros d9.
  eapply probes_bind; [apply probes_read_category| |reflexivity]. intros d10.
  eapply probes_bind;
    [apply probes_read_category|intros d11; apply probes_ret|reflexivity].
Qed.

Lemma probes_with_body (enable_clocks : bool) (set_nvpmodel : option string) :
  probes_of probes no_error (with_body enable_clocks set_nvpmodel).
Proof.
  unfold with_body. cbv zeta.
  eapply probes_bind; [apply probes_invoke| |reflexivity]. intros ok1.
  eapply (probes_bind [] (IsOk :: map GetProp single_reads));
    [| |reflexivity].
  { apply probes_quiet. unfold actions_when. apply logs_if; [|apply logs_ret].
    apply logs_management_actions.
    - intros _. split; [reflexivity|]. split; [reflexivity|].
      intros obj. reflexivity.
    - intros t _. split; reflexivity. }
  intros data.
  eapply probes_bind; [apply probes_invoke| |reflexivity]. intros ok2.
  destruct (truthy ok2).
  - eapply probes_bind;
      [apply probes_collect|intros out; apply probes_ret|].
    symmetry. apply app_nil_r.
  - apply probes_ret_short. intros (out & E & Hn).
    inversion E; subst out. discriminate.
Qed.

(** X13.  On every run the readiness checks and the reads of the
    properties other than the power-model and clocks-control objects are
    made in one fixed order, each at most once: the two readiness checks,
    then board, cpu, gpu, engine, memory, temperature, fan, processes and
    disk.  A run may stop early, but it never skips, repeats or reorders;
    a run that returns a snapshot has made every one of them, so the
    single read of [memory] serves both [ram] and [swap] and the single
    read of [board] both [board] and [libraries]. *)
Theorem properties_are_read_once_in_order (enable_clocks : bool)
    (set_nvpmodel : option string) (w : World) :
  exists rest,
    probes
      = (filter is_probe (calls enable_clocks set_nvpmodel w) ++ rest)%list /\
    (forall out,
        output enable_clocks set_nvpmodel w = Ok (PDict out) ->
        dict_get "error" out = None ->
        rest = []).
Proof.
  unfold calls, output, get_jetson_info, try_except, with_jtop.
  pose proof (invoke_trace Enter (start w)) as Ht.
  destruct (invoke Enter (start w)) as [[x|e] s1]; simpl in Ht.
  - destruct (probes_with_body enable_clocks set_nvpmodel s1)
      as (made & rest & E & P & F).
    destruct (with_body enable_clocks set_nvpmodel s1) as [r s2].
    simpl in E, F. rewrite Ht in E. simpl in E.
    pose proof (invoke_trace Exit s2) as Hx.
    assert (Hcalls : forall s3, trace s3 = (trace s2 ++ [Exit])%list ->
                                filter is_probe (trace s3) = made).
    { intros s3 H3. rewrite H3, filter_app, E. simpl. apply app_nil_r. }
    exists rest.
    destruct (invoke Exit s2) as [[y|e] s3]; simpl in Hx.
    + destruct r as [v|e]; simpl; rewrite (Hcalls _ Hx);
        (split; [exact P|]); intros out Ho Hn.
      * apply (F v eq_refl). exists out. split; [congruence|exact Hn].
      * inversion Ho as [Ho']. destruct e; inversion Ho'; subst out;
          discriminate.
    + simpl. rewrite (Hcalls _ Hx). split; [exact P|]. intros out Ho Hn.
      inversion Ho as [Ho']. destruct e; inversion Ho'; subst out;
        discriminate.
  - exists probes. simpl. rewrite Ht. simpl. split; [reflexivity|].
    intros out Ho Hn. inversion Ho as [Ho'].
    destruct e; inversion Ho'; subst out; discriminate.
Qed.


(** ** The power-model object is read again after its test *)

(** X14.  The power-model object is read once for the test of line 52 and
    once more for the attribute: when the first read gives a true object
    and the second a value without a [name] attribute (the mode went away
    in between), the run ends in the error record of that attribute
    error, an "Unexpected error", and not in a snapshot with the default
    name. *)
Theorem power_mode_is_read_again_after_the_test (enable_clocks : bool)
    (set_nvpmodel : option string) (w : World) d s t s1 v s2 e :
  arrive enable_clocks set_nvpmodel w 1 = Some (d, s) ->
  invoke (GetProp "nvpmodel") s = (Ok t, s1) ->
  truthy t = true ->
  invoke (GetProp "nvpmodel") s1 = (Ok v, s2) ->
  py_getattr v "name" = Raise e ->
  released s2 = true ->
  e = OtherException
        ("'" ++ type_name v ++ "' object has no attribute 'name'") /\
  output enable_clocks set_nvpmodel w
    = Ok (PDict [("error",
                  PStr ("Unexpected error: '" ++ type_name v
                        ++ "' object has no attribute 'name'"))]).
Proof.
  intros Harr H1 Ht H2 Hattr Hrel.
  assert (He : e = OtherException
                     ("'" ++ type_name v ++ "' object has no attribute 'name'")).
  { unfold py_getattr, attribute_error in Hattr.
    destruct v as [| | | | | | |cls tr attrs]; try (now inversion Hattr).
    destruct (dict_get "name" attrs); [discriminate|now inversion Hattr]. }
  split; [exact He|].
  assert (Hread : read_nvpmodel d s = (Raise e, s2)).
  { unfold read_nvpmodel. apply bind_abort.
    unfold nvpmodel_field. rewrite (bind_run _ _ _ _ _ H1), Ht.
    rewrite (bind_run _ _ _ _ _ H2). unfold lift. now rewrite Hattr. }
  rewrite (read_raises_output enable_clocks set_nvpmodel w 1 read_nvpmodel
             d s e s2 Harr eq_refl Hread Hrel).
  subst e. reflexivity.
Qed.

(** ** Categories made of lookups only *)

Lemma res_bind_raise {A B : Type} (r : res A) (k : A -> res B) (e : exn) :
  res_bind r k = Raise e -> r = Raise e \/ exists a, r = Ok a /\ k a = Raise e.
Proof.
  destruct r as [a|e']; simpl; intros H; [eauto|left; now inversion H].
Qed.

Lemma py_get_raises (v : pyval) (k : string) (dflt : pyval) (e : exn) :
  py_get v k dflt = Raise e -> get_missing e.
Proof.
  intros H. exists v. unfold py_get, attribute_error in H.
  destruct v; try discriminate; inversion H; split; reflexivity.
Qed.

Lemma two_lookups_raise (v : pyval) (group field : string) (dflt : pyval)
    (e : exn) :
  res_bind (py_get v group (PDict [])) (fun sub => py_get sub field dflt)
    = Raise e ->
  get_missing e.
Proof.
  intros H. apply res_bind_raise in H.
  destruct H as [H|(sub & _ & H)]; eapply py_get_raises; exact H.
Qed.

Lemma two_lookups_return (v : pyval) (group field : string) (dflt x : pyval) :
  res_bind (py_get v group (PDict [])) (fun sub => py_get sub field dflt)
    = Ok x ->
  exists d, v = PDict d /\ absent_or_mapping d group = true.
Proof.
  destruct v as [| | | | | |d|]; try discriminate. simpl.
  unfold get_or.
  destruct (dict_get group d) as [[| | | | | |sub|]|] eqn:E; simpl;
    try discriminate; intros _; exists d; (split; [reflexivity|]);
    unfold absent_or_mapping; now rewrite E.
Qed.

Ltac lookups_raise H :=
  repeat (apply res_bind_raise in H;
          destruct H as [H|(? & _ & H)];
          [first [eapply two_lookups_raise; exact H
                 |eapply py_get_raises; exact H]|]);
  try discriminate H.

(** X15.  The categories made of lookups only (board, libraries, gpu,
    ram, swap, disk) are produced exactly when the value read is a
    mapping whose groups ([hardware]; [status] and [freq]; [RAM] and
    [SWAP]) are absent or mappings, and then every field is the reported
    value or its default.  In every other case the category raises the
    attribute error of a [.get] on a value that is not a mapping; nothing
    else is ever raised, whatever the types of the fields themselves. *)
Theorem lookup_categories_fail_only_on_non_mappings (v : pyval) :
  (forall x,
      board_category v = Ok x <->
      board_ok v = true /\ x = expected_board (as_mapping v)) /\
  (forall x,
      libraries_category v = Ok x <->
      is_mapping v = true /\ x = expected_libraries (as_mapping v)) /\
  (forall x,
      gpu_category v = Ok x <->
      gpu_ok v = true /\ x = expected_gpu (as_mapping v)) /\
  (forall x y,
      ram_category v = Ok x /\ swap_category v = Ok y <->
      memory_ok v = true /\
      x = expected_ram (as_mapping v) /\ y = expected_swap (as_mapping v)) /\
  (forall x,
      disk_category v = Ok x <->
      is_mapping v = true /\ x = expected_disk (as_mapping v)) /\
  (forall e,
      In (Raise e)
         [board_category v; libraries_category v; gpu_category v;
          ram_category v; swap_category v; disk_category v] ->
      get_missing e).
Proof.
  split; [|split; [|split; [|split; [|split]]]].
  - intros x. split.
    + intros H. assert (Hok : board_ok v = true).
      { unfold board_category in H. apply res_bind_ok in H.
        destruct H as (m & Hm & _). apply two_lookups_return in Hm.
        destruct Hm as (d & -> & Hm). exact Hm. }
      rewrite (board_category_expected v Hok) in H.
      split; [exact Hok|congruence].
    + intros [Hok ->]. now apply board_category_expected.
  - intros x. split.
    + intros H. destruct v as [| | | | | |d|]; try discriminate.
      split; [reflexivity|]. simpl in H. inversion H. reflexivity.
    + intros [Hok ->]. destruct v as [| | | | | |d|]; try discriminate.
      reflexivity.
  - intros x. split.
    + intros H. assert (Hok : gpu_ok v = true).
      { unfold gpu_category in H. apply res_bind_ok in H.
        destruct H as (a & Ha & H). apply res_bind_ok in H.
        destruct H as (b & Hb & _).
        apply two_lookups_return in Ha, Hb.
        destruct Ha as (d & -> & Ha). destruct Hb as (d' & Hd & Hb).
        inversion Hd; subst d'. simpl. now rewrite Ha, Hb. }
      rewrite (gpu_category_expected v Hok) in H.
      split; [exact Hok|congruence].
    + intros [Hok ->]. now apply gpu_category_expected.
  - intros x y. split.
    + intros [Hx Hy]. assert (Hok : memory_ok v = true).
      { unfold ram_category in Hx. apply res_bind_ok in Hx.
        destruct Hx as (a & Ha & _).
        unfold swap_category in Hy. apply res_bind_ok in Hy.
        destruct Hy as (b & Hb & _).
        apply two_lookups_return in Ha, Hb.
        destruct Ha as (d & -> & Ha). destruct Hb as (d' & Hd & Hb).
        inversion Hd; subst d'. simpl. now rewrite Ha, Hb. }
      rewrite (ram_category_expected v Hok) in Hx.
      rewrite (swap_category_expected v Hok) in Hy.
      split; [exact Hok|]. split; congruence.
    + intros (Hok & -> & ->).
      split; [now apply ram_category_expected
             |now apply swap_category_expected].
  - intros x. split.
    + intros H. assert (Hok : is_mapping v = true).
      { destruct v; try discriminate. reflexivity. }
      rewrite (disk_category_expected v Hok) in H.
      split; [exact Hok|congruence].
    + intros [Hok ->]. now apply disk_category_expected.
  - intros e Hin. simpl in Hin.
    destruct Hin as [H|[H|[H|[H|[H|[H|[]]]]]]];
      [unfold board_category, hardware_field in H
      |unfold libraries_category in H
      |unfold gpu_category, nested_field in H
      |unfold ram_category, nested_field in H
      |unfold swap_category, nested_field in H
      |unfold disk_category in H].
    + lookups_raise H.
    + eapply py_get_raises; exact H.
    + lookups_raise H.
    + lookups_raise H.
    + lookups_raise H.
    + lookups_raise H.
Qed.

(** ** The conversion of the power-model argument *)

Lemma letter_is_no_part_of_a_number (c : ascii) :
  is_letter c = true ->
  is_space c = false /\ digit_of c = None /\
  Ascii.eqb c "_" = false /\ Ascii.eqb c "-" = false /\
  Ascii.eqb c "+" = false.
Proof.
  destruct c as [[] [] [] [] [] [] [] []]; vm_compute; intros H;
    try discriminate H; repeat split.
Qed.

Lemma lstrip_keeps (c : ascii) (cs : list ascii) :
  is_space c = false -> In c cs -> In c (lstrip cs).
Proof.
  intros Hc. induction cs as [|a rest IH]; intros Hin; [contradiction|].
  cbn [lstrip]. destruct (is_space a) eqn:Ea; [|exact Hin].
  destruct Hin as [->|Hin]; [congruence|now apply IH].
Qed.

Lemma strip_keeps (c : ascii) (cs : list ascii) :
  is_space c = false -> In c cs -> In c (strip cs).
Proof.
  intros Hc Hin. unfold strip. rewrite <- in_rev.
  apply lstrip_keeps; [exact Hc|]. rewrite <- in_rev.
  now apply lstrip_keeps.
Qed.

Lemma digits_value_rejects (c : ascii) (cs : list ascii) :
  digit_of c = None -> Ascii.eqb c "_" = false -> In c cs ->
  forall acc after_digit, digits_value cs acc after_digit = None.
Proof.
  intros Hd Hu. induction cs as [|a rest IH]; intros Hin acc b;
    [contradiction|].
  cbn [digits_value]. destruct Hin as [->|Hin].
  - now rewrite Hd, Hu.
  - destruct (digit_of a); [now apply IH|].
    destruct (Ascii.eqb a "_" && b)%bool; [now apply IH|reflexivity].
Qed.

Lemma int_digits_rejects (c : ascii) (cs : list ascii) :
  digit_of c = None -> Ascii.eqb c "_" = false -> In c cs ->
  int_digits cs = None.
Proof.
  intros Hd Hu Hin. unfold int_digits.
  destruct (digit_count cs <=? max_str_digits); [|reflexivity].
  now apply (digits_value_rejects c cs Hd Hu Hin).
Qed.

(** X16.  A power-model argument that contains an ASCII letter never
    converts to an integer: the value assigned is the argument itself,
    unchanged (surrounding white space included), and the confirmation
    message repeats it. *)
Theorem names_with_a_letter_are_kept (set_nvpmodel : string) (c : ascii) :
  In c (list_ascii_of_string set_nvpmodel) ->
  is_letter c = true ->
  convert_nvpmodel set_nvpmodel = ValStr set_nvpmodel /\
  nvp_pyval (convert_nvpmodel set_nvpmodel) = PStr set_nvpmodel /\
  nvp_str (convert_nvpmodel set_nvpmodel) = set_nvpmodel.
Proof.
  intros Hin Hl.
  destruct (letter_is_no_part_of_a_number c Hl) as (Hs & Hd & Hu & Hm & Hp).
  assert (Hnone : py_int set_nvpmodel = None).
  { unfold py_int. pose proof (strip_keeps c _ Hs Hin) as Hk.
    destruct (strip (list_ascii_of_string set_nvpmodel)) as [|a rest];
      [reflexivity|].
    assert (Hrest : forall x, Ascii.eqb a x = true -> Ascii.eqb c x = false ->
                              In c rest).
    { intros x Hax Hcx. apply Ascii.eqb_eq in Hax. subst a.
      destruct Hk as [<-|Hk]; [|exact Hk].
      rewrite Ascii.eqb_refl in Hcx. discriminate. }
    destruct (Ascii.eqb a "-") eqn:Em.
    - now rewrite (int_digits_rejects c rest Hd Hu (Hrest _ Em Hm)).
    - destruct (Ascii.eqb a "+") eqn:Ep.
      + now apply (int_digits_rejects c rest Hd Hu (Hrest _ Ep Hp)).
      + now apply (int_digits_rejects c (a :: rest) Hd Hu Hk). }
  unfold convert_nvpmodel. rewrite Hnone. repeat split.
Qed.


Lemma digits_value_digit (c : ascii) (k : Z) (rest : list ascii) (acc : Z)
    (after_digit : bool) :
  digit_of c = Some k ->
  digits_value (c :: rest) acc after_digit
    = digits_value rest (10 * acc + k) true.
Proof. intros H. cbn [digits_value]. now rewrite H. Qed.

Lemma digits_of_uint_acc (d : Decimal.uint) (acc : positive) :
  digits_value (list_ascii_of_string (NilEmpty.string_of_uint d))
    (Z.pos acc) true
    = Some (Z.pos (Pos.of_uint_acc d acc)).
Proof.
  revert acc. induction d as [|d IH|d IH|d IH|d IH|d IH|d IH|d IH|d IH|d IH|d IH];
    intros acc;
    cbn [NilEmpty.string_of_uint list_ascii_of_string Pos.of_uint_acc];
    [reflexivity
    |rewrite (digits_value_digit _ 0) by reflexivity
    |rewrite (digits_value_digit _ 1) by reflexivity
    |rewrite (digits_value_digit _ 2) by reflexivity
    |rewrite (digits_value_digit _ 3) by reflexivity
    |rewrite (digits_value_digit _ 4) by reflexivity
    |rewrite (digits_value_digit _ 5) by reflexivity
    |rewrite (digits_value_digit _ 6) by reflexivity
    |rewrite (digits_value_digit _ 7) by reflexivity
    |rewrite (digits_value_digit _ 8) by reflexivity
    |rewrite (digits_value_digit _ 9) by reflexivity];
    match goal with
    | |- digits_value _ ?z true = Some (Z.pos (Pos.of_uint_acc _ ?p)) =>
        replace z with (Z.pos p) by lia
    end;
    apply IH.
Qed.

Lemma digits_of_uint (d : Decimal.uint) (after_digit : bool) :
  d <> Decimal.Nil \/ after_digit = true ->
  digits_value (list_ascii_of_string (NilEmpty.string_of_uint d))
    0 after_digit
    = Some (Z.of_N (Pos.of_uint d)).
Proof.
  revert after_digit.
  induction d as [|d IH|d IH|d IH|d IH|d IH|d IH|d IH|d IH|d IH|d IH];
    intros b Hb;
    cbn [NilEmpty.string_of_uint list_ascii_of_string Pos.of_uint].
  - destruct Hb as [Hb| ->]; [contradiction|reflexivity].
  - rewrite (digits_value_digit _ 0) by reflexivity.
    apply IH. now right.
  - rewrite (digits_value_digit _ 1) by reflexivity.
    apply (digits_of_uint_acc d 1).
  - rewrite (digits_value_digit _ 2) by reflexivity.
    apply (digits_of_uint_acc d 2).
  - rewrite (digits_value_digit _ 3) by reflexivity.
    apply (digits_of_uint_acc d 3).
  - rewrite (digits_value_digit _ 4) by reflexivity.
    apply (digits_of_uint_acc d 4).
  - rewrite (digits_value_digit _ 5) by reflexivity.
    apply (digits_of_uint_acc d 5).
  - rewrite (digits_value_digit _ 6) by reflexivity.
    apply (digits_of_uint_acc d 6).
  - rewrite (digits_value_digit _ 7) by reflexivity.
    apply (digits_of_uint_acc d 7).
  - rewrite (digits_value_digit _ 8) by reflexivity.
    apply (digits_of_uint_acc d 8).
  - rewrite (digits_value_digit _ 9) by reflexivity.
    apply (digits_of_uint_acc d 9).
Qed.

(** A character that [int] neither strips nor reads as a sign. *)
Lemma uint_chars_are_plain (d : Decimal.uint) :
  Forall (fun c => is_space c = false /\
                   Ascii.eqb c "-" = false /\ Ascii.eqb c "+" = false)
    (list_ascii_of_string (NilEmpty.string_of_uint d)).
Proof.
  induction d; cbn [NilEmpty.string_of_uint list_ascii_of_string];
    constructor; try exact IHd; repeat split.
Qed.

Lemma strip_no_space (cs : list ascii) :
  Forall (fun c => is_space c = false) cs -> strip cs = cs.
Proof.
  intros H. unfold strip.
  assert (Hl : forall l, Forall (fun c => is_space c = false) l ->
                         lstrip l = l).
  { intros [|a l] Hf; [reflexivity|]. inversion Hf; subst.
    cbn [lstrip]. now match goal with E : is_space a = false |- _ =>
                        rewrite E end. }
  rewrite (Hl cs H), (Hl (rev cs)) by now apply Forall_rev.
  apply rev_involutive.
Qed.

Lemma uint_digit_count (d : Decimal.uint) :
  digit_count (list_ascii_of_string (NilEmpty.string_of_uint d))
    = Z.of_nat (Decimal.nb_digits d).
Proof.
  unfold digit_count. f_equal.
  induction d; cbn [NilEmpty.string_of_uint list_ascii_of_string filter
                    Decimal.nb_digits];
    [reflexivity|..];
    match goal with
    | |- context [is_digit ?c] => change (is_digit c) with true
    end;
    cbn [List.length]; now f_equal.
Qed.

Lemma nzhead_digits (d : Decimal.uint) :
  (Decimal.nb_digits (Decimal.nzhead d) <= Decimal.nb_digits d)%nat.
Proof. induction d; simpl; lia. Qed.

Lemma of_uint_acc_lower (d : Decimal.uint) (acc : positive) :
  Z.pos acc * 10 ^ Z.of_nat (Decimal.nb_digits d)
    <= Z.pos (Pos.of_uint_acc d acc).
Proof.
  revert acc. induction d; intros acc;
    cbn [Pos.of_uint_acc Decimal.nb_digits];
    [simpl; lia|..];
    rewrite Nat2Z.inj_succ, Z.pow_succ_r by lia;
    match goal with
    | |- _ <= Z.pos (Pos.of_uint_acc _ ?p) =>
        specialize (IHd p);
        assert (0 < 10 ^ Z.of_nat (Decimal.nb_digits d))
          by (apply Z.pow_pos_nonneg; lia);
        nia
    end.
Qed.

Lemma to_uint_digits (p : positive) (k : Z) :
  0 <= k ->
  Z.pos p < 10 ^ k ->
  Z.of_nat (Decimal.nb_digits (Pos.to_uint p)) <= k.
Proof.
  intros Hk Hp. pose proof (Unsigned.of_to p) as Hof.
  pose proof (DecimalPos.Unsigned.to_of (Pos.to_uint p)) as Hto.
  rewrite Hof in Hto. cbn [N.to_uint] in Hto.
  assert (Hlow : forall tl c,
            N.pos (Pos.of_uint_acc tl c) = N.pos p ->
            Z.of_nat (S (Decimal.nb_digits tl)) <= k).
  { intros tl c H.
    assert (E : Z.pos (Pos.of_uint_acc tl c) = Z.pos p) by congruence.
    pose proof (of_uint_acc_lower tl c) as Hb. rewrite E in Hb.
    assert (Hlt : 10 ^ Z.of_nat (Decimal.nb_digits tl) < 10 ^ k).
    { assert (0 < 10 ^ Z.of_nat (Decimal.nb_digits tl))
        by (apply Z.pow_pos_nonneg; lia).
      nia. }
    apply Z.pow_lt_mono_r_iff in Hlt; lia. }
  unfold Decimal.unorm in Hto.
  destruct (Pos.to_uint p) as [|l|l|l|l|l|l|l|l|l|l];
    cbn [Pos.of_uint Decimal.nb_digits] in *;
    try (now apply (Hlow _ _ Hof)).
  - simpl. lia.
  - exfalso. cbn [Decimal.nzhead] in Hto.
    pose proof (nzhead_digits l) as Hhead.
    destruct (Decimal.nzhead l) eqn:En; try discriminate Hto;
      inversion Hto; subst; cbn [Pos.of_uint Decimal.nb_digits] in *;
      try discriminate Hof; lia.
Qed.

Lemma py_int_of_uint (d : Decimal.uint) :
  d <> Decimal.Nil ->
  Z.of_nat (Decimal.nb_digits d) <= 4300 ->
  py_int (NilEmpty.string_of_uint d) = Some (Z.of_N (Pos.of_uint d)) /\
  py_int (String "-" (NilEmpty.string_of_uint d))
    = Some (- Z.of_N (Pos.of_uint d)).
Proof.
  intros Hd Hn. pose proof (uint_chars_are_plain d) as Hp.
  assert (Hv : int_digits (list_ascii_of_string (NilEmpty.string_of_uint d))
               = Some (Z.of_N (Pos.of_uint d))).
  { unfold int_digits, max_str_digits. rewrite uint_digit_count.
    rewrite (proj2 (Z.leb_le _ _) Hn).
    apply (digits_of_uint d false (or_introl Hd)). }
  assert (Hs : Forall (fun c => is_space c = false)
                 (list_ascii_of_string (NilEmpty.string_of_uint d))).
  { eapply Forall_impl; [|exact Hp]. now intros c (H & _). }
  split; unfold py_int.
  - rewrite (strip_no_space _ Hs).
    destruct (list_ascii_of_string (NilEmpty.string_of_uint d))
      as [|c rest]; [discriminate Hv|].
    inversion Hp as [|? ? (_ & Hm & Hq) _]; subst.
    now rewrite Hm, Hq.
  - cbn [list_ascii_of_string]. rewrite strip_no_space.
    + now rewrite Ascii.eqb_refl, Hv.
    + constructor; [reflexivity|exact Hs].
Qed.

Lemma py_int_string_of_Z (n : Z) :
  Z.abs n < 10 ^ 4300 -> py_int (string_of_Z n) = Some n.
Proof.
  destruct n as [|p|p]; [reflexivity| |]; intros Hb;
    unfold string_of_Z, Z.to_int, NilZero.string_of_int;
    pose proof (Unsigned.of_to p) as Hof;
    assert (Hd : Pos.to_uint p <> Decimal.Nil)
      by (intros E; rewrite E in Hof; discriminate);
    destruct (py_int_of_uint _ Hd
                (to_uint_digits p 4300 ltac:(discriminate) Hb)) as [H1 H2];
    rewrite Hof in H1, H2;
    assert (Hn : NilZero.string_of_uint (Pos.to_uint p)
                 = NilEmpty.string_of_uint (Pos.to_uint p))
      by (destruct (Pos.to_uint p); [contradiction|reflexivity..]);
    rewrite Hn; assumption.
Qed.

(** X17.  A power-model argument written as the decimal form of an
    integer [n] (as [str] prints it, within the interpreter's default
    limit of 4300 digits) converts back to [n]: the integer [n] is what
    is assigned, and the confirmation message repeats the argument. *)
Theorem decimal_arguments_round_trip (n : Z) :
  Z.abs n < 10 ^ 4300 ->
  convert_nvpmodel (string_of_Z n) = ValInt n /\
  nvp_pyval (convert_nvpmodel (string_of_Z n)) = PInt n /\
  nvp_str (convert_nvpmodel (string_of_Z n)) = string_of_Z n.
Proof.
  intros Hn. unfold convert_nvpmodel. rewrite (py_int_string_of_Z n Hn).
  repeat split.
Qed.


End Script.

(** * Runs on simulated backends *)

Set Warnings "-notation-for-abbreviation".

Notation sim_output cfg :=
  (output nat (sim_backend cfg) sim_sleep sim_round).
Notation sim_calls cfg :=
  (calls nat (sim_backend cfg) sim_sleep sim_round).
Notation sim_arrive cfg :=
  (arrive nat (sim_backend cfg) sim_sleep sim_round).

Lemma fan_speed_empty_list_aborts_snapshot_witness :
  sim_output fan_without_speeds false None 0%nat
    = Ok (PDict [("error", PStr "Unexpected error: list index out of range")]).
Proof.
  eapply (fan_speed_empty_list_aborts_snapshot
            nat (sim_backend fan_without_speeds) sim_sleep sim_round
            false None 0%nat).
  - vm_compute. reflexivity.
  - vm_compute. reflexivity.
  - reflexivity.
  - reflexivity.
Defined.

Lemma processes_keep_records_of_ten_fields_witness :
  exists out,
    sim_output two_processes false None 0%nat = Ok (PDict out) /\
    dict_get "processes" out
      = Some (PList [PDict [("pid", PInt 1234); ("user", PStr "root");
                            ("gpu_mem", PInt 256); ("name", PStr "python3")]]).
Proof.
  eexists. split; [vm_compute; reflexivity|].
  assert (H := processes_keep_records_of_ten_fields
            nat (sim_backend two_processes) sim_sleep sim_round
            false None 0%nat).
  specialize (H _ _ [ten_field_record; [PInt 77; PStr "nobody"]] _
                eq_refl eq_refl).
  destruct H as (_ & _ & H). apply H; reflexivity.
Defined.

(** C5, the claim as stated fails: the backend reports a free swap value
    and the swap category of the snapshot has no [free] entry. *)
Lemma swap_category_has_no_free_value :
  exists out swap,
    sim_output swap_with_free false None 0%nat = Ok (PDict out) /\
    dict_get "swap" out = Some (PDict swap) /\
    swap = [("total", PInt 4096); ("used", PInt 512)] /\
    dict_get "free" swap = None.
Proof.
  eexists. eexists. split; [vm_compute; reflexivity|].
  split; [vm_compute; reflexivity|]. split; reflexivity.
Qed.

Lemma swap_category_reports_total_and_used_witness :
  exists out mem swap,
    sim_output swap_with_free false None 0%nat = Ok (PDict out) /\
    PDict [("SWAP", PDict [("tot", PInt 4096); ("used", PInt 512);
                           ("free", PInt 3584)])] = PDict mem /\
    get_or mem "SWAP" (PDict []) = PDict swap /\
    dict_get "swap" out
      = Some (PDict [("total", get_or swap "tot" (PInt 0));
                     ("used", get_or swap "used" (PInt 0))]).
Proof.
  eexists.
  assert (H := swap_category_reports_total_and_used
            nat (sim_backend swap_with_free) sim_sleep sim_round
            false None 0%nat).
  specialize (H _ _ _ _ _ eq_refl eq_refl eq_refl eq_refl).
  destruct H as (mem & swap & H1 & H2 & H3).
  exists mem, swap. split; [reflexivity|]. split; [exact H1|].
  split; [exact H2|exact H3].
Defined.

(** C6, the failing input: the object exists with status "activating" and
    boot persistence on; the snapshot reports status "inactive" and boot
    off. *)
Lemma inactive_clocks_object_gets_defaults_witness :
  dict_get "jetson_clocks" clocks_off_but_boot.(sim_report)
    = Some (PObj "JetsonClocks" false
              [("status", PStr "activating"); ("boot", PBool true)]) /\
  exists out,
    sim_output clocks_off_but_boot false None 0%nat = Ok (PDict out) /\
    dict_get "jetson_clocks" out
      = Some (PDict [("active", PBool false); ("status", PStr "inactive");
                     ("boot", PBool false)]).
Proof.
  split; [reflexivity|].
  eexists. split; [vm_compute; reflexivity|].
  assert (H := inactive_clocks_object_gets_defaults
            nat (sim_backend clocks_off_but_boot) sim_sleep sim_round
            false None 0%nat).
  specialize (H _ _ "JetsonClocks"
                [("status", PStr "activating"); ("boot", PBool true)] _
                eq_refl eq_refl).
  apply (proj2 H); reflexivity.
Defined.

Lemma nvpmodel_assignment_uses_converted_value_witness :
  In (SetProp "nvpmodel" (PInt 2)) (sim_calls bare false (Some "2") 0%nat) /\
  In (SetProp "nvpmodel" (PInt 2))
     (sim_calls bare false (Some " +0_2 ") 0%nat) /\
  In (SetProp "nvpmodel" (PStr "Quiet"))
     (sim_calls bare false (Some "Quiet") 0%nat).
Proof.
  split; [|split].
  - assert (L : int_literal "2" 2).
    { exists [], [], ["2"%char], [], [2].
      split; [reflexivity|]. split; [constructor|]. split; [constructor|].
      split; [constructor; simpl; tauto|]. split; [simpl; lia|].
      right. split; [now right|reflexivity]. }
    exact (proj2 (proj1 (nvpmodel_assignment_uses_converted_value
                           nat (sim_backend bare) sim_sleep sim_round
                           false "2" 0%nat) 2 L) eq_refl).
  - assert (L : int_literal " +0_2 " 2).
    { exists [" "%char], ["+"%char], ["0"; "_"; "2"]%char, [" "%char], [0; 2].
      split; [reflexivity|].
      split; [constructor; [simpl; tauto|constructor]|].
      split; [constructor; [simpl; tauto|constructor]|].
      split; [apply groups_underscore; [|constructor]; simpl; tauto|].
      split; [simpl; lia|].
      right. split; [now left|reflexivity]. }
    exact (proj2 (proj1 (nvpmodel_assignment_uses_converted_value
                           nat (sim_backend bare) sim_sleep sim_round
                           false " +0_2 " 0%nat) 2 L) eq_refl).
  - assert (L : forall n, ~ int_literal "Quiet" n).
    { intros n H. apply py_int_literal in H. discriminate H. }
    exact (proj2 (proj2 (nvpmodel_assignment_uses_converted_value
                           nat (sim_backend bare) sim_sleep sim_round
                           false "Quiet" 0%nat) L) eq_refl).
Defined.

(** C3, the claim as stated fails.  The handle answers the first
    readiness check with False; when it answers the second with True the
    output is a snapshot (without action keys), and when the second check
    raises the output is the record of that exception: in neither case the
    "jtop is not ok" record. *)
Lemma not_ready_at_first_check_only :
  (ready nat (sim_backend late_ready) 0%nat = false /\
   sim_output late_ready true (Some "2") 0%nat
     <> Ok (PDict [("error",
                    PStr "jtop is not ok (service might not be running)")]) /\
   exists out,
     sim_output late_ready true (Some "2") 0%nat = Ok (PDict out) /\
     has_key "board" out = true /\
     has_key "error" out = false) /\
  (ready nat (sim_backend lost_after_first_check) 0%nat = false /\
   sim_output lost_after_first_check true (Some "2") 0%nat
     = Ok (PDict [("error", PStr "JtopException: connection lost")])).
Proof.
  split; [split; [reflexivity|split]|split; [reflexivity|]].
  - vm_compute. discriminate.
  - eexists. split; [vm_compute; reflexivity|]. split; reflexivity.
  - vm_compute. reflexivity.
Qed.

Lemma not_ready_at_first_check_witness :
  Forall (fun c => is_action c = false)
    (sim_calls never_ready true (Some "2") 0%nat) /\
  sim_output never_ready true (Some "2") 0%nat
    = Ok (PDict [("error",
                  PStr "jtop is not ok (service might not be running)")]).
Proof.
  assert (H := not_ready_at_first_check
            nat (sim_backend never_ready) sim_sleep sim_round
            true (Some "2") 0%nat).
  specialize (H _ _ eq_refl eq_refl).
  destruct H as (_ & Hcalls & _ & Hout).
  split; [exact Hcalls|].
  exact (Hout _ _ eq_refl eq_refl eq_refl).
Defined.

Lemma clocks_action_outcome_is_recorded_witness :
  (exists out,
      sim_output clocks_on true None 0%nat = Ok (PDict out) /\
      is_snapshot out /\
      dict_get "clocks_action" out
        = Some (PStr "Enabled jetson_clocks and set to boot") /\
      dict_get "clocks_action_error" out = None) /\
  (exists out,
      sim_output clocks_refused true None 0%nat = Ok (PDict out) /\
      is_snapshot out /\
      dict_get "clocks_action_error" out
        = Some (PStr "jetson_clocks not available") /\
      dict_get "clocks_action" out = None).
Proof.
  split.
  - assert (H := clocks_action_outcome_is_recorded
              nat (sim_backend clocks_on) sim_sleep sim_round None 0%nat).
    specialize (H _ _ eq_refl eq_refl). destruct H as (H & _ & _).
    specialize (H _ _ eq_refl). destruct H as (_ & _ & H).
    assert (A : exists out s3,
      sim_arrive clocks_on true None 0%nat 11 = Some (out, s3) /\
      released nat (sim_backend clocks_on) s3 = true)
      by (eexists; eexists; split; vm_compute; reflexivity).
    destruct A as (out & s3 & Ha & Hr).
    exists out. exact (H out s3 Ha Hr).
  - assert (H := clocks_action_outcome_is_recorded
              nat (sim_backend clocks_refused) sim_sleep sim_round None 0%nat).
    specialize (H _ _ eq_refl eq_refl). destruct H as (_ & H & _).
    specialize (H (JtopException "jetson_clocks not available") _ eq_refl).
    destruct H as (_ & _ & H).
    assert (A : exists out s3,
      sim_arrive clocks_refused true None 0%nat 11 = Some (out, s3) /\
      released nat (sim_backend clocks_refused) s3 = true)
      by (eexists; eexists; split; vm_compute; reflexivity).
    destruct A as (out & s3 & Ha & Hr).
    exists out. exact (H out s3 Ha Hr).
Defined.

(** C7, the claim as stated fails: the handle is ready and the clocks
    action succeeds, then the fan read raises; the output is the error
    record of that exception and holds neither [clocks_action] nor
    [clocks_action_error]. *)
Lemma clocks_action_is_lost_with_the_snapshot :
  ready nat (sim_backend clocks_on_fan_empty) 0%nat = true /\
  (exists ok s s1,
      first_check nat (sim_backend clocks_on_fan_empty) 0%nat = Some (ok, s) /\
      enable_clocks_body nat (sim_backend clocks_on_fan_empty) [] s
        = (Ok [("clocks_action",
                PStr "Enabled jetson_clocks and set to boot")], s1)) /\
  exists out,
    sim_output clocks_on_fan_empty true None 0%nat = Ok (PDict out) /\
    out = [("error", PStr "Unexpected error: list index out of range")] /\
    dict_get "clocks_action" out = None /\
    dict_get "clocks_action_error" out = None.
Proof.
  split; [reflexivity|]. split.
  - eexists. eexists. eexists. split; reflexivity.
  - eexists. split; [vm_compute; reflexivity|]. repeat split; reflexivity.
Qed.

(** C4, the claim as stated fails: enabling the clocks raises the
    backend's own exception, and the output is a snapshot that records the
    message under [clocks_action_error], not the record
    [{"error": "JtopException: ..."}]. *)
Lemma jtop_exception_in_action_is_not_fatal :
  fst (sim_backend clocks_refused (SetProp "jetson_clocks" (PBool true)) 1%nat)
    = Raise (JtopException "jetson_clocks not available") /\
  sim_output clocks_refused true None 0%nat
    <> Ok (PDict [("error",
                   PStr "JtopException: jetson_clocks not available")]) /\
  exists out,
    sim_output clocks_refused true None 0%nat = Ok (PDict out) /\
    has_key "error" out = false /\
    has_key "board" out = true /\
    dict_get "clocks_action_error" out
      = Some (PStr "jetson_clocks not available").
Proof.
  split; [reflexivity|]. split.
  - vm_compute. discriminate.
  - eexists. split; [vm_compute; reflexivity|]. repeat split; reflexivity.
Qed.

Lemma exceptions_are_reported_by_origin_witness :
  sim_output cpu_unreadable false None 0%nat
    = Ok (PDict [("error", PStr "JtopException: connection lost")]).
Proof.
  assert (H := exceptions_are_reported_by_origin
            nat (sim_backend cpu_unreadable) sim_sleep sim_round
            false None 0%nat (JtopException "connection lost")).
  destruct H as (_ & _ & _ & Hread & _).
  exact (Hread 3%nat _ _ _ _ eq_refl eq_refl eq_refl eq_refl).
Defined.




(** * Conversions of the power-model argument *)

Example py_int_2 : py_int "2" = Some 2.
Proof. reflexivity. Qed.

Example py_int_Quiet : py_int "Quiet" = None.
Proof. reflexivity. Qed.

Example py_int_padded : py_int " -1_5 " = Some (-15).
Proof. reflexivity. Qed.

Example py_int_bad_underscore : py_int "1__5" = None.
Proof. reflexivity. Qed.

Example nvp_str_int : nvp_str (convert_nvpmodel "-07") = "-7".
Proof. reflexivity. Qed.

(** Code point 160 (no-break space) is white space for [int]; code point
    28 (file separator) is not. *)
Example py_int_no_break_space :
  py_int (String (ascii_of_nat 160) "2") = Some 2.
Proof. reflexivity. Qed.

Example py_int_separator : py_int (String (ascii_of_nat 28) "2") = None.
Proof. reflexivity. Qed.

(** A literal of 4300 digits converts, one of 4301 does not. *)
Example py_int_digit_limit :
  py_int (string_of_list_ascii (List.repeat "1"%char 4300)) <> None /\
  py_int (string_of_list_ascii (List.repeat "1"%char 4301)) = None.
Proof. split; vm_compute; [discriminate|reflexivity]. Qed.

(** * Further runs and evaluations *)

Lemma snapshot_keys_in_order_witness :
  exists out reports,
    sim_output bare true (Some "2") 0%nat = Ok (PDict out) /\
    dict_keys out = (reports ++ snapshot_keys)%list /\
    action_report_keys true (Some "2") reports.
Proof.
  assert (H := snapshot_keys_in_order
            nat (sim_backend bare) sim_sleep sim_round
            true (Some "2") 0%nat _ eq_refl eq_refl).
  destruct H as (reports & Hk & Hr & _).
  eexists. exists reports. split; [reflexivity|].
  split; [exact Hk|exact Hr].
Defined.

Lemma handle_released_exactly_once_witness :
  sim_calls service_down true (Some "2") 0%nat = [Enter] /\
  exists mid,
    sim_calls bare false None 0%nat = (Enter :: mid ++ [Exit])%list /\
    Forall (fun c => c <> Enter /\ c <> Exit) mid.
Proof.
  split.
  - exact (proj1 (handle_released_exactly_once
                    nat (sim_backend service_down) sim_sleep sim_round
                    true (Some "2") 0%nat) eq_refl).
  - exact (proj2 (handle_released_exactly_once
                    nat (sim_backend bare) sim_sleep sim_round
                    false None 0%nat) _ eq_refl).
Defined.

Lemma nvpmodel_action_outcome_is_recorded_witness :
  (exists out,
      sim_output bare false (Some "2") 0%nat = Ok (PDict out) /\
      dict_get "nvpmodel_action" out = Some (PStr "Set nvpmodel to 2") /\
      dict_get "nvpmodel_action_error" out = None) /\
  (exists out,
      sim_output nvpmodel_refused false (Some "2") 0%nat = Ok (PDict out) /\
      dict_get "nvpmodel_action_error" out
        = Some (PStr "NVPmodel does not exist") /\
      dict_get "nvpmodel_action" out = None) /\
  (exists out,
      sim_output bare false (Some (String (ascii_of_nat 160) "2")) 0%nat
        = Ok (PDict out) /\
      dict_get "nvpmodel_action" out = Some (PStr "Set nvpmodel to 2") /\
      dict_get "nvpmodel_action_error" out = None).
Proof.
  split; [|split].
  - assert (H := nvpmodel_action_outcome_is_recorded
              nat (sim_backend bare) sim_sleep sim_round false "2" 0%nat).
    specialize (H _ _ _ _ eq_refl eq_refl eq_refl).
    destruct H as (H & _ & _). specialize (H _ _ eq_refl).
    destruct H as (d2 & s3 & _ & _ & _ & _ & H).
    eexists. split; [vm_compute; reflexivity|].
    apply H; reflexivity.
  - assert (H := nvpmodel_action_outcome_is_recorded
              nat (sim_backend nvpmodel_refused) sim_sleep sim_round
              false "2" 0%nat).
    specialize (H _ _ _ _ eq_refl eq_refl eq_refl).
    destruct H as (_ & H & _). specialize (H _ _ eq_refl).
    destruct H as (d2 & _ & _ & _ & _ & H).
    eexists. split; [vm_compute; reflexivity|].
    apply H; reflexivity.
  - assert (H := nvpmodel_action_outcome_is_recorded
              nat (sim_backend bare) sim_sleep sim_round false
              (String (ascii_of_nat 160) "2") 0%nat).
    specialize (H _ _ _ _ eq_refl eq_refl eq_refl).
    destruct H as (H & _ & _). specialize (H _ _ eq_refl).
    destruct H as (d2 & s3 & _ & _ & _ & _ & H).
    eexists. split; [vm_compute; reflexivity|].
    apply H; reflexivity.
Defined.

Lemma clocks_assignment_can_go_unreported_witness :
  In (SetProp "jetson_clocks" (PBool true))
     (sim_calls ready_then_lost true None 0%nat) /\
  sim_output ready_then_lost true None 0%nat
    = Ok (PDict [("error",
                  PStr "jtop is not ok (service might not be running)")]).
Proof.
  exact (clocks_assignment_can_go_unreported
           nat (sim_backend ready_then_lost) sim_sleep sim_round
           None 0%nat _ _ _ eq_refl eq_refl eq_refl eq_refl).
Defined.

Lemma temperature_keeps_online_sensors_witness :
  exists out,
    temperature_category sim_round (PDict three_sensors) = Ok (PDict out) /\
    dict_keys out = ["CPU"] /\
    dict_get "GPU" out = None /\
    dict_get "CPU" out = Some (PInt 41).
Proof.
  assert (H := temperature_keeps_online_sensors
            sim_round three_sensors _ eq_refl eq_refl).
  destruct H as (Hk & Hoff & Hon).
  eexists. split; [reflexivity|]. split; [exact Hk|]. split.
  - exact (Hoff "GPU" (PDict [("online", PBool false); ("temp", PInt 99)])
             (or_intror (or_introl eq_refl)) eq_refl).
  - exact (Hon "CPU" [("online", PBool true); ("temp", PInt 41)] (PInt 41)
             (or_introl eq_refl) eq_refl eq_refl).
Defined.

Lemma fan_speed_by_shape_witness :
  fan_speed (PDict [("speed", PList [PInt 42; PInt 43])]) = Ok (PInt 42) /\
  fan_speed (PDict [("speed", PInt 42)]) = Ok (PInt 42) /\
  fan_speed (PDict [("profile", PStr "quiet")]) = Ok (PInt 0).
Proof.
  split; [|split].
  - exact (proj1 (proj2 (fan_speed_by_shape
                           [("speed", PList [PInt 42; PInt 43])]))
             (PInt 42) [PInt 43] eq_refl).
  - exact (proj1 (proj2 (proj2 (fan_speed_by_shape [("speed", PInt 42)])))
             (PInt 42) eq_refl eq_refl).
  - exact (proj1 (fan_speed_by_shape [("profile", PStr "quiet")]) eq_refl).
Defined.

Lemma fan_profile_fallback_witness :
  fan_profile (PDict [("profile", PStr "quiet"); ("governor", PStr "cool")])
    = Ok (PStr "quiet") /\
  fan_profile (PDict [("profile", PStr "Unknown"); ("governor", PStr "cool");
                      ("control", PStr "manual")])
    = Ok (PStr "cool") /\
  fan_profile (PDict [("control", PStr "manual")]) = Ok (PStr "manual").
Proof.
  split; [|split].
  - exact (proj1 (fan_profile_fallback
                    [("profile", PStr "quiet"); ("governor", PStr "cool")])
             (PStr "quiet") eq_refl eq_refl).
  - exact (proj1 (proj2 (fan_profile_fallback
                           [("profile", PStr "Unknown");
                            ("governor", PStr "cool");
                            ("control", PStr "manual")]))
             (PStr "cool") eq_refl eq_refl).
  - exact (proj1 (proj2 (proj2 (fan_profile_fallback
                                  [("control", PStr "manual")])))
             eq_refl eq_refl).
Defined.

Lemma online_cores_is_bounded_witness :
  exists out n,
    cpu_category sim_round (PDict three_cores) = Ok (PDict out) /\
    dict_get "online_cores" out = Some (PInt n) /\
    0 <= n <= 3.
Proof.
  assert (H := online_cores_is_bounded sim_round three_cores _ eq_refl).
  destruct H as (n & Hn & Hb).
  eexists. exists n. split; [reflexivity|]. split; [exact Hn|exact Hb].
Defined.

Lemma engines_are_passed_through_witness :
  exists out its,
    engines_category
      (PDict [("DLA", PDict [("DLA0", PDict [("online", PBool false)]);
                             ("DLA1", PDict [("cur", PInt 7)])])])
      = Ok (PDict out) /\
    dict_keys out = ["DLA"] /\
    dict_get "DLA" out = Some (PDict its) /\
    dict_keys its = ["DLA0"; "DLA1"].
Proof.
  assert (H := engines_are_passed_through
            (PDict [("DLA", PDict [("DLA0", PDict [("online", PBool false)]);
                                   ("DLA1", PDict [("cur", PInt 7)])])])
            eq_refl).
  destruct H as (out & Hc & Hk & Hg).
  destruct (Hg "DLA" _ (or_introl eq_refl)) as (its & Hi & Hik & _).
  exists out, its. split; [exact Hc|]. split; [exact Hk|].
  split; [exact Hi|exact Hik].
Defined.

Lemma properties_are_read_once_in_order_witness :
  filter is_probe (sim_calls bare true (Some "2") 0%nat) = probes /\
  filter is_probe (sim_calls cpu_unreadable false None 0%nat)
    = [IsOk; IsOk; GetProp "board"; GetProp "cpu"].
Proof.
  split; [|reflexivity].
  destruct (properties_are_read_once_in_order
              nat (sim_backend bare) sim_sleep sim_round
              true (Some "2") 0%nat) as (rest & E & F).
  rewrite (F _ eq_refl eq_refl), app_nil_r in E. symmetry. exact E.
Defined.

Lemma power_mode_is_read_again_after_the_test_witness :
  output nat vanishing_mode sim_sleep sim_round false None 0%nat
    = Ok (PDict [("error",
                  PStr "Unexpected error: 'NoneType' object has no attribute 'name'")]).
Proof.
  assert (H := power_mode_is_read_again_after_the_test
            nat vanishing_mode sim_sleep sim_round false None 0%nat).
  specialize (H _ _ _ _ PNone _ _
                eq_refl eq_refl eq_refl eq_refl eq_refl eq_refl).
  exact (proj2 H).
Defined.

Lemma lookup_categories_fail_only_on_non_mappings_witness :
  gpu_category (PDict [("freq", PDict [("cur", PInt 306)])])
    = Ok (PDict [("load", PInt 0); ("curr_freq", PInt 306);
                 ("max_freq", PInt 0)]) /\
  gpu_category (PDict [("status", PInt 3)])
    = Raise (OtherException "'int' object has no attribute 'get'") /\
  get_missing (OtherException "'int' object has no attribute 'get'").
Proof.
  split; [|split; [reflexivity|]].
  - apply (proj1 (proj2 (proj2 (lookup_categories_fail_only_on_non_mappings
                                  (PDict [("freq",
                                           PDict [("cur", PInt 306)])]))))).
    split; reflexivity.
  - apply (proj2 (proj2 (proj2 (proj2 (proj2
             (lookup_categories_fail_only_on_non_mappings
                (PDict [("status", PInt 3)]))))))).
    right. right. left. reflexivity.
Defined.

Lemma names_with_a_letter_are_kept_witness :
  convert_nvpmodel "15W" = ValStr "15W" /\
  nvp_pyval (convert_nvpmodel "15W") = PStr "15W" /\
  nvp_str (convert_nvpmodel "15W") = "15W".
Proof.
  exact (names_with_a_letter_are_kept "15W" "W"
           (or_intror (or_intror (or_introl eq_refl))) eq_refl).
Defined.

Lemma decimal_arguments_round_trip_witness :
  convert_nvpmodel "12" = ValInt 12 /\
  nvp_pyval (convert_nvpmodel "12") = PInt 12 /\
  nvp_str (convert_nvpmodel "12") = "12".
Proof.
  apply (decimal_arguments_round_trip 12). vm_compute. reflexivity.
Defined.
